(** * RSSI localisation simulators: signal model and direction estimation

    A shallow embedding of the two simulators of the repository,

    - [simulador_octonodo_DF.py]  (class [SimuladorTrilateracion]): eight
      anchors on a circle, a mobile node on a circular orbit, noisy distance
      measurements, log-distance RSSI and the RSSI-weighted resultant vector;
    - [simulador_localizacion_interiores.py] (class
      [SimuladorLocalizacionInteriores]): four anchors in the corners of a
      building, a mobile node walking the corridors, free-space RSSI;

    and of the frame callback of the script [escenario_outdoor.py], followed
    by the properties of the specification that concern them and by further
    properties of the code.  [RSSI.py], a loop that reads a radio and drives
    a display, is not modelled.

    Conventions of the embedding.  A binary64 value is idealised as a real
    number: rounding, overflow and signed zeros are not modelled.  The one
    place where the source can leave the finite values (an unguarded
    [np.log10]) is modelled with the IEEE special values made explicit
    ([np.float]).  The module-global generator of [np.random] is a state that
    is threaded through every call that draws from it; Python exceptions are
    the [Raise] outcomes of a [result].  A frame number is the integer that
    the animation passes to its callback; the trajectory formulas are given
    for any real number.  Plotting calls are left out: they read the
    simulation state and never write it, and what matplotlib does with a
    frame number outside the range of the animation is not modelled. *)

From Stdlib Require Import Reals Lra Lia ZArith.
From stdpp Require Import base list gmap strings pretty.

Open Scope R_scope.

(** ** Python outcomes *)

(** The exceptions of the modelled code.  [KeyError] and [IndexError] are the
    ones a dictionary or array access raises; [InvalidStepError] is the error
    the specification names for the trajectory generator. *)
Inductive exn : Type :=
  | KeyError (key : string)
  | IndexError
  | InvalidStepError.

Inductive result (A : Type) : Type :=
  | Ok (a : A)
  | Raise (e : exn).
Arguments Ok {A} a.
Arguments Raise {A} e.

(** [l[i]] and [l[i] = v] on a Python list or a numpy array, for [0 <= i]. *)
Definition getitem {A} (l : list A) (i : nat) : result A :=
  match l !! i with
  | Some x => Ok x
  | None => Raise IndexError
  end.

Definition setitem {A} (l : list A) (i : nat) (v : A) : result (list A) :=
  if decide (i < length l)%nat then Ok (<[i:=v]> l) else Raise IndexError.

(** [d[k].append(v)] on a dictionary of lists. *)
Definition dict_append {V} (d : gmap string (list V)) (k : string) (v : V)
  : result (gmap string (list V)) :=
  match d !! k with
  | Some l => Ok (<[k := l ++ [v]]> d)
  | None => Raise (KeyError k)
  end.

(** The key [f'{prefix}{i+1}'] of the [i]-th anchor in a history. *)
Definition clave (prefix : string) (i : nat) : string :=
  prefix +:+ pretty (i + 1)%nat.

(** The dictionary comprehension [{f'{prefix}{i+1}': [] for i in range(n)}]. *)
Definition historial_vacio {V} (prefix : string) (n : nat) : gmap string (list V) :=
  foldl (fun d i => <[clave prefix i := []]> d) ∅ (seq 0 n).

(** What a loop of [d[f'{prefix}{i+1}'].append(v)] does to a dictionary: the
    [j]-th value is appended to the history of anchor [i + j], and nothing
    else changes. *)
Definition anexadas {V} (prefix : string) (i : nat) (vs : list V)
    (h h' : gmap string (list V)) : Prop :=
  (forall j v, vs !! j = Some v ->
     h' !! clave prefix (i + j) = (fun l => l ++ [v]) <$> h !! clave prefix (i + j)) /\
  (forall k, (forall j, (j < length vs)%nat -> k <> clave prefix (i + j)) ->
     h' !! k = h !! k).

(** A point or a vector of the plane: a numpy array of shape (2,). *)
Definition Point2D : Type := R * R.

Definition vadd (u v : Point2D) : Point2D := (u.1 + v.1, u.2 + v.2).
Definition vsub (u v : Point2D) : Point2D := (u.1 - v.1, u.2 - v.2).
Definition vscale (v : Point2D) (k : R) : Point2D := (v.1 * k, v.2 * k).
Definition vdiv (v : Point2D) (k : R) : Point2D := (v.1 / k, v.2 / k).

(** ** The numpy functions the simulators call *)

Module np.

(** A float that may have left the finite values. *)
Inductive float : Type :=
  | Finite (r : R)
  | PosInf
  | NegInf
  | NaN.

(** [a * x] and [x + b] for finite [a] and [b]. *)
Definition scale (a : R) (x : float) : float :=
  match x with
  | Finite r => Finite (a * r)
  | PosInf =>
      if Rlt_dec 0 a then PosInf else if Rlt_dec a 0 then NegInf else NaN
  | NegInf =>
      if Rlt_dec 0 a then NegInf else if Rlt_dec a 0 then PosInf else NaN
  | NaN => NaN
  end.

Definition shift (x : float) (b : R) : float :=
  match x with
  | Finite r => Finite (r + b)
  | other => other
  end.

(** [np.log10]: the logarithm on the positive reals. *)
Definition log10_pos (x : R) : R := ln x / ln 10.

(** [np.log10] on any real: minus infinity at zero and not-a-number on the
    negative reals (numpy warns and carries on). *)
Definition log10 (x : R) : float :=
  if Rlt_dec 0 x then Finite (log10_pos x)
  else if Req_dec_T x 0 then NegInf
  else NaN.

(** [np.power(b, x)] for a positive base. *)
Definition power (b x : R) : R := Rpower b x.

(** [np.arctan2(y, x)], in radians, in the interval (-pi, pi]. *)
Definition arctan2 (y x : R) : R :=
  if Rlt_dec 0 x then atan (y / x)
  else if Rlt_dec x 0 then
    if Rle_dec 0 y then atan (y / x) + PI else atan (y / x) - PI
  else if Rlt_dec 0 y then PI / 2
  else if Rlt_dec y 0 then - (PI / 2)
  else 0.

(** [np.linspace(start, stop, num, endpoint=False)]. *)
Definition linspace (start stop : R) (num : nat) : list R :=
  (fun i => start + INR i * ((stop - start) / INR num)) <$> seq 0 num.

(** [np.cumsum] along a row. *)
Fixpoint cumsum_from (acc : R) (l : list R) : list R :=
  match l with
  | [] => []
  | x :: l' => (acc + x) :: cumsum_from (acc + x) l'
  end.
Definition cumsum (l : list R) : list R := cumsum_from 0 l.

Module linalg.
(** [np.linalg.norm] of a vector of the plane. *)
Definition norm (v : Point2D) : R := sqrt (v.1 * v.1 + v.2 * v.2).
End linalg.

Module random.

(** The global generator.  [algorithm] is the sequence of standard normal
    samples that each seed produces (fixed by the library); [samples] is
    the sequence being consumed and [cursor] the number of samples
    already drawn from it. *)
Record RandomState : Type := mkRandomState {
  algorithm : Z -> nat -> R;
  samples : nat -> R;
  cursor : nat
}.

(** [np.random.seed(s)]. *)
Definition seed (s : Z) (g : RandomState) : RandomState :=
  {| algorithm := algorithm g; samples := algorithm g s; cursor := 0 |}.

(** The sample that the next draw returns. *)
Definition peek (g : RandomState) (k : nat) : R := samples g (cursor g + k).

Definition advance (g : RandomState) (k : nat) : RandomState :=
  {| algorithm := algorithm g; samples := samples g; cursor := cursor g + k |}.

(** [np.random.normal(loc, scale)]. *)
Definition normal (loc scale : R) (g : RandomState) : R * RandomState :=
  (loc + scale * peek g 0, advance g 1).

(** [np.random.randn(rows, cols)], filled row by row. *)
Definition randn (rows cols : nat) (g : RandomState)
  : list (list R) * RandomState :=
  ((fun r => (fun c => peek g (r * cols + c)) <$> seq 0 cols) <$> seq 0 rows,
   advance g (rows * cols)).

End random.

End np.

(** Two generators for the worked examples.  They run the same algorithm,
    under which every sample of every seed is 1; the second one has already
    been drawn from. *)
Definition generador_unos : np.random.RandomState :=
  {| np.random.algorithm := fun _ _ => 1;
     np.random.samples := fun _ => 1;
     np.random.cursor := 0 |}.

Definition generador_usado : np.random.RandomState :=
  {| np.random.algorithm := fun _ _ => 1;
     np.random.samples := fun k => INR k;
     np.random.cursor := 5 |}.

(** Two generators from which the same samples will be drawn. *)
Definition mismas_muestras (g1 g2 : np.random.RandomState) : Prop :=
  forall k, np.random.peek g1 k = np.random.peek g2 k.

Arguments np.random.peek : simpl never.
Arguments np.random.advance : simpl never.

(** ** Computations that draw random numbers and may raise *)

Definition M (A : Type) : Type :=
  np.random.RandomState -> result (A * np.random.RandomState).

Definition ret {A} (a : A) : M A := fun g => Ok (a, g).

Definition bind {A B} (m : M A) (k : A -> M B) : M B :=
  fun g => match m g with
           | Ok (a, g') => k a g'
           | Raise e => Raise e
           end.

(** A step that may raise and does not draw. *)
Definition lift {A} (r : result A) : M A :=
  fun g => match r with
           | Ok a => Ok (a, g)
           | Raise e => Raise e
           end.

(** A draw. *)
Definition draw {A} (d : np.random.RandomState -> A * np.random.RandomState) : M A :=
  fun g => Ok (d g).

#[global] Instance M_ret : MRet M := @ret.
#[global] Instance M_bind : MBind M := fun A B k m => bind m k.

(** [for i, x in enumerate(l): st = body(i, x, st)], from index [i]. *)
Fixpoint for_enumerate_from {A St} (i : nat) (l : list A)
    (body : nat -> A -> St -> M St) (st : St) : M St :=
  match l with
  | [] => ret st
  | x :: l' => st' ← body i x st; for_enumerate_from (S i) l' body st'
  end.

Definition for_enumerate {A St} (l : list A) (body : nat -> A -> St -> M St)
  : St -> M St :=
  for_enumerate_from 0 l body.

(** The list comprehension [[f(x) for x in l]] when [f] draws. *)
Fixpoint comprehension {A B} (f : A -> M B) (l : list A) : M (list B) :=
  match l with
  | [] => ret []
  | x :: l' => y ← f x; ys ← comprehension f l'; ret (y :: ys)
  end.

(** ** The direction estimator, as the specification words it

    A second definition of the estimate, written from the five steps of the
    specification (section 4.6), to be compared with the code of the
    octonodal simulator. *)

#[global] Instance R_eq_dec : EqDecision R := Req_dec_T.

Module DirectionEstimatorSpec.

(** Step 1: the unit vector from the anchor to the mobile position, the zero
    vector when they coincide. *)
Definition unit_vector (mobile anchor : Point2D) : Point2D :=
  if decide (anchor = mobile) then (0, 0)
  else vdiv (vsub mobile anchor) (np.linalg.norm (vsub mobile anchor)).

(** Step 2: the linear weight of an RSSI in dBm. *)
Definition weight (rssi : R) : R := Rpower 10 (rssi / 10).

(** Step 3: the weighted sum of the unit vectors. *)
Definition weighted_sum (units : list Point2D) (weights : list R) : Point2D :=
  foldr vadd (0, 0) (zip_with vscale units weights).

(** Step 4: normalised when its norm is positive, the zero vector otherwise. *)
Definition normalize (v : Point2D) : Point2D :=
  if Rlt_dec 0 (np.linalg.norm v) then vdiv v (np.linalg.norm v) else (0, 0).

(** Step 5: the bearing in degrees. *)
Definition bearing_degrees (resultant : Point2D) : R :=
  np.arctan2 resultant.2 resultant.1 * 180 / PI.

Definition estimate (mobile : Point2D) (anchors : list Point2D) (rssi : list R)
  : Point2D * R :=
  let units := unit_vector mobile <$> anchors in
  let weights := weight <$> rssi in
  let resultant := normalize (weighted_sum units weights) in
  (resultant, bearing_degrees resultant).

End DirectionEstimatorSpec.

(** ** The octonodal simulator ([simulador_octonodo_DF.py]) *)

Module Octonodo.

(** The attributes of [SimuladorTrilateracion] that the simulation reads or
    writes (the figure, the axes and the plot artists are left out). *)
Record SimuladorTrilateracion : Type := mkSimulador {
  radio_nodos : R;
  centro_nodos : Point2D;
  num_nodos : nat;
  nodos_fijos : list Point2D;
  nodo_movil : Point2D;
  radio_trayectoria : R;
  velocidad_trayectoria : R;
  centro_trayectoria : Point2D;
  distancias_historicas : gmap string (list R);
  trayectoria_x : list R;
  trayectoria_y : list R;
  vectores_direccion : list Point2D;
  magnitudes_rssi : list R;
  potencia_tx : R;
  perdida_ref : R;
  exponente_perdida : R;
  error_medicion : R;
  mostrar_vectores : bool;
  mostrar_trayectoria : bool;
  max_frames : nat;
  acelerometro : list (list R);
  giroscopio : list (list R);
  pausa : bool
}.

(** Attribute assignments [self.f = v]. *)
Definition set_nodo_movil (v : Point2D) (self : SimuladorTrilateracion)
  : SimuladorTrilateracion :=
  mkSimulador (self.(radio_nodos)) (self.(centro_nodos)) (self.(num_nodos))
    (self.(nodos_fijos)) v (self.(radio_trayectoria))
    (self.(velocidad_trayectoria)) (self.(centro_trayectoria))
    (self.(distancias_historicas)) (self.(trayectoria_x))
    (self.(trayectoria_y)) (self.(vectores_direccion))
    (self.(magnitudes_rssi)) (self.(potencia_tx))
    (self.(perdida_ref)) (self.(exponente_perdida))
    (self.(error_medicion)) (self.(mostrar_vectores))
    (self.(mostrar_trayectoria)) (self.(max_frames))
    (self.(acelerometro)) (self.(giroscopio)) (self.(pausa)).

Definition set_trayectoria_x (v : list R) (self : SimuladorTrilateracion)
  : SimuladorTrilateracion :=
  mkSimulador (self.(radio_nodos)) (self.(centro_nodos)) (self.(num_nodos))
    (self.(nodos_fijos)) (self.(nodo_movil))
    (self.(radio_trayectoria)) (self.(velocidad_trayectoria))
    (self.(centro_trayectoria)) (self.(distancias_historicas)) v
    (self.(trayectoria_y)) (self.(vectores_direccion))
    (self.(magnitudes_rssi)) (self.(potencia_tx))
    (self.(perdida_ref)) (self.(exponente_perdida))
    (self.(error_medicion)) (self.(mostrar_vectores))
    (self.(mostrar_trayectoria)) (self.(max_frames))
    (self.(acelerometro)) (self.(giroscopio)) (self.(pausa)).

Definition set_trayectoria_y (v : list R) (self : SimuladorTrilateracion)
  : SimuladorTrilateracion :=
  mkSimulador (self.(radio_nodos)) (self.(centro_nodos)) (self.(num_nodos))
    (self.(nodos_fijos)) (self.(nodo_movil))
    (self.(radio_trayectoria)) (self.(velocidad_trayectoria))
    (self.(centro_trayectoria)) (self.(distancias_historicas))
    (self.(trayectoria_x)) v (self.(vectores_direccion))
    (self.(magnitudes_rssi)) (self.(potencia_tx))
    (self.(perdida_ref)) (self.(exponente_perdida))
    (self.(error_medicion)) (self.(mostrar_vectores))
    (self.(mostrar_trayectoria)) (self.(max_frames))
    (self.(acelerometro)) (self.(giroscopio)) (self.(pausa)).

Definition set_vectores_direccion (v : list Point2D) (self : SimuladorTrilateracion)
  : SimuladorTrilateracion :=
  mkSimulador (self.(radio_nodos)) (self.(centro_nodos)) (self.(num_nodos))
    (self.(nodos_fijos)) (self.(nodo_movil))
    (self.(radio_trayectoria)) (self.(velocidad_trayectoria))
    (self.(centro_trayectoria)) (self.(distancias_historicas))
    (self.(trayectoria_x)) (self.(trayectoria_y)) v
    (self.(magnitudes_rssi)) (self.(potencia_tx))
    (self.(perdida_ref)) (self.(exponente_perdida))
    (self.(error_medicion)) (self.(mostrar_vectores))
    (self.(mostrar_trayectoria)) (self.(max_frames))
    (self.(acelerometro)) (self.(giroscopio)) (self.(pausa)).

Definition set_magnitudes_rssi (v : list R) (self : SimuladorTrilateracion)
  : SimuladorTrilateracion :=
  mkSimulador (self.(radio_nodos)) (self.(centro_nodos)) (self.(num_nodos))
    (self.(nodos_fijos)) (self.(nodo_movil))
    (self.(radio_trayectoria)) (self.(velocidad_trayectoria))
    (self.(centro_trayectoria)) (self.(distancias_historicas))
    (self.(trayectoria_x)) (self.(trayectoria_y))
    (self.(vectores_direccion)) v (self.(potencia_tx))
    (self.(perdida_ref)) (self.(exponente_perdida))
    (self.(error_medicion)) (self.(mostrar_vectores))
    (self.(mostrar_trayectoria)) (self.(max_frames))
    (self.(acelerometro)) (self.(giroscopio)) (self.(pausa)).

Definition set_distancias_historicas (v : gmap string (list R)) (self : SimuladorTrilateracion)
  : SimuladorTrilateracion :=
  mkSimulador (self.(radio_nodos)) (self.(centro_nodos)) (self.(num_nodos))
    (self.(nodos_fijos)) (self.(nodo_movil))
    (self.(radio_trayectoria)) (self.(velocidad_trayectoria))
    (self.(centro_trayectoria)) v (self.(trayectoria_x))
    (self.(trayectoria_y)) (self.(vectores_direccion))
    (self.(magnitudes_rssi)) (self.(potencia_tx))
    (self.(perdida_ref)) (self.(exponente_perdida))
    (self.(error_medicion)) (self.(mostrar_vectores))
    (self.(mostrar_trayectoria)) (self.(max_frames))
    (self.(acelerometro)) (self.(giroscopio)) (self.(pausa)).

Definition set_mostrar_vectores (v : bool) (self : SimuladorTrilateracion)
  : SimuladorTrilateracion :=
  mkSimulador (self.(radio_nodos)) (self.(centro_nodos)) (self.(num_nodos))
    (self.(nodos_fijos)) (self.(nodo_movil))
    (self.(radio_trayectoria)) (self.(velocidad_trayectoria))
    (self.(centro_trayectoria)) (self.(distancias_historicas))
    (self.(trayectoria_x)) (self.(trayectoria_y))
    (self.(vectores_direccion)) (self.(magnitudes_rssi))
    (self.(potencia_tx)) (self.(perdida_ref))
    (self.(exponente_perdida)) (self.(error_medicion)) v
    (self.(mostrar_trayectoria)) (self.(max_frames))
    (self.(acelerometro)) (self.(giroscopio)) (self.(pausa)).

Definition set_mostrar_trayectoria (v : bool) (self : SimuladorTrilateracion)
  : SimuladorTrilateracion :=
  mkSimulador (self.(radio_nodos)) (self.(centro_nodos)) (self.(num_nodos))
    (self.(nodos_fijos)) (self.(nodo_movil))
    (self.(radio_trayectoria)) (self.(velocidad_trayectoria))
    (self.(centro_trayectoria)) (self.(distancias_historicas))
    (self.(trayectoria_x)) (self.(trayectoria_y))
    (self.(vectores_direccion)) (self.(magnitudes_rssi))
    (self.(potencia_tx)) (self.(perdida_ref))
    (self.(exponente_perdida)) (self.(error_medicion))
    (self.(mostrar_vectores)) v (self.(max_frames))
    (self.(acelerometro)) (self.(giroscopio)) (self.(pausa)).

(** What a frame computes and shows in the text panel. *)
Record Salida : Type := mkSalida {
  distancias_medidas : list R;
  rssi_medidos : list R;
  vector_resultante : Point2D;
  angulo_resultante : R
}.

(** [generar_nodos_circulares]; [zip] is [np.column_stack]. *)
Definition angulos_nodos (num_nodos : nat) : list R :=
  np.linspace 0 (2 * PI) num_nodos.

Definition generar_nodos_circulares
    (centro_nodos : Point2D) (radio_nodos : R) (num_nodos : nat) : list Point2D :=
  let angulos := angulos_nodos num_nodos in
  let x := (fun a => centro_nodos.1 + radio_nodos * cos a) <$> angulos in
  let y := (fun a => centro_nodos.2 + radio_nodos * sin a) <$> angulos in
  zip x y.

(** [calcular_distancia]. *)
Definition calcular_distancia (p1 p2 : Point2D) : R :=
  sqrt ((p1.1 - p2.1) ^ 2 + (p1.2 - p2.2) ^ 2).

(** [calcular_vector_direccion]: the normalised vector from [origen] to
    [destino], and its length before normalisation. *)
Definition calcular_vector_direccion (origen destino : Point2D) : Point2D * R :=
  let vector := vsub destino origen in
  let magnitud := np.linalg.norm vector in
  let vector_normalizado :=
    if Rlt_dec 0 magnitud then vdiv vector magnitud else (0, 0) in
  (vector_normalizado, magnitud).

(** [calcular_rssi].  Under the guard the argument of [np.log10] is
    positive, where [np.log10] is [np.log10_pos]. *)
Definition calcular_rssi (self : SimuladorTrilateracion) (distancia : R) : M R :=
  if Rlt_dec 0 distancia then
    let rssi :=
      self.(potencia_tx)
      - (self.(perdida_ref)
         + 10 * self.(exponente_perdida) * np.log10_pos distancia) in
    ruido ← draw (np.random.normal 0 2);
    ret (rssi + ruido)
  else ret self.(potencia_tx).

(** [calcular_vector_resultante]; [acumular] is the body of its loop. *)
Definition acumular (pesos_lineales : list R) (i : nat) (vector : Point2D)
    (resultante : Point2D) : M Point2D :=
  w ← lift (getitem pesos_lineales i);
  ret (vadd resultante (vscale vector w)).

Definition calcular_vector_resultante
    (vectores : list Point2D) (pesos : list R) : M Point2D :=
  let pesos_lineales := (fun p => np.power 10 (p / 10)) <$> pesos in
  resultante ← for_enumerate vectores (acumular pesos_lineales) (0, 0);
  let magnitud := np.linalg.norm resultante in
  if Rlt_dec 0 magnitud then ret (vdiv resultante magnitud)
  else ret resultante.

(** [toggle_elementos]. *)
Definition toggle_elementos (label : string) (self : SimuladorTrilateracion)
  : SimuladorTrilateracion :=
  if decide (label = "Vectores") then
    set_mostrar_vectores (negb self.(mostrar_vectores)) self
  else if decide (label = "Trayectoria") then
    set_mostrar_trayectoria (negb self.(mostrar_trayectoria)) self
  else self.

(** The pieces of [actualizar_frame], in the order of the source. *)

(** Lines 272-273: the mobile node on its orbit. *)
Definition posicion_orbita (self : SimuladorTrilateracion) (frame : R) : Point2D :=
  (self.(centro_trayectoria).1
     + self.(radio_trayectoria) * sin (frame * self.(velocidad_trayectoria)),
   self.(centro_trayectoria).2
     + self.(radio_trayectoria) * cos (frame * self.(velocidad_trayectoria))).

Definition mover_nodo_movil (frame : R) (self : SimuladorTrilateracion)
  : M SimuladorTrilateracion :=
  ret (set_nodo_movil (posicion_orbita self frame) self).

(** Lines 283-284: true and measured distances. *)
Definition calcular_distancias_reales (self : SimuladorTrilateracion) : list R :=
  (fun nodo_fijo => calcular_distancia self.(nodo_movil) nodo_fijo)
    <$> self.(nodos_fijos).

Definition medir_distancias (self : SimuladorTrilateracion)
    (distancias_reales : list R) : M (list R) :=
  comprehension
    (fun d => e ← draw (np.random.normal 0 self.(error_medicion)); ret (d + e))
    distancias_reales.

(** Lines 287-289: direction vectors and RSSI, anchor by anchor. *)
Definition actualizar_nodo (distancias_medidas : list R) (i : nat)
    (nodo_fijo : Point2D) (self : SimuladorTrilateracion)
  : M SimuladorTrilateracion :=
  let '(vector, _) := calcular_vector_direccion nodo_fijo self.(nodo_movil) in
  vs ← lift (setitem self.(vectores_direccion) i vector);
  let self := set_vectores_direccion vs self in
  distancia ← lift (getitem distancias_medidas i);
  rssi ← calcular_rssi self distancia;
  ms ← lift (setitem self.(magnitudes_rssi) i rssi);
  ret (set_magnitudes_rssi ms self).

Definition actualizar_vectores_rssi (distancias_medidas : list R)
    (self : SimuladorTrilateracion) : M SimuladorTrilateracion :=
  for_enumerate self.(nodos_fijos) (actualizar_nodo distancias_medidas) self.

(** Lines 300-301: the distance histories. *)
Definition registrar_distancia (i : nat) (distancia : R)
    (self : SimuladorTrilateracion) : M SimuladorTrilateracion :=
  h ← lift (dict_append self.(distancias_historicas)
              (clave "R" i) distancia);
  ret (set_distancias_historicas h self).

Definition actualizar_historicas (distancias_medidas : list R)
    (self : SimuladorTrilateracion) : M SimuladorTrilateracion :=
  for_enumerate distancias_medidas registrar_distancia self.

(** Lines 308-309: the resultant vector and its angle in degrees. *)
Definition calcular_direccion (vectores : list Point2D) (pesos : list R)
  : M (Point2D * R) :=
  vector_resultante ← calcular_vector_resultante vectores pesos;
  let angulo_resultante :=
    np.arctan2 vector_resultante.2 vector_resultante.1 * 180 / PI in
  ret (vector_resultante, angulo_resultante).

(** [actualizar_frame]. *)
Definition actualizar_frame (frame : Z) (self : SimuladorTrilateracion)
  : M (SimuladorTrilateracion * option Salida) :=
  if self.(pausa) then ret (self, None)
  else
    self ← mover_nodo_movil (IZR frame) self;
    let self := set_trayectoria_x (self.(trayectoria_x) ++ [self.(nodo_movil).1]) self in
    let self := set_trayectoria_y (self.(trayectoria_y) ++ [self.(nodo_movil).2]) self in
    let distancias_reales := calcular_distancias_reales self in
    distancias_medidas ← medir_distancias self distancias_reales;
    self ← actualizar_vectores_rssi distancias_medidas self;
    self ← actualizar_historicas distancias_medidas self;
    '(vector_resultante, angulo_resultante) ←
      calcular_direccion self.(vectores_direccion) self.(magnitudes_rssi);
    ret (self,
         Some (mkSalida distancias_medidas self.(magnitudes_rssi)
                 vector_resultante angulo_resultante)).

(** [__init__], from the state of the global generator it finds. *)
Definition __init__ : M SimuladorTrilateracion :=
  let frecuencia_ghz := 2.4 in
  let lambda_m := 300000000 / (frecuencia_ghz * 1000000000) in
  let separacion_lambda := 2 in
  let radio_nodos := (separacion_lambda * lambda_m) / (2 * sin (PI / 8)) in
  let centro_nodos := (0, 0) in
  let num_nodos := 8%nat in
  let nodos_fijos := generar_nodos_circulares centro_nodos radio_nodos num_nodos in
  let max_frames := 300%nat in
  _ ← draw (fun g => (tt, np.random.seed 42 g));
  a ← draw (np.random.randn 3 max_frames);
  w ← draw (np.random.randn 3 max_frames);
  ret {|
    radio_nodos := radio_nodos;
    centro_nodos := centro_nodos;
    num_nodos := num_nodos;
    nodos_fijos := nodos_fijos;
    nodo_movil := (radio_nodos * 3.0, 0);
    radio_trayectoria := radio_nodos * 2.5;
    velocidad_trayectoria := 0.03;
    centro_trayectoria := centro_nodos;
    distancias_historicas := historial_vacio "R" num_nodos;
    trayectoria_x := [];
    trayectoria_y := [];
    vectores_direccion := replicate num_nodos (0, 0);
    magnitudes_rssi := replicate num_nodos 0;
    potencia_tx := 0;
    perdida_ref := 40;
    exponente_perdida := 2;
    error_medicion := 0.2;
    mostrar_vectores := true;
    mostrar_trayectoria := true;
    max_frames := max_frames;
    acelerometro := (fun row => Rmult 0.5 <$> np.cumsum row) <$> a;
    giroscopio := (fun row => Rmult 0.3 <$> np.cumsum row) <$> w;
    pausa := false
  |}.

(** The animation: [actualizar_frame] on each frame number in turn,
    collecting what each frame shows. *)
Fixpoint animar (frames : list Z) (self : SimuladorTrilateracion)
  : M (SimuladorTrilateracion * list (option Salida)) :=
  match frames with
  | [] => ret (self, [])
  | frame :: frames' =>
      '(self, salida) ← actualizar_frame frame self;
      '(self, salidas) ← animar frames' self;
      ret (self, salida :: salidas)
  end.

(** A run of the program: a fresh simulator, then the animation. *)
Definition simular (frames : list Z)
  : M (SimuladorTrilateracion * list (option Salida)) :=
  self ← __init__;
  animar frames self.

(** *** Notions used to state the properties below (not in the source) *)

(** The measured distances: the [i]-th true distance plus the [i]-th draw
    from the generator, scaled by [error_medicion]. *)
Definition distancias_con_ruido (sigma : R) (g : np.random.RandomState)
    (distancias_reales : list R) : list R :=
  imap (fun i d => d + (0 + sigma * np.random.peek g i)) distancias_reales.

(** The unit vector that a frame stores for an anchor. *)
Definition vector_unitario (movil nodo_fijo : Point2D) : Point2D :=
  (calcular_vector_direccion nodo_fijo movil).1.

(** The states in which a frame runs: not paused, one direction vector, one
    RSSI and one history per anchor. *)
Definition bien_formado (self : SimuladorTrilateracion) : Prop :=
  self.(pausa) = false /\
  length self.(vectores_direccion) = length self.(nodos_fijos) /\
  length self.(magnitudes_rssi) = length self.(nodos_fijos) /\
  forall i, (i < length self.(nodos_fijos))%nat ->
    is_Some (self.(distancias_historicas) !! clave "R" i).

(** The true and the measured distances of a frame. *)
Definition reales_en (self : SimuladorTrilateracion) (frame : R) : list R :=
  calcular_distancia (posicion_orbita self frame) <$> self.(nodos_fijos).

Definition medidas_en (self : SimuladorTrilateracion) (frame : R)
    (g : np.random.RandomState) : list R :=
  distancias_con_ruido self.(error_medicion) g (reales_en self frame).

(** The state after a frame that measured [rssis] and left the histories [h]. *)
Definition estado_tras (frame : R) (rssis : list R) (h : gmap string (list R))
    (self : SimuladorTrilateracion) : SimuladorTrilateracion :=
  let movil := posicion_orbita self frame in
  set_distancias_historicas h
    (set_magnitudes_rssi rssis
       (set_vectores_direccion (vector_unitario movil <$> self.(nodos_fijos))
          (set_trayectoria_y (self.(trayectoria_y) ++ [movil.2])
             (set_trayectoria_x (self.(trayectoria_x) ++ [movil.1])
                (set_nodo_movil movil self))))).

(** What a frame shows. *)
Definition salida_de (frame : R) (medidas rssis : list R)
    (self : SimuladorTrilateracion) : Salida :=
  let e := DirectionEstimatorSpec.estimate
             (posicion_orbita self frame) self.(nodos_fijos) rssis in
  mkSalida medidas rssis e.1 e.2.

(** The attributes that no frame writes. *)
Definition misma_configuracion (self self' : SimuladorTrilateracion) : Prop :=
  self'.(nodos_fijos) = self.(nodos_fijos) /\
  self'.(error_medicion) = self.(error_medicion) /\
  self'.(potencia_tx) = self.(potencia_tx) /\
  self'.(perdida_ref) = self.(perdida_ref) /\
  self'.(exponente_perdida) = self.(exponente_perdida).

End Octonodo.

(** ** The indoor simulator ([simulador_localizacion_interiores.py]) *)

Module Interiores.

(** The attributes of [SimuladorLocalizacionInteriores] that the simulation
    reads or writes (walls, figure, axes and plot artists are left out). *)
Record SimuladorLocalizacionInteriores : Type := mkSimulador {
  ancho : R;
  alto : R;
  nodos_fijos : list Point2D;
  nodo_movil : Point2D;
  n : R;
  sigma : R;
  distancias_historicas : gmap string (list R);
  rssi_historicos : gmap string (list np.float);
  trayectoria_x : list R;
  trayectoria_y : list R
}.

(** Attribute assignments [self.f = v]. *)
Definition set_nodo_movil (v : Point2D) (self : SimuladorLocalizacionInteriores)
  : SimuladorLocalizacionInteriores :=
  mkSimulador (self.(ancho)) (self.(alto)) (self.(nodos_fijos)) v (self.(n))
    (self.(sigma)) (self.(distancias_historicas))
    (self.(rssi_historicos)) (self.(trayectoria_x))
    (self.(trayectoria_y)).

Definition set_distancias_historicas (v : gmap string (list R)) (self : SimuladorLocalizacionInteriores)
  : SimuladorLocalizacionInteriores :=
  mkSimulador (self.(ancho)) (self.(alto)) (self.(nodos_fijos))
    (self.(nodo_movil)) (self.(n)) (self.(sigma)) v
    (self.(rssi_historicos)) (self.(trayectoria_x))
    (self.(trayectoria_y)).

Definition set_rssi_historicos (v : gmap string (list np.float)) (self : SimuladorLocalizacionInteriores)
  : SimuladorLocalizacionInteriores :=
  mkSimulador (self.(ancho)) (self.(alto)) (self.(nodos_fijos))
    (self.(nodo_movil)) (self.(n)) (self.(sigma))
    (self.(distancias_historicas)) v (self.(trayectoria_x))
    (self.(trayectoria_y)).

Definition set_trayectoria_x (v : list R) (self : SimuladorLocalizacionInteriores)
  : SimuladorLocalizacionInteriores :=
  mkSimulador (self.(ancho)) (self.(alto)) (self.(nodos_fijos))
    (self.(nodo_movil)) (self.(n)) (self.(sigma))
    (self.(distancias_historicas)) (self.(rssi_historicos)) v
    (self.(trayectoria_y)).

Definition set_trayectoria_y (v : list R) (self : SimuladorLocalizacionInteriores)
  : SimuladorLocalizacionInteriores :=
  mkSimulador (self.(ancho)) (self.(alto)) (self.(nodos_fijos))
    (self.(nodo_movil)) (self.(n)) (self.(sigma))
    (self.(distancias_historicas)) (self.(rssi_historicos))
    (self.(trayectoria_x)) v.

(** [__init__]. *)
Definition __init__ : SimuladorLocalizacionInteriores :=
  let ancho := 20 in
  let alto := 15 in
  let nodos_fijos :=
    [(1, 1); (ancho - 1, 1); (ancho - 1, alto - 1); (1, alto - 1)] in
  {|
    ancho := ancho;
    alto := alto;
    nodos_fijos := nodos_fijos;
    nodo_movil := (ancho / 2, alto / 2);
    n := 2.5;
    sigma := 3.0;
    distancias_historicas := historial_vacio "R" (length nodos_fijos);
    rssi_historicos := historial_vacio "RSSI" (length nodos_fijos);
    trayectoria_x := [];
    trayectoria_y := []
  |}.

(** [calcular_distancia_con_obstaculos]. *)
Definition calcular_distancia_con_obstaculos (p1 p2 : Point2D) : R :=
  sqrt ((p1.1 - p2.1) ^ 2 + (p1.2 - p2.2) ^ 2).

(** [calcular_rssi]: no guard on the distance. *)
Definition calcular_rssi (self : SimuladorLocalizacionInteriores)
    (distancia : R) : M np.float :=
  let rssi_base := np.scale (-10 * self.(n)) (np.log10 distancia) in
  ruido ← draw (np.random.normal 0 self.(sigma));
  ret (np.shift rssi_base ruido).

(** Lines 174-189 of [actualizar]: the mobile node along the corridors. *)
Definition posicion_pasillo (self : SimuladorLocalizacionInteriores)
    (frame : R) : Point2D :=
  if Rlt_dec frame 50 then
    (1 + (frame / 50) * (self.(ancho) - 2), 1)
  else if Rlt_dec frame 100 then
    (self.(ancho) - 1, 1 + ((frame - 50) / 50) * (self.(alto) - 2))
  else if Rlt_dec frame 150 then
    (self.(ancho) - 1 - ((frame - 100) / 50) * (self.(ancho) - 2), self.(alto) - 1)
  else
    (1, self.(alto) - 1 - ((frame - 150) / 50) * (self.(alto) - 2)).

Definition mover_nodo_movil (frame : R) (self : SimuladorLocalizacionInteriores)
  : M SimuladorLocalizacionInteriores :=
  ret (set_nodo_movil (posicion_pasillo self frame) self).

(** Lines 200-207 of [actualizar]: distance and RSSI, anchor by anchor. *)
Definition medir_nodo (i : nat) (nodo_fijo : Point2D)
    (self : SimuladorLocalizacionInteriores) : M SimuladorLocalizacionInteriores :=
  let distancia := calcular_distancia_con_obstaculos self.(nodo_movil) nodo_fijo in
  h ← lift (dict_append self.(distancias_historicas)
              (clave "R" i) distancia);
  let self := set_distancias_historicas h self in
  rssi ← calcular_rssi self distancia;
  h ← lift (dict_append self.(rssi_historicos)
              (clave "RSSI" i) rssi);
  ret (set_rssi_historicos h self).

(** [actualizar]. *)
Definition actualizar (frame : Z) (self : SimuladorLocalizacionInteriores)
  : M SimuladorLocalizacionInteriores :=
  self ← mover_nodo_movil (IZR frame) self;
  let self := set_trayectoria_x (self.(trayectoria_x) ++ [self.(nodo_movil).1]) self in
  let self := set_trayectoria_y (self.(trayectoria_y) ++ [self.(nodo_movil).2]) self in
  for_enumerate self.(nodos_fijos) medir_nodo self.

(** The animation: [actualizar] on each frame in turn. *)
Fixpoint animar (frames : list Z) (self : SimuladorLocalizacionInteriores)
  : M SimuladorLocalizacionInteriores :=
  match frames with
  | [] => ret self
  | frame :: frames' => self ← actualizar frame self; animar frames' self
  end.

(** A run of the program: a fresh simulator, then the animation. *)
Definition simular (frames : list Z) : M SimuladorLocalizacionInteriores :=
  animar frames __init__.

(** *** Notions used to state the properties below (not in the source) *)

(** The RSSI of a distance, with the [j]-th upcoming draw as its noise. *)
Definition rssi_de (self : SimuladorLocalizacionInteriores)
    (g : np.random.RandomState) (j : nat) (d : R) : np.float :=
  np.shift (np.scale (-10 * self.(n)) (np.log10 d))
    (0 + self.(sigma) * np.random.peek g j).

(** The true distances from a position to the anchors. *)
Definition distancias_desde (movil : Point2D) (nodos : list Point2D) : list R :=
  calcular_distancia_con_obstaculos movil <$> nodos.

(** Every anchor has its two histories. *)
Definition con_claves (self : SimuladorLocalizacionInteriores)
    (i : nat) (l : list Point2D) : Prop :=
  forall j, (j < length l)%nat ->
    is_Some (self.(distancias_historicas) !! clave "R" (i + j)) /\
    is_Some (self.(rssi_historicos) !! clave "RSSI" (i + j)).

(** The state once the mobile node has moved and its trace has grown. *)
Definition tras_mover (frame : R) (self : SimuladorLocalizacionInteriores)
  : SimuladorLocalizacionInteriores :=
  let p := posicion_pasillo self frame in
  set_trayectoria_y (self.(trayectoria_y) ++ [p.2])
    (set_trayectoria_x (self.(trayectoria_x) ++ [p.1])
       (set_nodo_movil p self)).

(** Every anchor has a distance history and an RSSI history of length [k]. *)
Definition historias_de (k : nat) (self : SimuladorLocalizacionInteriores) : Prop :=
  forall i, (i < length self.(nodos_fijos))%nat ->
    exists (ld : list R) (lr : list np.float),
      self.(distancias_historicas) !! clave "R" i = Some ld /\
      self.(rssi_historicos) !! clave "RSSI" i = Some lr /\
      length ld = k /\ length lr = k.

End Interiores.

(** ** The walls of the indoor simulator

    [self.paredes] of [__init__] (lines 31-47 of
    [simulador_localizacion_interiores.py]): every
    [Rectangle((x, y), width, height)] with its lower left corner, its width
    and its height (the colour is left out). *)

Module Paredes.

Record Rectangle : Type := mkRectangle {
  xy : Point2D;
  width : R;
  height : R
}.

Definition paredes (self : Interiores.SimuladorLocalizacionInteriores)
  : list Rectangle :=
  let ancho := self.(Interiores.ancho) in
  let alto := self.(Interiores.alto) in
  [ mkRectangle (0, 0) ancho 0.2;
    mkRectangle (0, 0) 0.2 alto;
    mkRectangle (0, alto - 0.2) ancho 0.2;
    mkRectangle (ancho - 0.2, 0) 0.2 alto;
    mkRectangle (2, 2) 5 4;
    mkRectangle (9, 2) 5 4;
    mkRectangle (2, 9) 5 4;
    mkRectangle (9, 9) 5 4;
    mkRectangle (7, 2) 0.2 11;
    mkRectangle (2, 7) 16 0.2 ].

(** The points that a rectangle covers, its border included (not in the
    source). *)
Definition contiene (r : Rectangle) (p : Point2D) : Prop :=
  r.(xy).1 <= p.1 <= r.(xy).1 + r.(width) /\
  r.(xy).2 <= p.2 <= r.(xy).2 + r.(height).

End Paredes.

(** ** The outdoor scenario ([escenario_outdoor.py])

    A script: its state is in module-level names.  [nodo_movil] and
    [nodos_fijos] are numpy arrays built from Python integers, so their
    entries are 64-bit integers: an assignment [nodo_movil[0] = x] of a
    float keeps the integer part of [x], and the arithmetic of
    [calcular_distancia] on their entries is that of 64-bit integers until
    [np.sqrt] makes a float of the sum. *)

Module Outdoor.

(** The integer part towards zero of a float, as the store into an integer
    array keeps it. *)
Definition trunc (x : R) : Z :=
  if Rle_dec 0 x then Int_part x else (- Int_part (- x))%Z.

(** The value of an integer operation once wrapped to 64 bits. *)
Definition wrap64 (z : Z) : Z := ((z + 2 ^ 63) mod 2 ^ 64 - 2 ^ 63)%Z.

(** The module-level names that [actualizar] reads or writes (the figure,
    the axes, the plot artists and the inertial signals, which are only
    plotted, are left out). *)
Record Globales : Type := mkGlobales {
  nodo_movil : Z * Z;
  distancias_historicas : gmap string (list R);
  trayectoria_x : list Z;
  trayectoria_y : list Z
}.

Definition nodos_fijos : list (Z * Z) := [(0, 0); (10, 0); (10, 10); (0, 10)]%Z.

(** The state that the top of the script sets up. *)
Definition inicio : Globales :=
  {| nodo_movil := (5, 5)%Z;
     distancias_historicas := historial_vacio "R" 4;
     trayectoria_x := [];
     trayectoria_y := [] |}.

(** [calcular_distancia]. *)
Definition calcular_distancia (p1 p2 : Z * Z) : R :=
  let dx := wrap64 (p1.1 - p2.1) in
  let dy := wrap64 (p1.2 - p2.2) in
  sqrt (IZR (wrap64 (wrap64 (dx ^ 2) + wrap64 (dy ^ 2)))).

(** The body of the loop over the distances. *)
Definition registrar_distancia (i : nat) (distancia : R) (st : Globales)
  : M Globales :=
  h ← lift (dict_append st.(distancias_historicas) (clave "R" i) distancia);
  ret (mkGlobales st.(nodo_movil) h st.(trayectoria_x) st.(trayectoria_y)).

(** The position that a frame stores. *)
Definition posicion (frame : Z) : Z * Z :=
  (trunc (5 + 3 * sin (IZR frame * 0.1)), trunc (5 + 3 * cos (IZR frame * 0.1))).

(** [actualizar]. *)
Definition actualizar (frame : Z) (st : Globales) : M Globales :=
  let nodo_movil := posicion frame in
  let trayectoria_x := st.(trayectoria_x) ++ [nodo_movil.1] in
  let trayectoria_y := st.(trayectoria_y) ++ [nodo_movil.2] in
  let distancias := calcular_distancia nodo_movil <$> nodos_fijos in
  for_enumerate distancias registrar_distancia
    (mkGlobales nodo_movil st.(distancias_historicas) trayectoria_x trayectoria_y).

End Outdoor.

(** ** Notions used by the further properties (not in the source) *)

(** The geometry that [__init__] of the octonodal simulator sets up: eight
    anchors on a circle around the origin and an orbit, around the same
    point, of two and a half times the radius. *)
Definition geometria_octonodal (self : Octonodo.SimuladorTrilateracion) : Prop :=
  self.(Octonodo.radio_nodos) = 2 * 0.125 / (2 * sin (PI / 8)) /\
  self.(Octonodo.nodos_fijos)
  = Octonodo.generar_nodos_circulares (0, 0) self.(Octonodo.radio_nodos) 8 /\
  self.(Octonodo.centro_trayectoria) = (0, 0) /\
  self.(Octonodo.radio_trayectoria) = self.(Octonodo.radio_nodos) * 2.5.

(** A simulator with a single anchor, at the origin, on which the mobile
    node stands (an orbit of radius 0), and a generator whose samples are
    all -1, for the worked examples. *)
Definition simulador_de_un_nodo : Octonodo.SimuladorTrilateracion :=
  Octonodo.mkSimulador 1 (0, 0) 1 [(0, 0)] (0, 0) 0 0.03 (0, 0)
    (historial_vacio "R" 1) [] [] [(0, 0)] [0] 0 40 2 0.2 true true 300
    [] [] false.

Definition generador_menos_unos : np.random.RandomState :=
  {| np.random.algorithm := fun _ _ => -1;
     np.random.samples := fun _ => -1;
     np.random.cursor := 0 |}.

(** * Properties *)

(** ** The monad *)

(** Unfolds the monad in a hypothesis or in the goal. *)
Ltac unfold_M_in H := unfold mbind, M_bind, bind, ret, lift, draw in H.
Ltac unfold_M := unfold mbind, M_bind, bind, ret, lift, draw.

(** ** Real arithmetic used below *)

Lemma INR_pos_of_lt (i N : nat) : (i < N)%nat -> 0 < INR N.
Proof. intros H. apply lt_0_INR. lia. Qed.

Lemma sqrt_sq_nonneg (r : R) : 0 <= r -> sqrt (r * r) = r.
Proof. intros H. apply sqrt_square. exact H. Qed.

Lemma norm_scaled_unit (r c s : R) :
  0 <= r -> c * c + s * s = 1 -> sqrt ((r * c) ^ 2 + (r * s) ^ 2) = r.
Proof.
  intros Hr Hcs.
  replace ((r * c) ^ 2 + (r * s) ^ 2) with (r * r) by nra.
  apply sqrt_sq_nonneg, Hr.
Qed.

Lemma cos_sin_unit (a : R) : cos a * cos a + sin a * sin a = 1.
Proof. pose proof (sin2_cos2 a) as H. unfold Rsqr in H. lra. Qed.

(** ** The circular layout of the anchors *)

Module OctonodoLayout.
Import Octonodo.

Lemma length_angulos_nodos (N : nat) : length (angulos_nodos N) = N.
Proof.
  unfold angulos_nodos, np.linspace. rewrite length_fmap, length_seq. reflexivity.
Qed.

Lemma lookup_angulos_nodos (N i : nat) :
  (i < N)%nat -> angulos_nodos N !! i = Some (2 * PI * INR i / INR N).
Proof.
  intros Hi. unfold angulos_nodos, np.linspace.
  rewrite list_lookup_fmap, lookup_seq_lt by exact Hi. simpl.
  f_equal. pose proof (INR_pos_of_lt i N Hi). field. lra.
Qed.

Lemma length_generar_nodos_circulares centro radio (N : nat) :
  length (generar_nodos_circulares centro radio N) = N.
Proof.
  unfold generar_nodos_circulares.
  rewrite length_zip_with, !length_fmap, length_angulos_nodos. lia.
Qed.

Lemma lookup_generar_nodos_circulares centro radio (N i : nat) :
  (i < N)%nat ->
  generar_nodos_circulares centro radio N !! i =
    Some (centro.1 + radio * cos (2 * PI * INR i / INR N),
          centro.2 + radio * sin (2 * PI * INR i / INR N)).
Proof.
  intros Hi. unfold generar_nodos_circulares.
  rewrite lookup_zip_with, !list_lookup_fmap, lookup_angulos_nodos by exact Hi.
  reflexivity.
Qed.

Lemma distancia_al_centro centro radio (a : R) :
  0 <= radio ->
  calcular_distancia (centro.1 + radio * cos a, centro.2 + radio * sin a) centro
  = radio.
Proof.
  intros Hr. unfold calcular_distancia. simpl.
  replace (centro.1 + radio * cos a - centro.1) with (radio * cos a) by ring.
  replace (centro.2 + radio * sin a - centro.2) with (radio * sin a) by ring.
  apply norm_scaled_unit; [exact Hr | apply cos_sin_unit].
Qed.

(** C7.  For every count [N >= 3], centre and radius, the circular layout
    places exactly [N] anchors, the [i]-th one at angle [2*pi*i/N] (so the
    first one at angle 0); every anchor lies at Euclidean distance [radio]
    from the centre (a radius being non-negative), and consecutive anchors,
    the last and the first included, are [360/N] degrees apart. *)
Theorem circular_layout_evenly_spaced (centro : Point2D) (radio : R) (N : nat) :
  (3 <= N)%nat ->
  let nodos := generar_nodos_circulares centro radio N in
  let angulos := angulos_nodos N in
  length nodos = N /\
  angulos !! 0%nat = Some 0 /\
  (forall i, (i < N)%nat ->
     angulos !! i = Some (2 * PI * INR i / INR N) /\
     nodos !! i = Some (centro.1 + radio * cos (2 * PI * INR i / INR N),
                        centro.2 + radio * sin (2 * PI * INR i / INR N)) /\
     (0 <= radio ->
      forall p, nodos !! i = Some p -> calcular_distancia p centro = radio)) /\
  (forall i a b, angulos !! i = Some a -> angulos !! S i = Some b ->
     (b - a) * 180 / PI = 360 / INR N) /\
  (forall a, angulos !! (N - 1)%nat = Some a ->
     (2 * PI - a) * 180 / PI = 360 / INR N).
Proof.
  intros HN nodos angulos. subst nodos angulos.
  assert (HNpos : 0 < INR N) by (apply lt_0_INR; lia).
  pose proof PI_RGT_0 as Hpi.
  split; [apply length_generar_nodos_circulares|].
  split.
  { rewrite lookup_angulos_nodos by lia. f_equal. simpl. field. lra. }
  split.
  { intros i Hi. split; [apply lookup_angulos_nodos, Hi|].
    split; [apply lookup_generar_nodos_circulares, Hi|].
    intros Hr p. rewrite lookup_generar_nodos_circulares by exact Hi.
    intros [= <-]. apply distancia_al_centro, Hr. }
  split.
  { intros i a b Ha Hb.
    assert (Hi : (S i < N)%nat).
    { apply lookup_lt_Some in Hb. rewrite length_angulos_nodos in Hb. exact Hb. }
    rewrite lookup_angulos_nodos in Ha by lia.
    rewrite lookup_angulos_nodos, S_INR in Hb by lia.
    assert (Ea : a = 2 * PI * INR i / INR N) by congruence.
    assert (Eb : b = 2 * PI * (INR i + 1) / INR N) by congruence.
    rewrite Ea, Eb. field. lra. }
  intros a Ha. rewrite lookup_angulos_nodos, minus_INR in Ha by lia.
  change (INR 1) with 1 in Ha.
  assert (Ea : a = 2 * PI * (INR N - 1) / INR N) by congruence.
  rewrite Ea. field. lra.
Qed.

(** The layout of the program: eight anchors. *)
Lemma circular_layout_evenly_spaced_witness :
  (3 <= 8)%nat /\
  length (generar_nodos_circulares (0, 0) 1 8) = 8%nat.
Proof.
  split; [lia|].
  apply (circular_layout_evenly_spaced (0, 0) 1 8). lia.
Defined.

End OctonodoLayout.

(** ** The generator *)

Lemma advance_advance g (j k : nat) :
  np.random.advance (np.random.advance g j) k = np.random.advance g (j + k).
Proof. unfold np.random.advance. simpl. f_equal. lia. Qed.

Lemma advance_0 g : np.random.advance g 0 = g.
Proof. destruct g. unfold np.random.advance. simpl. f_equal. lia. Qed.

Lemma peek_advance g (j k : nat) :
  np.random.peek (np.random.advance g j) k = np.random.peek g (j + k).
Proof. unfold np.random.peek, np.random.advance. simpl. f_equal. lia. Qed.

(** ** Loops *)

Lemma take_insert_fill {A} (l mid : list A) (i n : nat) (x : A) :
  (i < length l)%nat ->
  take (S i) (<[i:=x]> l) ++ mid ++ drop (S (i + n)) (<[i:=x]> l)
  = take i l ++ (x :: mid) ++ drop (i + S n) l.
Proof.
  intros Hi.
  rewrite (take_S_r _ i x) by (apply list_lookup_insert_eq; exact Hi).
  rewrite take_insert_ge by lia. rewrite drop_insert_lt by lia.
  rewrite <- app_assoc. simpl.
  replace (i + S n)%nat with (S (i + n)) by lia. reflexivity.
Qed.

Lemma comprehension_length {A B} (f : A -> M B) (l : list A) g ys g' :
  comprehension f l g = Ok (ys, g') -> length ys = length l.
Proof.
  revert g ys g'. induction l as [|x l IH]; intros g ys g' H; simpl in H.
  - unfold ret in H. injection H as <- <-. reflexivity.
  - unfold_M_in H.
    destruct (f x g) as [[y g1]|e]; [|discriminate].
    destruct (comprehension f l g1) as [[ys' g2]|e] eqn:E; [|discriminate].
    injection H as <- <-. simpl. f_equal. eapply IH, E.
Qed.

(** ** The steps of a frame of the octonodal simulator *)

Module OctonodoPasos.
Import Octonodo.

Lemma medir_distancias_eq self (ds : list R) g :
  medir_distancias self ds g
  = Ok (distancias_con_ruido self.(error_medicion) g ds,
        np.random.advance g (length ds)).
Proof.
  unfold medir_distancias, distancias_con_ruido.
  revert g. induction ds as [|d ds IH]; intros g.
  - simpl. unfold ret. rewrite advance_0. reflexivity.
  - simpl. unfold_M. simpl. unfold_M_in IH. rewrite IH.
    rewrite advance_advance. do 2 f_equal. f_equal.
    apply imap_ext. intros i x _. unfold compose. rewrite peek_advance. reflexivity.
Qed.

Lemma calcular_rssi_fuera_de_rango self (d : R) g :
  d <= 0 -> calcular_rssi self d g = Ok (self.(potencia_tx), g).
Proof.
  intros Hd. unfold calcular_rssi. destruct (Rlt_dec 0 d); [lra | reflexivity].
Qed.

Lemma calcular_rssi_en_rango self (d : R) g :
  0 < d ->
  calcular_rssi self d g
  = Ok (self.(potencia_tx)
        - (self.(perdida_ref) + 10 * self.(exponente_perdida) * np.log10_pos d)
        + (0 + 2 * np.random.peek g 0),
        np.random.advance g 1).
Proof.
  intros Hd. unfold calcular_rssi. destruct (Rlt_dec 0 d); [reflexivity | lra].
Qed.

Lemma calcular_rssi_total self (d : R) g :
  exists rssi g', calcular_rssi self d g = Ok (rssi, g').
Proof.
  destruct (Rlt_dec 0 d) as [Hd|Hd].
  - rewrite calcular_rssi_en_rango by exact Hd. eauto.
  - rewrite calcular_rssi_fuera_de_rango by lra. eauto.
Qed.

Lemma actualizar_nodo_desde (medidas : list R) (l : list Point2D) :
  forall (i : nat) self (ds : list R) g,
    (i + length l <= length self.(vectores_direccion))%nat ->
    (i + length l <= length self.(magnitudes_rssi))%nat ->
    length ds = length l ->
    (forall j d, ds !! j = Some d -> medidas !! (i + j)%nat = Some d) ->
    exists rssis g',
      comprehension (calcular_rssi self) ds g = Ok (rssis, g') /\
      for_enumerate_from i l (actualizar_nodo medidas) self g
      = Ok (set_magnitudes_rssi
              (take i self.(magnitudes_rssi) ++ rssis
               ++ drop (i + length l) self.(magnitudes_rssi))
              (set_vectores_direccion
                 (take i self.(vectores_direccion)
                  ++ (vector_unitario self.(nodo_movil) <$> l)
                  ++ drop (i + length l) self.(vectores_direccion))
                 self),
            g').
Proof.
  induction l as [|x l IH]; intros i self ds g Hvs Hms Hds Hmed.
  - destruct ds; [|discriminate]. exists [], g. split; [reflexivity|].
    simpl. unfold ret. rewrite Nat.add_0_r, !take_drop.
    destruct self; reflexivity.
  - destruct ds as [|d ds]; [discriminate|]. simpl in Hvs, Hms, Hds.
    assert (Hd : medidas !! i = Some d).
    { rewrite <- (Nat.add_0_r i). apply Hmed. reflexivity. }
    destruct (calcular_rssi_total self d g) as (r & g1 & Hr).
    set (self1 :=
           set_magnitudes_rssi (<[i:=r]> self.(magnitudes_rssi))
             (set_vectores_direccion
                (<[i:=vector_unitario self.(nodo_movil) x]> self.(vectores_direccion))
                self)).
    destruct (IH (S i) self1 ds g1) as (rs & g2 & Hrs & Hloop).
    { subst self1. simpl. rewrite length_insert. lia. }
    { subst self1. simpl. rewrite length_insert. lia. }
    { lia. }
    { intros j d' Hj. replace (S i + j)%nat with (i + S j)%nat by lia.
      apply Hmed. exact Hj. }
    exists (r :: rs), g2. split.
    + simpl. unfold_M. rewrite Hr. unfold_M_in Hrs.
      change (calcular_rssi self1) with (calcular_rssi self) in Hrs.
      rewrite Hrs. reflexivity.
    + simpl. unfold_M. unfold actualizar_nodo at 1. unfold_M.
      unfold setitem, getitem. simpl.
      destruct (decide (i < length (vectores_direccion self))%nat); [|lia].
      rewrite Hd.
      change (calcular_rssi (set_vectores_direccion _ self)) with (calcular_rssi self).
      rewrite Hr.
      destruct (decide (i < length (magnitudes_rssi self))%nat); [|lia].
      refine (eq_trans Hloop _). f_equal. f_equal.
      subst self1. clear IH Hr Hrs Hloop. destruct self.
      unfold set_magnitudes_rssi, set_vectores_direccion. simpl in *.
      rewrite !take_insert_fill by lia. reflexivity.
Qed.

End OctonodoPasos.

(** ** Vectors of the plane *)

Lemma norm_nonneg (v : Point2D) : 0 <= np.linalg.norm v.
Proof. apply sqrt_pos. Qed.

Lemma norm_zero_iff (v : Point2D) : np.linalg.norm v = 0 <-> v = (0, 0).
Proof.
  destruct v as [x y]. unfold np.linalg.norm. simpl. split.
  - intros H. apply sqrt_eq_0 in H; [|nra].
    assert (x = 0) by nra. assert (y = 0) by nra. congruence.
  - intros [= -> ->]. replace (0 * 0 + 0 * 0) with 0 by ring. apply sqrt_0.
Qed.

Lemma norm_not_pos (v : Point2D) : ~ 0 < np.linalg.norm v -> v = (0, 0).
Proof.
  intros H. apply norm_zero_iff. pose proof (norm_nonneg v). lra.
Qed.

Lemma vsub_zero_iff (a b : Point2D) : vsub a b = (0, 0) <-> b = a.
Proof.
  destruct a as [ax ay], b as [bx by']. unfold vsub. simpl. split.
  - intros [= Hx Hy]. f_equal; lra.
  - intros [= -> ->]. f_equal; ring.
Qed.

Lemma vadd_assoc (u v w : Point2D) : vadd (vadd u v) w = vadd u (vadd v w).
Proof. unfold vadd. simpl. f_equal; ring. Qed.

Lemma vadd_zero_l (v : Point2D) : vadd (0, 0) v = v.
Proof. destruct v. unfold vadd. simpl. f_equal; ring. Qed.

Lemma vadd_zero_r (v : Point2D) : vadd v (0, 0) = v.
Proof. destruct v. unfold vadd. simpl. f_equal; ring. Qed.

(** ** The direction estimate of the octonodal simulator *)

Module OctonodoDireccion.
Import Octonodo OctonodoPasos.

Lemma vector_unitario_spec (movil nodo_fijo : Point2D) :
  vector_unitario movil nodo_fijo
  = DirectionEstimatorSpec.unit_vector movil nodo_fijo.
Proof.
  unfold vector_unitario, calcular_vector_direccion,
    DirectionEstimatorSpec.unit_vector. simpl.
  destruct (Rlt_dec 0 (np.linalg.norm (vsub movil nodo_fijo))) as [Hpos|Hpos];
    destruct (decide (nodo_fijo = movil)) as [Heq|Hne]; try reflexivity.
  - exfalso. apply vsub_zero_iff, norm_zero_iff in Heq. lra.
  - exfalso. apply Hne, vsub_zero_iff, norm_not_pos, Hpos.
Qed.

Lemma acumular_desde (ws : list R) (vs : list Point2D) :
  forall (i : nat) (acc : Point2D) g,
    (i + length vs <= length ws)%nat ->
    for_enumerate_from i vs (acumular ws) acc g
    = Ok (vadd acc (DirectionEstimatorSpec.weighted_sum vs (drop i ws)), g).
Proof.
  unfold DirectionEstimatorSpec.weighted_sum.
  induction vs as [|v vs IH]; intros i acc g Hlen; simpl.
  - unfold ret. rewrite vadd_zero_r. reflexivity.
  - simpl in Hlen.
    destruct (lookup_lt_is_Some_2 ws i ltac:(lia)) as [w Hw].
    unfold_M. unfold acumular at 1. unfold_M. unfold getitem. rewrite Hw.
    unfold_M_in IH. rewrite IH by lia.
    rewrite (drop_S _ _ _ Hw). simpl. rewrite vadd_assoc. reflexivity.
Qed.

Lemma calcular_vector_resultante_spec (vs : list Point2D) (ps : list R) g :
  (length vs <= length ps)%nat ->
  calcular_vector_resultante vs ps g
  = Ok (DirectionEstimatorSpec.normalize
          (DirectionEstimatorSpec.weighted_sum vs
             (DirectionEstimatorSpec.weight <$> ps)),
        g).
Proof.
  intros Hlen. unfold calcular_vector_resultante, for_enumerate. unfold_M.
  rewrite acumular_desde by (rewrite length_fmap; simpl; lia).
  rewrite vadd_zero_l, drop_0.
  change (fun p : R => np.power 10 (p / 10)) with DirectionEstimatorSpec.weight.
  unfold DirectionEstimatorSpec.normalize.
  destruct (Rlt_dec 0 _) as [Hpos|Hpos]; [reflexivity|].
  rewrite (norm_not_pos _ Hpos). reflexivity.
Qed.

Lemma calcular_direccion_spec (movil : Point2D) (nodos : list Point2D)
    (ps : list R) g :
  (length nodos <= length ps)%nat ->
  calcular_direccion (vector_unitario movil <$> nodos) ps g
  = Ok (DirectionEstimatorSpec.estimate movil nodos ps, g).
Proof.
  intros Hlen. unfold calcular_direccion. unfold_M.
  rewrite calcular_vector_resultante_spec by (rewrite length_fmap; exact Hlen).
  assert (E : vector_unitario movil <$> nodos
              = DirectionEstimatorSpec.unit_vector movil <$> nodos).
  { apply list_fmap_ext. intros i a _. apply vector_unitario_spec. }
  rewrite E. reflexivity.
Qed.

End OctonodoDireccion.

(** ** Histories *)

Lemma clave_inj (prefix : string) (i j : nat) :
  clave prefix i = clave prefix j -> i = j.
Proof.
  unfold clave. intros H. apply String.app_inj in H.
  apply (inj pretty) in H. lia.
Qed.

Lemma clave_ne (prefix : string) (i j : nat) :
  i <> j -> clave prefix i <> clave prefix j.
Proof. intros Hne H. apply Hne, (clave_inj _ _ _ H). Qed.

Lemma lookup_historial_vacio {V} (prefix : string) (n i : nat) :
  (i < n)%nat -> historial_vacio (V:=V) prefix n !! clave prefix i = Some [].
Proof.
  unfold historial_vacio. induction n as [|n IH]; intros Hi; [lia|].
  rewrite seq_S, foldl_app. simpl.
  destruct (decide (i = n)) as [->|Hne].
  - apply lookup_insert_eq.
  - rewrite lookup_insert_ne by (apply clave_ne; lia). apply IH. lia.
Qed.

Lemma anexadas_nil {V} (prefix : string) (i : nat) (h : gmap string (list V)) :
  anexadas prefix i [] h h.
Proof. split; [intros j v Hj; destruct j; discriminate | reflexivity]. Qed.

Lemma anexadas_cons {V} (prefix : string) (i : nat) (v : V) (vs l : list V)
    (h h' : gmap string (list V)) :
  h !! clave prefix i = Some l ->
  anexadas prefix (S i) vs (<[clave prefix i := l ++ [v]]> h) h' ->
  anexadas prefix i (v :: vs) h h'.
Proof.
  intros Hl [Hp1 Hp2]. split.
  - intros [|j] v' Hj.
    + injection Hj as <-. rewrite Nat.add_0_r.
      rewrite Hp2 by (intros j _; apply clave_ne; lia).
      rewrite lookup_insert_eq, Hl. reflexivity.
    + simpl in Hj. replace (i + S j)%nat with (S i + j)%nat by lia.
      rewrite (Hp1 _ _ Hj).
      rewrite lookup_insert_ne by (apply clave_ne; lia). reflexivity.
  - intros k Hk. rewrite Hp2.
    + apply lookup_insert_ne. intros Heq.
      apply (Hk 0%nat ltac:(simpl; lia)). rewrite Nat.add_0_r. auto.
    + intros j Hj. replace (S i + j)%nat with (i + S j)%nat by lia.
      apply Hk. simpl. lia.
Qed.

(** The keys that are there stay there. *)
Lemma anexadas_is_Some {V} (prefix : string) (i : nat) (vs : list V)
    (h h' : gmap string (list V)) (k : string) :
  anexadas prefix i vs h h' -> is_Some (h !! k) -> is_Some (h' !! k).
Proof.
  intros [Hp1 Hp2] Hk.
  destruct (decide (k ∈ (fun j => clave prefix (i + j)) <$> seq 0 (length vs)))
    as [Hin|Hno].
  - apply list_elem_of_fmap in Hin as (j & -> & Hj).
    apply elem_of_seq in Hj.
    destruct (lookup_lt_is_Some_2 vs j ltac:(lia)) as [v Hv].
    rewrite (Hp1 _ _ Hv). destruct Hk as [l ->]. simpl. eauto.
  - rewrite Hp2; [exact Hk|]. intros j Hj Heq. apply Hno.
    apply list_elem_of_fmap. exists j. split; [exact Heq|].
    apply elem_of_seq. lia.
Qed.

(** Each history of the loop grows by exactly one value. *)
Lemma anexadas_length {V} (prefix : string) (vs : list V)
    (h h' : gmap string (list V)) (j n : nat) (l : list V) :
  anexadas prefix 0 vs h h' -> (j < length vs)%nat ->
  h !! clave prefix j = Some l -> length l = n ->
  exists l', h' !! clave prefix j = Some l' /\ length l' = S n.
Proof.
  intros [Hp1 _] Hj Hl Hn.
  destruct (lookup_lt_is_Some_2 vs j Hj) as [v Hv].
  specialize (Hp1 j v Hv). simpl in Hp1. rewrite Hl in Hp1. simpl in Hp1.
  exists (l ++ [v]). split; [exact Hp1|]. rewrite length_app. simpl. lia.
Qed.

(** The loop determines the dictionary it leaves. *)
Lemma anexadas_fun {V} (prefix : string) (i : nat) (vs : list V)
    (h h1 h2 : gmap string (list V)) :
  anexadas prefix i vs h h1 -> anexadas prefix i vs h h2 -> h1 = h2.
Proof.
  intros [Hp1 Hp2] [Hq1 Hq2]. apply map_eq. intros k.
  destruct (decide (k ∈ (fun j => clave prefix (i + j)) <$> seq 0 (length vs)))
    as [Hin|Hno].
  - apply list_elem_of_fmap in Hin as (j & -> & Hj).
    apply elem_of_seq in Hj.
    destruct (lookup_lt_is_Some_2 vs j ltac:(lia)) as [v Hv].
    rewrite (Hp1 _ _ Hv), (Hq1 _ _ Hv). reflexivity.
  - assert (Hk : forall j, (j < length vs)%nat -> k <> clave prefix (i + j)).
    { intros j Hj Heq. apply Hno.
      apply list_elem_of_fmap. exists j. split; [exact Heq|].
      apply elem_of_seq. lia. }
    rewrite (Hp2 k Hk), (Hq2 k Hk). reflexivity.
Qed.

Module OctonodoHistorial.
Import Octonodo OctonodoPasos.

Lemma registrar_distancia_desde (ds : list R) :
  forall (i : nat) self g,
    (forall j, (j < length ds)%nat ->
       is_Some (self.(distancias_historicas) !! clave "R" (i + j))) ->
    exists h',
      for_enumerate_from i ds registrar_distancia self g
      = Ok (set_distancias_historicas h' self, g) /\
      anexadas "R" i ds self.(distancias_historicas) h'.
Proof.
  induction ds as [|d ds IH]; intros i self g Hkeys.
  - exists self.(distancias_historicas). split; [|apply anexadas_nil].
    simpl. unfold ret. destruct self; reflexivity.
  - destruct (Hkeys 0%nat ltac:(simpl; lia)) as [l Hl].
    rewrite Nat.add_0_r in Hl.
    set (h1 := <[clave "R" i := l ++ [d]]> self.(distancias_historicas)).
    destruct (IH (S i) (set_distancias_historicas h1 self) g) as (h' & Hloop & Hh').
    { intros j Hj. simpl. subst h1.
      rewrite lookup_insert_ne by (apply clave_ne; lia).
      replace (S (i + j)) with (i + S j)%nat by lia. apply Hkeys. simpl. lia. }
    exists h'. split; [|apply (anexadas_cons _ _ _ _ l); assumption].
    simpl. unfold_M. unfold registrar_distancia at 1. unfold_M.
    unfold dict_append. rewrite Hl. fold h1.
    refine (eq_trans Hloop _). destruct self; reflexivity.
Qed.

End OctonodoHistorial.

(** ** A whole frame of the octonodal simulator *)

Module OctonodoFrame.
Import Octonodo OctonodoPasos OctonodoHistorial OctonodoDireccion.

Lemma length_medidas_en self frame g :
  length (medidas_en self frame g) = length self.(nodos_fijos).
Proof.
  unfold medidas_en, distancias_con_ruido, reales_en.
  rewrite length_imap, length_fmap. reflexivity.
Qed.

Lemma actualizar_frame_spec self (frame : Z) g :
  bien_formado self ->
  exists rssis g' h',
    comprehension (calcular_rssi self) (medidas_en self (IZR frame) g)
      (np.random.advance g (length self.(nodos_fijos))) = Ok (rssis, g') /\
    anexadas "R" 0 (medidas_en self (IZR frame) g) self.(distancias_historicas) h' /\
    actualizar_frame frame self g
    = Ok ((estado_tras (IZR frame) rssis h' self,
           Some (salida_de (IZR frame) (medidas_en self (IZR frame) g) rssis self)), g').
Proof.
  intros (Hpausa & Hvs & Hms & Hkeys).
  set (movil := posicion_orbita self (IZR frame)).
  set (self2 :=
         set_trayectoria_y (self.(trayectoria_y) ++ [movil.2])
           (set_trayectoria_x (self.(trayectoria_x) ++ [movil.1])
              (set_nodo_movil movil self))).
  set (medidas := medidas_en self (IZR frame) g).
  assert (Hlen : length medidas = length self.(nodos_fijos))
    by apply length_medidas_en.
  destruct (actualizar_nodo_desde medidas self.(nodos_fijos) 0 self2 medidas
              (np.random.advance g (length self.(nodos_fijos))))
    as (rssis & g' & Hrssi & Hloop1).
  { simpl. lia. }
  { simpl. lia. }
  { exact Hlen. }
  { intros j d Hj. exact Hj. }
  assert (Hlr : length rssis = length self.(nodos_fijos)).
  { rewrite <- Hlen. eapply comprehension_length, Hrssi. }
  change (calcular_rssi self2) with (calcular_rssi self) in Hrssi.
  simpl in Hloop1.
  rewrite (drop_ge self.(magnitudes_rssi)) in Hloop1 by lia.
  rewrite (drop_ge self.(vectores_direccion)) in Hloop1 by lia.
  rewrite !app_nil_r in Hloop1.
  set (self3 :=
         set_magnitudes_rssi rssis
           (set_vectores_direccion (vector_unitario movil <$> self.(nodos_fijos))
              self2)) in *.
  destruct (registrar_distancia_desde medidas 0 self3 g') as (h' & Hloop2 & Hh').
  { intros j Hj. apply Hkeys. lia. }
  exists rssis, g', h'. split; [exact Hrssi|]. split; [exact Hh'|].
  unfold actualizar_frame. rewrite Hpausa. unfold mover_nodo_movil.
  unfold_M. fold movil.
  change (set_trayectoria_y _ (set_trayectoria_x _ (set_nodo_movil movil self)))
    with self2.
  rewrite medir_distancias_eq.
  unfold calcular_distancias_reales. rewrite length_fmap.
  change (distancias_con_ruido _ g _) with medidas.
  unfold actualizar_vectores_rssi, for_enumerate.
  change (nodos_fijos self2) with (nodos_fijos self).
  rewrite Hloop1.
  unfold actualizar_historicas, for_enumerate. rewrite Hloop2.
  change (vectores_direccion (set_distancias_historicas h' self3))
    with (vector_unitario movil <$> nodos_fijos self).
  change (magnitudes_rssi (set_distancias_historicas h' self3)) with rssis.
  rewrite calcular_direccion_spec by lia.
  reflexivity.
Qed.

Lemma bien_formado_estado_tras self (frame : R) (rssis : list R)
    (ds : list R) (h' : gmap string (list R)) :
  bien_formado self ->
  length rssis = length self.(nodos_fijos) ->
  length ds = length self.(nodos_fijos) ->
  anexadas "R" 0 ds self.(distancias_historicas) h' ->
  bien_formado (estado_tras frame rssis h' self).
Proof.
  intros (Hpausa & Hvs & Hms & Hkeys) Hr Hd [Hp1 _].
  unfold bien_formado, estado_tras. simpl.
  split; [exact Hpausa|]. split; [apply length_fmap|]. split; [exact Hr|].
  intros i Hi.
  destruct (lookup_lt_is_Some_2 ds i ltac:(lia)) as [d Hdi].
  specialize (Hp1 i d Hdi). simpl in Hp1. rewrite Hp1.
  destruct (Hkeys i Hi) as [l ->]. simpl. eauto.
Qed.

(** A paused simulator ignores the frame. *)
Lemma actualizar_frame_en_pausa self (frame : Z) g :
  self.(pausa) = true -> actualizar_frame frame self g = Ok ((self, None), g).
Proof. intros H. unfold actualizar_frame. rewrite H. reflexivity. Qed.

(** A click on a check box leaves the simulator well formed. *)
Lemma toggle_elementos_bien_formado (label : string) self :
  bien_formado self -> bien_formado (toggle_elementos label self).
Proof.
  intros Hbf. unfold toggle_elementos.
  destruct (decide (label = "Vectores")); [exact Hbf|].
  destruct (decide (label = "Trayectoria")); exact Hbf.
Qed.

Lemma misma_configuracion_refl self : misma_configuracion self self.
Proof. repeat split. Qed.

Lemma misma_configuracion_trans self1 self2 self3 :
  misma_configuracion self1 self2 -> misma_configuracion self2 self3 ->
  misma_configuracion self1 self3.
Proof.
  intros (H1 & H2 & H3 & H4 & H5) (K1 & K2 & K3 & K4 & K5).
  repeat split; congruence.
Qed.

(** A frame of a well-formed state returns, and leaves a well-formed state
    with the same configuration. *)
Lemma actualizar_frame_total self (frame : Z) g :
  bien_formado self ->
  exists self' salida g',
    actualizar_frame frame self g = Ok ((self', Some salida), g') /\
    bien_formado self' /\
    misma_configuracion self self'.
Proof.
  intros Hbf.
  destruct (actualizar_frame_spec self frame g Hbf) as (rssis & g' & h' & Hr & Hh & ->).
  eexists _, _, _. split; [reflexivity|]. split; [|repeat split].
  eapply bien_formado_estado_tras; [exact Hbf| | |exact Hh].
  - rewrite (comprehension_length _ _ _ _ _ Hr). apply length_medidas_en.
  - apply length_medidas_en.
Qed.

(** The state that [__init__] builds and the generator it leaves: seeded with
    42 and advanced past the two sensor arrays. *)
Lemma init_eq g :
  exists self,
    __init__ g = Ok (self, np.random.advance (np.random.seed 42 g) 1800) /\
    bien_formado self /\
    length self.(nodos_fijos) = 8%nat /\
    self.(error_medicion) = 0.2.
Proof.
  eexists. split.
  - cbv beta iota zeta delta [__init__ mbind M_bind bind ret draw np.random.randn].
    rewrite advance_advance. reflexivity.
  - unfold bien_formado.
    cbn [pausa vectores_direccion magnitudes_rssi nodos_fijos
         distancias_historicas error_medicion].
    rewrite !length_replicate, OctonodoLayout.length_generar_nodos_circulares.
    repeat split; try reflexivity.
    intros i Hi. rewrite lookup_historial_vacio by exact Hi. eauto.
Qed.

(** Every animation of a well-formed state returns, with one output per
    frame. *)
Lemma animar_total (frames : list Z) :
  forall self g,
    bien_formado self ->
    exists self' salidas g',
      animar frames self g = Ok ((self', salidas), g') /\
      bien_formado self' /\
      misma_configuracion self self' /\
      length salidas = length frames.
Proof.
  induction frames as [|frame frames IH]; intros self g Hbf.
  - exists self, [], g. split; [reflexivity|].
    split; [exact Hbf|]. split; [apply misma_configuracion_refl | reflexivity].
  - destruct (actualizar_frame_total self frame g Hbf)
      as (self1 & salida & g1 & Hstep & Hbf1 & Hn1).
    destruct (IH self1 g1 Hbf1) as (self2 & salidas & g2 & Hrest & Hbf2 & Hn2 & Hlen).
    exists self2, (Some salida :: salidas), g2.
    split; [|split; [exact Hbf2 | split]].
    + simpl. unfold_M. rewrite Hstep. unfold_M_in Hrest. rewrite Hrest.
      reflexivity.
    + eapply misma_configuracion_trans; eassumption.
    + simpl. congruence.
Qed.

(** Every run of the program returns; the state it reaches is well formed,
    with the eight anchors and the measurement error of [__init__]. *)
Lemma simular_total (frames : list Z) g :
  exists self salidas g',
    simular frames g = Ok ((self, salidas), g') /\
    bien_formado self /\
    length self.(nodos_fijos) = 8%nat /\
    self.(error_medicion) = 0.2 /\
    length salidas = length frames.
Proof.
  destruct (init_eq g) as (self0 & Hinit & Hbf0 & Hn0 & He0).
  destruct (animar_total frames self0
              (np.random.advance (np.random.seed 42 g) 1800) Hbf0)
    as (self & salidas & g' & Hrun & Hbf & (Hn & He & _) & Hlen).
  exists self, salidas, g'.
  split; [|split; [exact Hbf | split; [congruence | split; [congruence | exact Hlen]]]].
  unfold simular. unfold_M. rewrite Hinit. exact Hrun.
Qed.

End OctonodoFrame.

(** ** The steps of a frame of the indoor simulator *)

Module InterioresPasos.
Import Interiores.

Lemma calcular_rssi_eq self (d : R) g :
  calcular_rssi self d g = Ok (rssi_de self g 0 d, np.random.advance g 1).
Proof. reflexivity. Qed.

Lemma medir_nodo_desde (l : list Point2D) :
  forall (i : nat) self g,
    con_claves self i l ->
    exists dh' rh',
      for_enumerate_from i l medir_nodo self g
      = Ok (set_rssi_historicos rh' (set_distancias_historicas dh' self),
            np.random.advance g (length l)) /\
      anexadas "R" i (distancias_desde self.(nodo_movil) l)
        self.(distancias_historicas) dh' /\
      anexadas "RSSI" i
        (imap (rssi_de self g) (distancias_desde self.(nodo_movil) l))
        self.(rssi_historicos) rh'.
Proof.
  induction l as [|x l IH]; intros i self g Hkeys.
  - exists self.(distancias_historicas), self.(rssi_historicos).
    split; [|split; apply anexadas_nil].
    simpl. unfold ret. rewrite advance_0. destruct self; reflexivity.
  - destruct (Hkeys 0%nat ltac:(simpl; lia)) as [[ld Hld] [lr Hlr]].
    rewrite Nat.add_0_r in Hld, Hlr.
    set (d := calcular_distancia_con_obstaculos self.(nodo_movil) x).
    set (dh1 := <[clave "R" i := ld ++ [d]]> self.(distancias_historicas)).
    set (rh1 := <[clave "RSSI" i := lr ++ [rssi_de self g 0 d]]> self.(rssi_historicos)).
    set (self1 := set_rssi_historicos rh1 (set_distancias_historicas dh1 self)).
    destruct (IH (S i) self1 (np.random.advance g 1)) as (dh' & rh' & Hloop & Hd & Hr).
    { intros j Hj. subst self1 dh1 rh1. simpl.
      rewrite !lookup_insert_ne by (apply clave_ne; lia).
      replace (S (i + j)) with (i + S j)%nat by lia. apply Hkeys. simpl. lia. }
    exists dh', rh'. split; [|split].
    + simpl. unfold_M. unfold medir_nodo at 1. unfold_M.
      unfold dict_append. fold d. rewrite Hld. simpl. rewrite Hlr.
      change (calcular_rssi _ d g)
        with (Ok (rssi_de self g 0 d, np.random.advance g 1)
              : result (np.float * np.random.RandomState)).
      cbv beta iota. fold dh1. fold rh1. fold self1.
      refine (eq_trans Hloop _). rewrite advance_advance.
      subst self1. destruct self; reflexivity.
    + apply (anexadas_cons _ _ _ _ ld); assumption.
    + simpl. apply (anexadas_cons _ _ _ _ lr); [exact Hlr|].
      fold rh1. clear -Hr.
      replace (imap (rssi_de self g ∘ S) (distancias_desde (nodo_movil self) l))
        with (imap (rssi_de self1 (np.random.advance g 1))
                (distancias_desde (nodo_movil self1) l)); [exact Hr|].
      apply imap_ext. intros j y _. unfold rssi_de, compose. simpl.
      rewrite peek_advance. reflexivity.
Qed.

End InterioresPasos.

(** ** A whole frame of the indoor simulator *)

Module InterioresFrame.
Import Interiores InterioresPasos.

Lemma historias_de_con_claves k self :
  historias_de k self -> con_claves self 0 self.(nodos_fijos).
Proof.
  intros H j Hj. simpl. destruct (H j Hj) as (ld & lr & Hd & Hr & _).
  rewrite Hd, Hr. eauto.
Qed.

Lemma actualizar_spec self (frame : Z) g :
  con_claves self 0 self.(nodos_fijos) ->
  exists dh' rh',
    actualizar frame self g
    = Ok (set_rssi_historicos rh'
            (set_distancias_historicas dh' (tras_mover (IZR frame) self)),
          np.random.advance g (length self.(nodos_fijos))) /\
    anexadas "R" 0
      (distancias_desde (posicion_pasillo self (IZR frame)) self.(nodos_fijos))
      self.(distancias_historicas) dh' /\
    anexadas "RSSI" 0
      (imap (rssi_de self g)
         (distancias_desde (posicion_pasillo self (IZR frame)) self.(nodos_fijos)))
      self.(rssi_historicos) rh'.
Proof.
  intros Hkeys.
  destruct (medir_nodo_desde self.(nodos_fijos) 0 (tras_mover (IZR frame) self) g)
    as (dh' & rh' & Hloop & Hd & Hr).
  { exact Hkeys. }
  exists dh', rh'. split; [|split; assumption].
  unfold actualizar, mover_nodo_movil, for_enumerate. unfold_M.
  exact Hloop.
Qed.

Lemma actualizar_total k self (frame : Z) g :
  historias_de k self ->
  exists self',
    actualizar frame self g
    = Ok (self', np.random.advance g (length self.(nodos_fijos))) /\
    historias_de (S k) self' /\
    self'.(nodos_fijos) = self.(nodos_fijos).
Proof.
  intros Hk.
  destruct (actualizar_spec self frame g (historias_de_con_claves k self Hk))
    as (dh' & rh' & -> & Hd & Hr).
  eexists. split; [reflexivity|]. split; [|reflexivity].
  intros i Hi. simpl in Hi. destruct (Hk i Hi) as (ld & lr & Hld & Hlr & Hnd & Hnr).
  destruct (anexadas_length "R" _ _ _ i k ld Hd) as (ld' & Hld' & Hnd');
    [unfold distancias_desde; rewrite length_fmap; exact Hi | exact Hld | exact Hnd |].
  destruct (anexadas_length "RSSI" _ _ _ i k lr Hr) as (lr' & Hlr' & Hnr');
    [unfold distancias_desde; rewrite length_imap, length_fmap; exact Hi
    | exact Hlr | exact Hnr |].
  exists ld', lr'. simpl. auto.
Qed.

Lemma animar_historias (frames : list Z) :
  forall k self g,
    historias_de k self ->
    exists self' g',
      animar frames self g = Ok (self', g') /\
      historias_de (k + length frames) self' /\
      self'.(nodos_fijos) = self.(nodos_fijos).
Proof.
  induction frames as [|frame frames IH]; intros k self g Hk.
  - exists self, g. rewrite Nat.add_0_r. auto.
  - destruct (actualizar_total k self frame g Hk) as (self1 & Hstep & Hk1 & Hn1).
    destruct (IH (S k) self1 (np.random.advance g (length self.(nodos_fijos))) Hk1)
      as (self2 & g2 & Hrest & Hk2 & Hn2).
    exists self2, g2. split; [|split; [|congruence]].
    + simpl. unfold_M. rewrite Hstep. exact Hrest.
    + simpl. replace (k + S (length frames))%nat with (S k + length frames)%nat by lia.
      exact Hk2.
Qed.

Lemma init_historias : historias_de 0 __init__.
Proof.
  intros i Hi. simpl in Hi. exists [], []. simpl.
  rewrite !lookup_historial_vacio by exact Hi. auto.
Qed.

Lemma mismas_muestras_advance g1 g2 (k : nat) :
  mismas_muestras g1 g2 ->
  mismas_muestras (np.random.advance g1 k) (np.random.advance g2 k).
Proof. intros H j. rewrite !peek_advance. apply H. Qed.

(** A frame depends on the generator through the samples it will draw. *)
Lemma actualizar_mismas_muestras k self (frame : Z) g1 g2 :
  historias_de k self -> mismas_muestras g1 g2 ->
  exists self',
    actualizar frame self g1
    = Ok (self', np.random.advance g1 (length self.(nodos_fijos))) /\
    actualizar frame self g2
    = Ok (self', np.random.advance g2 (length self.(nodos_fijos))) /\
    historias_de (S k) self'.
Proof.
  intros Hk Hg.
  destruct (actualizar_total k self frame g1 Hk) as (self' & Hstep1 & Hk' & _).
  exists self'. split; [exact Hstep1|]. split; [|exact Hk'].
  pose proof (historias_de_con_claves k self Hk) as Hkeys.
  destruct (actualizar_spec self frame g1 Hkeys) as (dh1 & rh1 & E1 & Hd1 & Hr1).
  destruct (actualizar_spec self frame g2 Hkeys) as (dh2 & rh2 & E2 & Hd2 & Hr2).
  rewrite E1 in Hstep1. injection Hstep1 as <-. rewrite E2.
  rewrite (anexadas_fun _ _ _ _ _ _ Hd2 Hd1).
  assert (Hv : imap (rssi_de self g2)
                 (distancias_desde (posicion_pasillo self (IZR frame)) (nodos_fijos self))
               = imap (rssi_de self g1)
                   (distancias_desde (posicion_pasillo self (IZR frame)) (nodos_fijos self))).
  { apply imap_ext. intros j d _. unfold rssi_de. rewrite (Hg j). reflexivity. }
  rewrite Hv in Hr2. rewrite (anexadas_fun _ _ _ _ _ _ Hr2 Hr1). reflexivity.
Qed.

Lemma animar_mismas_muestras (frames : list Z) :
  forall k self g1 g2,
    historias_de k self -> mismas_muestras g1 g2 ->
    exists self' g1' g2',
      animar frames self g1 = Ok (self', g1') /\
      animar frames self g2 = Ok (self', g2') /\
      mismas_muestras g1' g2'.
Proof.
  induction frames as [|frame frames IH]; intros k self g1 g2 Hk Hg.
  - exists self, g1, g2. auto.
  - destruct (actualizar_mismas_muestras k self frame g1 g2 Hk Hg)
      as (self1 & Hs1 & Hs2 & Hk1).
    destruct (IH (S k) self1 _ _ Hk1
                (mismas_muestras_advance g1 g2 (length self.(nodos_fijos)) Hg))
      as (self2 & g1' & g2' & Hr1 & Hr2 & Hg').
    exists self2, g1', g2'. split; [|split; [|exact Hg']].
    + simpl. unfold_M. rewrite Hs1. exact Hr1.
    + simpl. unfold_M. rewrite Hs2. exact Hr2.
Qed.

(** C5.  After [k] frames from a fresh simulator, whatever the frames and the
    generator, the animation has returned and every one of the four anchors
    has a distance history and an RSSI history of length exactly [k]. *)
Theorem histories_have_length_of_steps (frames : list Z) (g : np.random.RandomState) :
  exists self g',
    simular frames g = Ok (self, g') /\
    length self.(nodos_fijos) = 4%nat /\
    forall i, (i < 4)%nat ->
      exists (ld : list R) (lr : list np.float),
        self.(distancias_historicas) !! clave "R" i = Some ld /\
        self.(rssi_historicos) !! clave "RSSI" i = Some lr /\
        length ld = length frames /\
        length lr = length frames.
Proof.
  destruct (animar_historias frames 0 __init__ g init_historias)
    as (self & g' & Hrun & Hk & Hn).
  exists self, g'. split; [exact Hrun|]. split; [rewrite Hn; reflexivity|].
  intros i Hi. apply Hk. rewrite Hn. exact Hi.
Qed.

End InterioresFrame.

(** ** The direction estimate *)

Module OctonodoEstimate.
Import Octonodo OctonodoPasos OctonodoDireccion OctonodoFrame.

(** C1.  A frame of a well-formed simulator returns, and its direction
    estimate is the one of the specified algorithm on the input of the
    frame: the anchors are those of the simulator, the mobile position is
    the orbit position of the frame number, the measured distances are the
    true distances to that position plus the noise drawn, and the RSSIs are
    those that [calcular_rssi] computes for the measured distances with the
    draws that follow.  On these, the stored direction of each anchor is the
    unit vector from the anchor to the mobile node (zero when they
    coincide), each RSSI becomes the weight [10^(rssi/10)], the weighted sum
    of the unit vectors is normalised when its norm is positive and is the
    zero vector otherwise, and the angle shown is [atan2(y, x) * 180 / pi]
    of that resultant. *)
Theorem estimate_follows_specified_algorithm
    (self : SimuladorTrilateracion) (frame : Z) (g : np.random.RandomState) :
  bien_formado self ->
  exists self' salida g',
    actualizar_frame frame self g = Ok ((self', Some salida), g') /\
    self'.(nodos_fijos) = self.(nodos_fijos) /\
    self'.(nodo_movil) = posicion_orbita self (IZR frame) /\
    salida.(distancias_medidas) = medidas_en self (IZR frame) g /\
    comprehension (calcular_rssi self) (medidas_en self (IZR frame) g)
      (np.random.advance g (length self.(nodos_fijos)))
    = Ok (salida.(rssi_medidos), g') /\
    self'.(vectores_direccion)
    = DirectionEstimatorSpec.unit_vector self'.(nodo_movil) <$> self'.(nodos_fijos) /\
    salida.(rssi_medidos) = self'.(magnitudes_rssi) /\
    (salida.(vector_resultante), salida.(angulo_resultante))
    = DirectionEstimatorSpec.estimate
        self'.(nodo_movil) self'.(nodos_fijos) self'.(magnitudes_rssi) /\
    (salida.(vector_resultante), salida.(angulo_resultante))
    = DirectionEstimatorSpec.estimate
        (posicion_orbita self (IZR frame)) self.(nodos_fijos) salida.(rssi_medidos).
Proof.
  intros Hbf.
  destruct (actualizar_frame_spec self frame g Hbf)
    as (rssis & g' & h' & Hrssi & _ & ->).
  eexists _, _, _. split; [reflexivity|]. simpl.
  split; [reflexivity|]. split; [reflexivity|]. split; [reflexivity|].
  split; [exact Hrssi|].
  split; [|split; [reflexivity|split; reflexivity]].
  apply list_fmap_ext. intros i a _. apply vector_unitario_spec.
Qed.

(** The first frame of the program. *)
Lemma estimate_follows_specified_algorithm_witness :
  exists self g,
    __init__ generador_unos = Ok (self, g) /\
    bien_formado self /\
    exists self' salida g',
      actualizar_frame 0 self g = Ok ((self', Some salida), g') /\
      self'.(nodos_fijos) = self.(nodos_fijos) /\
      self'.(nodo_movil) = posicion_orbita self (IZR 0) /\
      (salida.(vector_resultante), salida.(angulo_resultante))
      = DirectionEstimatorSpec.estimate
          self'.(nodo_movil) self'.(nodos_fijos) self'.(magnitudes_rssi).
Proof.
  destruct (init_eq generador_unos) as (self & Hinit & Hbf & _).
  exists self, (np.random.advance (np.random.seed 42 generador_unos) 1800).
  split; [exact Hinit|]. split; [exact Hbf|].
  destruct (estimate_follows_specified_algorithm self 0
              (np.random.advance (np.random.seed 42 generador_unos) 1800) Hbf)
    as (self' & salida & g' & Hstep & Hn & Hm & _ & _ & _ & _ & Hest & _).
  exists self', salida, g'.
  split; [exact Hstep|]. split; [exact Hn|]. split; [exact Hm | exact Hest].
Defined.

(** One anchor at the origin, the mobile node at (1, 0). *)

Lemma vector_del_origen_a_1_0 :
  (calcular_vector_direccion (0, 0) (1, 0)).1 = (1, 0).
Proof.
  unfold calcular_vector_direccion, np.linalg.norm, vsub, vdiv. simpl.
  replace ((1 - 0) * (1 - 0) + (0 - 0) * (0 - 0)) with 1 by ring.
  rewrite sqrt_1. destruct (Rlt_dec 0 1) as [_|H]; [|lra].
  f_equal; field.
Qed.

Lemma resultante_de_un_vector (rssi : R) g :
  calcular_vector_resultante [(1, 0)] [rssi] g = Ok ((1, 0), g).
Proof.
  rewrite calcular_vector_resultante_spec by (simpl; lia).
  unfold DirectionEstimatorSpec.weighted_sum, DirectionEstimatorSpec.weight,
    DirectionEstimatorSpec.normalize. simpl.
  set (w := Rpower 10 (rssi / 10)).
  assert (Hw : 0 < w) by apply exp_pos.
  unfold vadd, vscale, vdiv, np.linalg.norm. simpl.
  replace ((1 * w + 0) * (1 * w + 0) + (0 * w + 0) * (0 * w + 0))
    with (w * w) by ring.
  rewrite sqrt_sq_nonneg by lra.
  destruct (Rlt_dec 0 w) as [_|H]; [|lra].
  do 2 f_equal. f_equal; field; lra.
Qed.

Lemma arctan2_0_1 : np.arctan2 0 1 = 0.
Proof.
  unfold np.arctan2. destruct (Rlt_dec 0 1) as [_|H]; [|lra].
  replace (0 / 1) with 0 by field. apply atan_0.
Qed.

(** C2, as stated, fails: with an RSSI of 0 dBm the resultant is not
    [(-1, 0)] and the angle is not 180 degrees. *)
Lemma single_anchor_estimate_is_not_minus_x :
  exists v angulo,
    calcular_direccion [(calcular_vector_direccion (0, 0) (1, 0)).1] [0]
      generador_unos
    = Ok ((v, angulo), generador_unos) /\
    v <> (-1, 0) /\ angulo <> 180.
Proof.
  exists (1, 0), 0. split; [|split].
  - rewrite vector_del_origen_a_1_0. unfold calcular_direccion. unfold_M.
    rewrite resultante_de_un_vector. simpl. rewrite arctan2_0_1.
    do 3 f_equal. unfold Rdiv. ring.
  - intros [= H]. lra.
  - lra.
Qed.

(** C2, amended.  For a single anchor at (0, 0) and the mobile node at
    (1, 0), whatever RSSI is measured, the resultant vector is [(1, 0)], the
    unit vector from the anchor to the mobile node, and the angle is exactly
    0 degrees. *)
Theorem single_anchor_estimate_points_away_from_anchor
    (rssi : R) (g : np.random.RandomState) :
  calcular_direccion [(calcular_vector_direccion (0, 0) (1, 0)).1] [rssi] g
  = Ok (((1, 0), 0), g).
Proof.
  rewrite vector_del_origen_a_1_0. unfold calcular_direccion. unfold_M.
  rewrite resultante_de_un_vector. simpl. rewrite arctan2_0_1.
  do 3 f_equal. unfold Rdiv. ring.
Qed.

End OctonodoEstimate.

(** ** The distance histories of the octonodal simulator *)

Module OctonodoMedidas.
Import Octonodo OctonodoPasos OctonodoDireccion OctonodoFrame.

Lemma lookup_medidas_en self (frame : R) g (i : nat) (nodo : Point2D) :
  self.(nodos_fijos) !! i = Some nodo ->
  medidas_en self frame g !! i
  = Some (calcular_distancia (posicion_orbita self frame) nodo
          + (0 + self.(error_medicion) * np.random.peek g i)).
Proof.
  intros Hi. unfold medidas_en, distancias_con_ruido, reales_en.
  rewrite list_lookup_imap, list_lookup_fmap, Hi. reflexivity.
Qed.

(** C10.  At every frame of every run of the octonodal simulator, the value
    appended to the distance history of each anchor is the measured
    distance, the true Euclidean distance plus 0.2 times a fresh standard
    normal draw; it is the true distance only when that draw is zero.  The
    other two histories, [trayectoria_x] and [trayectoria_y], take the
    coordinates of the mobile node: no history takes the true distances. *)
Theorem distance_history_records_noisy_distance
    (frames : list Z) (frame : Z) (g : np.random.RandomState) :
  exists self salidas g1 self' salida g2,
    simular frames g = Ok ((self, salidas), g1) /\
    actualizar_frame frame self g1 = Ok ((self', Some salida), g2) /\
    self'.(trayectoria_x) = self.(trayectoria_x) ++ [self'.(nodo_movil).1] /\
    self'.(trayectoria_y) = self.(trayectoria_y) ++ [self'.(nodo_movil).2] /\
    forall i nodo, self.(nodos_fijos) !! i = Some nodo ->
      let real := calcular_distancia self'.(nodo_movil) nodo in
      let medida := real + (0 + 0.2 * np.random.peek g1 i) in
      exists l,
        self.(distancias_historicas) !! clave "R" i = Some l /\
        self'.(distancias_historicas) !! clave "R" i = Some (l ++ [medida]) /\
        (medida = real <-> np.random.peek g1 i = 0).
Proof.
  destruct (simular_total frames g) as (self & salidas & g1 & Hrun & Hbf & _ & He & _).
  destruct (actualizar_frame_spec self frame g1 Hbf)
    as (rssis & g2 & h' & _ & [Hap _] & Hstep).
  eexists self, salidas, g1, _, _, g2.
  split; [exact Hrun|]. split; [exact Hstep|].
  split; [reflexivity|]. split; [reflexivity|].
  intros i nodo Hi real medida.
  destruct Hbf as (_ & _ & _ & Hkeys).
  destruct (Hkeys i (lookup_lt_Some _ _ _ Hi)) as [l Hl].
  exists l. split; [exact Hl|]. split.
  - pose proof (lookup_medidas_en self (IZR frame) g1 i nodo Hi) as Hm.
    rewrite He in Hm. specialize (Hap i _ Hm). simpl in Hap.
    rewrite Hl in Hap. exact Hap.
  - subst medida. split; intros H; lra.
Qed.

End OctonodoMedidas.

(** ** The trajectories *)

Module Trayectorias.

(** C8, as stated, fails: at step 201 the corridor position is not the one
    of step [201 mod 200 = 1]. *)
Lemma corridor_position_does_not_wrap :
  Interiores.posicion_pasillo Interiores.__init__ (IZR 201)
  <> Interiores.posicion_pasillo Interiores.__init__ (IZR (201 mod 200)).
Proof.
  change (201 mod 200)%Z with 1%Z.
  unfold Interiores.posicion_pasillo. simpl.
  destruct (Rlt_dec 201 50); [lra|]. destruct (Rlt_dec 201 100); [lra|].
  destruct (Rlt_dec 201 150); [lra|]. destruct (Rlt_dec 1 50); [|lra].
  intros [= H _]. lra.
Qed.

(** C8, amended.  For every integer step [t] with [0 <= t < 200] (four
    segments of 50 steps), the corridor position is given by the phase
    [t // 50]: bottom, right, top and left corridor in turn, each phase
    moving one coordinate linearly with [t mod 50] across
    [[1, dimension - 1]] while the other stays at 1 or at the far edge.
    Steps from 200 on are not wrapped. *)
Theorem corridor_position_by_phase
    (self : Interiores.SimuladorLocalizacionInteriores) (t : Z) :
  (0 <= t < 200)%Z ->
  let ancho := self.(Interiores.ancho) in
  let alto := self.(Interiores.alto) in
  let u := IZR (t mod 50) / 50 in
  Interiores.posicion_pasillo self (IZR t)
  = match (t / 50)%Z with
    | 0%Z => (1 + u * (ancho - 2), 1)
    | 1%Z => (ancho - 1, 1 + u * (alto - 2))
    | 2%Z => (ancho - 1 - u * (ancho - 2), alto - 1)
    | _ => (1, alto - 1 - u * (alto - 2))
    end.
Proof.
  intros Ht ancho alto u. subst ancho alto u.
  unfold Interiores.posicion_pasillo.
  destruct (Rlt_dec (IZR t) 50) as [H1|H1].
  { apply lt_IZR in H1.
    replace (t / 50)%Z with 0%Z by (Z.to_euclidean_division_equations; lia).
    replace (t mod 50)%Z with t by (Z.to_euclidean_division_equations; lia).
    reflexivity. }
  assert (50 <= t)%Z by (apply Z.le_ngt; intros C; apply H1, IZR_lt, C).
  destruct (Rlt_dec (IZR t) 100) as [H2|H2].
  { apply lt_IZR in H2.
    replace (t / 50)%Z with 1%Z by (Z.to_euclidean_division_equations; lia).
    replace (t mod 50)%Z with (t - 50)%Z by (Z.to_euclidean_division_equations; lia).
    rewrite minus_IZR. reflexivity. }
  assert (100 <= t)%Z by (apply Z.le_ngt; intros C; apply H2, IZR_lt, C).
  destruct (Rlt_dec (IZR t) 150) as [H3|H3].
  { apply lt_IZR in H3.
    replace (t / 50)%Z with 2%Z by (Z.to_euclidean_division_equations; lia).
    replace (t mod 50)%Z with (t - 100)%Z by (Z.to_euclidean_division_equations; lia).
    rewrite minus_IZR. reflexivity. }
  assert (150 <= t)%Z by (apply Z.le_ngt; intros C; apply H3, IZR_lt, C).
  replace (t / 50)%Z with 3%Z by (Z.to_euclidean_division_equations; lia).
  replace (t mod 50)%Z with (t - 150)%Z by (Z.to_euclidean_division_equations; lia).
  rewrite minus_IZR. reflexivity.
Qed.

(** Step 75, half way up the right corridor. *)
Lemma corridor_position_by_phase_witness :
  (0 <= 75 < 200)%Z /\
  Interiores.posicion_pasillo Interiores.__init__ (IZR 75)
  = (20 - 1, 1 + IZR (75 mod 50) / 50 * (15 - 2)).
Proof.
  split; [lia|].
  exact (corridor_position_by_phase Interiores.__init__ 75 ltac:(lia)).
Defined.

(** C9, as stated, fails: for the negative step -1 and for the fractional
    step 1/2 the trajectory code returns a position; it raises nothing. *)
Lemma trajectory_accepts_invalid_steps :
  Interiores.mover_nodo_movil (-1) Interiores.__init__ generador_unos
  <> Raise InvalidStepError /\
  Interiores.mover_nodo_movil (1 / 2) Interiores.__init__ generador_unos
  <> Raise InvalidStepError /\
  exists self,
    Interiores.mover_nodo_movil (-1) Interiores.__init__ generador_unos
    = Ok (self, generador_unos) /\
    self.(Interiores.nodo_movil) = (16 / 25, 1).
Proof.
  split; [discriminate|]. split; [discriminate|].
  eexists. split; [reflexivity|].
  unfold Interiores.posicion_pasillo. simpl.
  destruct (Rlt_dec (-1) 50); [|lra]. f_equal. field.
Qed.

(** C9, amended.  For every step, negative, fractional or a non-negative
    integer, the trajectory code of both simulators returns: it never raises
    an [InvalidStepError].  It writes the position of the mobile node and
    nothing else, draws nothing from the generator, and the position it
    writes does not depend on the position, the traces or the histories it
    finds. *)
Theorem trajectory_returns_for_every_step
    (frame : R) (g : np.random.RandomState)
    (interior : Interiores.SimuladorLocalizacionInteriores)
    (octonodo : Octonodo.SimuladorTrilateracion) :
  Interiores.mover_nodo_movil frame interior g
  = Ok (Interiores.set_nodo_movil
          (Interiores.posicion_pasillo interior frame) interior, g) /\
  Octonodo.mover_nodo_movil frame octonodo g
  = Ok (Octonodo.set_nodo_movil
          (Octonodo.posicion_orbita octonodo frame) octonodo, g) /\
  (forall p tx ty dh rh,
     Interiores.posicion_pasillo
       (Interiores.set_rssi_historicos rh
          (Interiores.set_distancias_historicas dh
             (Interiores.set_trayectoria_y ty
                (Interiores.set_trayectoria_x tx
                   (Interiores.set_nodo_movil p interior))))) frame
     = Interiores.posicion_pasillo interior frame) /\
  (forall p tx ty dh vs ms,
     Octonodo.posicion_orbita
       (Octonodo.set_magnitudes_rssi ms
          (Octonodo.set_vectores_direccion vs
             (Octonodo.set_distancias_historicas dh
                (Octonodo.set_trayectoria_y ty
                   (Octonodo.set_trayectoria_x tx
                      (Octonodo.set_nodo_movil p octonodo)))))) frame
     = Octonodo.posicion_orbita octonodo frame).
Proof.
  split; [reflexivity|]. split; [reflexivity|].
  split; intros; reflexivity.
Qed.

End Trayectorias.

(** ** Distance, noise, RSSI and the random source *)

Module Medidas.

Lemma log10_zero : np.log10 0 = np.NegInf.
Proof.
  unfold np.log10. destruct (Rlt_dec 0 0); [lra|].
  destruct (Req_dec_T 0 0); [reflexivity|congruence].
Qed.

Lemma log10_negative (d : R) : d < 0 -> np.log10 d = np.NaN.
Proof.
  intros Hd. unfold np.log10. destruct (Rlt_dec 0 d); [lra|].
  destruct (Req_dec_T d 0); [lra|reflexivity].
Qed.

Lemma log10_positive (d : R) : 0 < d -> np.log10 d = np.Finite (np.log10_pos d).
Proof. intros Hd. unfold np.log10. destruct (Rlt_dec 0 d); [reflexivity|lra]. Qed.

Lemma scale_negative_NegInf (a : R) : a < 0 -> np.scale a np.NegInf = np.PosInf.
Proof.
  intros Ha. simpl. destruct (Rlt_dec 0 a); [lra|].
  destruct (Rlt_dec a 0); [reflexivity|lra].
Qed.

Lemma log10_pos_inj (x y : R) :
  0 < x -> 0 < y -> np.log10_pos x = np.log10_pos y -> x = y.
Proof.
  intros Hx Hy H. unfold np.log10_pos in H. apply ln_inv; try assumption.
  assert (Hln : 0 < ln 10) by (rewrite <- ln_1; apply ln_increasing; lra).
  apply (Rmult_eq_reg_r (/ ln 10)); [exact H|].
  apply Rinv_neq_0_compat. lra.
Qed.

(** The RSSI of the indoor simulator at distance 0 and below. *)
Lemma interiores_rssi_sin_guarda (g : np.random.RandomState) :
  Interiores.calcular_rssi Interiores.__init__ 0 g
  = Ok (np.PosInf, np.random.advance g 1) /\
  forall d, d < 0 ->
    Interiores.calcular_rssi Interiores.__init__ d g
    = Ok (np.NaN, np.random.advance g 1).
Proof.
  split.
  - unfold Interiores.calcular_rssi. unfold_M. unfold np.random.normal.
    rewrite log10_zero, scale_negative_NegInf by (simpl; lra). reflexivity.
  - intros d Hd. unfold Interiores.calcular_rssi. unfold_M.
    unfold np.random.normal. rewrite log10_negative by exact Hd. reflexivity.
Qed.

(** The first anchor after one frame of the indoor simulator. *)
Lemma interiores_primer_nodo (frame : Z) (g : np.random.RandomState) :
  exists self,
    Interiores.simular [frame] g = Ok (self, np.random.advance g 4) /\
    self.(Interiores.distancias_historicas) !! "R1"
    = Some [Interiores.calcular_distancia_con_obstaculos
              (Interiores.posicion_pasillo Interiores.__init__ (IZR frame)) (1, 1)] /\
    self.(Interiores.rssi_historicos) !! "RSSI1"
    = Some [Interiores.rssi_de Interiores.__init__ g 0
              (Interiores.calcular_distancia_con_obstaculos
                 (Interiores.posicion_pasillo Interiores.__init__ (IZR frame)) (1, 1))].
Proof.
  destruct (InterioresFrame.actualizar_spec Interiores.__init__ frame g)
    as (dh' & rh' & Hstep & [Hd _] & [Hr _]).
  { apply (InterioresFrame.historias_de_con_claves 0), InterioresFrame.init_historias. }
  eexists. split.
  - unfold Interiores.simular. simpl. unfold_M. rewrite Hstep. reflexivity.
  - split.
    + simpl. apply (Hd 0%nat). reflexivity.
    + simpl. apply (Hr 0%nat). reflexivity.
Qed.

(** C3.  The octonodal simulator guards the logarithm: for every distance
    [d <= 0] its [calcular_rssi] returns [potencia_tx] and draws nothing.
    The indoor simulator does not: at distance 0 its [calcular_rssi]
    evaluates [np.log10(0)] and returns plus infinity, and at a negative
    distance not-a-number; frame 0 of the animation, where the mobile node
    stands on the first anchor, records that infinite RSSI. *)
Theorem indoor_rssi_is_unguarded_at_distance_zero (g : np.random.RandomState) :
  (forall self d, d <= 0 ->
     Octonodo.calcular_rssi self d g = Ok (self.(Octonodo.potencia_tx), g)) /\
  Interiores.calcular_rssi Interiores.__init__ 0 g
  = Ok (np.PosInf, np.random.advance g 1) /\
  (forall d, d < 0 ->
     Interiores.calcular_rssi Interiores.__init__ d g
     = Ok (np.NaN, np.random.advance g 1)) /\
  exists self,
    Interiores.simular [0%Z] g = Ok (self, np.random.advance g 4) /\
    self.(Interiores.distancias_historicas) !! "R1" = Some [0] /\
    self.(Interiores.rssi_historicos) !! "RSSI1" = Some [np.PosInf].
Proof.
  split; [intros self d Hd; apply OctonodoPasos.calcular_rssi_fuera_de_rango, Hd|].
  destruct (interiores_rssi_sin_guarda g) as [H0 Hneg].
  split; [exact H0|]. split; [exact Hneg|].
  destruct (interiores_primer_nodo 0 g) as (self & Hrun & Hd & Hr).
  assert (E : Interiores.calcular_distancia_con_obstaculos
                (Interiores.posicion_pasillo Interiores.__init__ 0) (1, 1) = 0).
  { unfold Interiores.posicion_pasillo, Interiores.calcular_distancia_con_obstaculos.
    simpl. destruct (Rlt_dec 0 50); [|lra]. simpl.
    replace ((1 + 0 / 50 * (20 - 2) - 1) * ((1 + 0 / 50 * (20 - 2) - 1) * 1)
             + (1 - 1) * ((1 - 1) * 1)) with 0 by field.
    apply sqrt_0. }
  rewrite E in Hd, Hr.
  exists self. split; [exact Hrun|]. split; [exact Hd|].
  rewrite Hr. unfold Interiores.rssi_de.
  rewrite log10_zero, scale_negative_NegInf by (simpl; lra). reflexivity.
Qed.

(** C4, as stated, fails in the indoor simulator.  At frame 25, with a
    generator whose every draw is 1, the run makes four draws (one per
    anchor), the first anchor records the true distance 9 and the RSSI of
    that true distance; the RSSI of a perturbed distance [9 + e] would be a
    different number for every [e <> 0], wherever the generator stands. *)
Lemma indoor_rssi_uses_true_distance :
  exists self,
    Interiores.simular [25%Z] generador_unos
    = Ok (self, np.random.advance generador_unos 4) /\
    self.(Interiores.distancias_historicas) !! "R1" = Some [9] /\
    self.(Interiores.rssi_historicos) !! "RSSI1"
    = Some [np.Finite (-10 * 2.5 * np.log10_pos 9 + (0 + 3.0 * 1))] /\
    forall e k rssi g',
      e <> 0 ->
      Interiores.calcular_rssi Interiores.__init__ (9 + e)
        (np.random.advance generador_unos k) = Ok (rssi, g') ->
      rssi <> np.Finite (-10 * 2.5 * np.log10_pos 9 + (0 + 3.0 * 1)).
Proof.
  destruct (interiores_primer_nodo 25 generador_unos) as (self & Hrun & Hd & Hr).
  assert (E : Interiores.calcular_distancia_con_obstaculos
                (Interiores.posicion_pasillo Interiores.__init__ 25) (1, 1) = 9).
  { unfold Interiores.posicion_pasillo, Interiores.calcular_distancia_con_obstaculos.
    simpl. destruct (Rlt_dec 25 50); [|lra]. simpl.
    replace ((1 + 25 / 50 * (20 - 2) - 1) * ((1 + 25 / 50 * (20 - 2) - 1) * 1)
             + (1 - 1) * ((1 - 1) * 1)) with (9 * 9) by field.
    apply sqrt_sq_nonneg. lra. }
  rewrite E in Hd, Hr.
  exists self. split; [exact Hrun|]. split; [exact Hd|]. split.
  - rewrite Hr. unfold Interiores.rssi_de.
    rewrite log10_positive by lra. reflexivity.
  - intros e k rssi g' He Hcall.
    unfold Interiores.calcular_rssi in Hcall. unfold_M_in Hcall.
    unfold np.random.normal in Hcall. injection Hcall as <- _.
    change (np.random.peek (np.random.advance generador_unos k) 0) with 1.
    destruct (Rlt_dec 0 (9 + e)) as [Hpos|Hneg].
    + rewrite log10_positive by exact Hpos. simpl. intros [= H].
      apply He.
      assert (Hlog : np.log10_pos (9 + e) = np.log10_pos 9) by lra.
      apply log10_pos_inj in Hlog; lra.
    + destruct (Req_dec_T (9 + e) 0) as [Hz|Hnz].
      * rewrite Hz, log10_zero, scale_negative_NegInf by (simpl; lra).
        discriminate.
      * rewrite log10_negative by lra. discriminate.
Qed.

(** C4, amended.  At every frame of every run of the octonodal simulator the
    measured distance of each anchor is its true Euclidean distance plus 0.2
    times a fresh standard normal draw, and the RSSIs are [calcular_rssi]
    applied to the measured distances, in anchor order, once the eight
    distance draws are made.  In the indoor simulator no draw perturbs the
    distance: the true Euclidean distance is recorded, and the RSSI is
    [calcular_rssi] applied to that true distance. *)
Theorem rssi_from_noisy_distance_in_octonodal_only
    (frames : list Z) (frame : Z) (g : np.random.RandomState) :
  (exists self salidas g1 self' salida g2,
     Octonodo.simular frames g = Ok ((self, salidas), g1) /\
     Octonodo.actualizar_frame frame self g1 = Ok ((self', Some salida), g2) /\
     salida.(Octonodo.distancias_medidas)
     = imap (fun i real => real + (0 + 0.2 * np.random.peek g1 i))
         (Octonodo.calcular_distancia self'.(Octonodo.nodo_movil)
            <$> self.(Octonodo.nodos_fijos)) /\
     comprehension (Octonodo.calcular_rssi self)
       salida.(Octonodo.distancias_medidas) (np.random.advance g1 8)
     = Ok (salida.(Octonodo.rssi_medidos), g2) /\
     self'.(Octonodo.magnitudes_rssi) = salida.(Octonodo.rssi_medidos)) /\
  (exists self g1 self',
     Interiores.simular frames g = Ok (self, g1) /\
     Interiores.actualizar frame self g1 = Ok (self', np.random.advance g1 4) /\
     forall i nodo, self.(Interiores.nodos_fijos) !! i = Some nodo ->
       let real :=
         Interiores.calcular_distancia_con_obstaculos
           self'.(Interiores.nodo_movil) nodo in
       exists ld lr rssi,
         self.(Interiores.distancias_historicas) !! clave "R" i = Some ld /\
         self'.(Interiores.distancias_historicas) !! clave "R" i
         = Some (ld ++ [real]) /\
         Interiores.calcular_rssi self real (np.random.advance g1 i)
         = Ok (rssi, np.random.advance g1 (S i)) /\
         self.(Interiores.rssi_historicos) !! clave "RSSI" i = Some lr /\
         self'.(Interiores.rssi_historicos) !! clave "RSSI" i
         = Some (lr ++ [rssi])).
Proof.
  split.
  - destruct (OctonodoFrame.simular_total frames g)
      as (self & salidas & g1 & Hrun & Hbf & Hn & He & _).
    destruct (OctonodoFrame.actualizar_frame_spec self frame g1 Hbf)
      as (rssis & g2 & h' & Hrssi & _ & Hstep).
    eexists self, salidas, g1, _, _, g2.
    split; [exact Hrun|]. split; [exact Hstep|]. simpl.
    split; [|split; [|reflexivity]].
    + unfold Octonodo.medidas_en, Octonodo.distancias_con_ruido.
      rewrite He. reflexivity.
    + rewrite <- Hn. exact Hrssi.
  - destruct (InterioresFrame.animar_historias frames 0 Interiores.__init__ g
                InterioresFrame.init_historias)
      as (self & g1 & Hrun & Hk & Hn).
    destruct (InterioresFrame.actualizar_spec self frame g1
                (InterioresFrame.historias_de_con_claves _ _ Hk))
      as (dh' & rh' & Hstep & [Hd _] & [Hr _]).
    eexists self, g1, _. split; [exact Hrun|].
    split; [rewrite Hstep, Hn; reflexivity|].
    intros i nodo Hi real. simpl in real.
    destruct (Hk i (lookup_lt_Some _ _ _ Hi)) as (ld & lr & Hld & Hlr & _).
    exists ld, lr, (Interiores.rssi_de self g1 i real).
    assert (Hdi : Interiores.distancias_desde
                    (Interiores.posicion_pasillo self (IZR frame))
                    self.(Interiores.nodos_fijos) !! i = Some real).
    { unfold Interiores.distancias_desde.
      rewrite list_lookup_fmap, Hi. reflexivity. }
    specialize (Hd i real Hdi). change (0 + i)%nat with i in Hd.
    specialize (Hr i (Interiores.rssi_de self g1 i real)).
    change (0 + i)%nat with i in Hr.
    split; [exact Hld|]. split.
    { cbn [Interiores.distancias_historicas Interiores.set_rssi_historicos
           Interiores.set_distancias_historicas].
      rewrite Hd, Hld. reflexivity. }
    split.
    { rewrite InterioresPasos.calcular_rssi_eq, advance_advance, Nat.add_1_r.
      unfold Interiores.rssi_de. rewrite peek_advance, Nat.add_0_r.
      reflexivity. }
    split; [exact Hlr|].
    cbn [Interiores.rssi_historicos Interiores.set_rssi_historicos].
    rewrite Hr, Hlr; [reflexivity|].
    rewrite list_lookup_imap, Hdi. reflexivity.
Qed.

Lemma seed_same_algorithm (s : Z) g1 g2 :
  np.random.algorithm g1 = np.random.algorithm g2 ->
  np.random.seed s g1 = np.random.seed s g2.
Proof. intros H. unfold np.random.seed. rewrite H. reflexivity. Qed.

(** C6.  The octonodal simulator seeds the generator with 42 before it draws
    anything, so two runs over the same frames return the same final state,
    the same sequence of outputs (measured distances, RSSIs, resultant
    vectors and angles) and the same generator, whatever the state in which
    each run found the generator of the library.  The indoor simulator does
    not seed: its two runs return the same state, histories included, when
    their generators are about to produce the same samples.  Either way the
    run is determined by the random source. *)
Theorem same_seed_same_sequences
    (frames : list Z) (g1 g2 : np.random.RandomState) :
  np.random.algorithm g1 = np.random.algorithm g2 ->
  (exists self salidas g',
     Octonodo.simular frames g1 = Ok ((self, salidas), g') /\
     Octonodo.simular frames g2 = Ok ((self, salidas), g') /\
     length salidas = length frames) /\
  (mismas_muestras g1 g2 ->
   exists self g1' g2',
     Interiores.simular frames g1 = Ok (self, g1') /\
     Interiores.simular frames g2 = Ok (self, g2') /\
     mismas_muestras g1' g2').
Proof.
  intros Halg. split.
  - destruct (OctonodoFrame.simular_total frames g1)
      as (self & salidas & g' & Hrun & _ & _ & _ & Hlen).
    exists self, salidas, g'. split; [exact Hrun|]. split; [|exact Hlen].
    rewrite <- Hrun.
    cbv beta iota zeta delta
      [Octonodo.simular Octonodo.__init__ mbind M_bind bind draw].
    rewrite (seed_same_algorithm 42 g2 g1) by (symmetry; exact Halg).
    reflexivity.
  - intros Hg.
    exact (InterioresFrame.animar_mismas_muestras frames 0 Interiores.__init__
             g1 g2 InterioresFrame.init_historias Hg).
Qed.

(** Two runs of three frames of the octonodal simulator, one from an
    untouched generator and one from a generator that was in use and was
    about to produce other samples; and two runs of the indoor simulator,
    one from that untouched generator and one from the same generator five
    draws later, all its samples being equal. *)
Lemma same_seed_same_sequences_witness :
  np.random.algorithm generador_unos = np.random.algorithm generador_usado /\
  np.random.peek generador_unos 0 <> np.random.peek generador_usado 0 /\
  (exists self salidas g',
     Octonodo.simular [0; 1; 2]%Z generador_unos = Ok ((self, salidas), g') /\
     Octonodo.simular [0; 1; 2]%Z generador_usado = Ok ((self, salidas), g') /\
     length salidas = 3%nat) /\
  mismas_muestras generador_unos (np.random.advance generador_unos 5) /\
  exists self g1' g2',
    Interiores.simular [0; 1; 2]%Z generador_unos = Ok (self, g1') /\
    Interiores.simular [0; 1; 2]%Z (np.random.advance generador_unos 5)
    = Ok (self, g2') /\
    mismas_muestras g1' g2'.
Proof.
  split; [reflexivity|]. split.
  { unfold np.random.peek, generador_unos, generador_usado. simpl. lra. }
  split.
  { apply (same_seed_same_sequences [0; 1; 2]%Z generador_unos generador_usado).
    reflexivity. }
  assert (Hg : mismas_muestras generador_unos (np.random.advance generador_unos 5))
    by (intros k; reflexivity).
  split; [exact Hg|].
  apply (same_seed_same_sequences [0; 1; 2]%Z
           generador_unos (np.random.advance generador_unos 5));
    [reflexivity | exact Hg].
Defined.

End Medidas.

(** * Further properties of the code *)

(** ** Direction vectors and the resultant *)

Module Direccion.
Import Octonodo.

Lemma norm_vdiv_self (v : Point2D) :
  0 < np.linalg.norm v -> np.linalg.norm (vdiv v (np.linalg.norm v)) = 1.
Proof.
  intros Hpos. destruct v as [x y]. unfold np.linalg.norm, vdiv in *. simpl in *.
  set (k := sqrt (x * x + y * y)) in *.
  assert (Hk : k * k = x * x + y * y) by (apply sqrt_sqrt; nra).
  replace (x / k * (x / k) + y / k * (y / k)) with 1.
  - apply sqrt_1.
  - field_simplify_eq; [nra | lra].
Qed.

Lemma norm_vsub_distancia (p q : Point2D) :
  np.linalg.norm (vsub p q) = calcular_distancia p q.
Proof.
  unfold np.linalg.norm, vsub, calcular_distancia. simpl. f_equal. ring.
Qed.

(** [calcular_vector_direccion] returns the distance between the two points
    and a vector of norm 1, unless the points coincide: then it returns the
    zero vector and the distance 0, and divides by nothing. *)
Theorem direction_vector_has_norm_one (origen destino : Point2D) :
  (calcular_vector_direccion origen destino).2
  = calcular_distancia destino origen /\
  (origen <> destino ->
   np.linalg.norm (calcular_vector_direccion origen destino).1 = 1) /\
  (origen = destino ->
   calcular_vector_direccion origen destino = ((0, 0), 0)).
Proof.
  unfold calcular_vector_direccion. simpl.
  split; [apply norm_vsub_distancia|]. split.
  - intros Hne.
    destruct (Rlt_dec 0 (np.linalg.norm (vsub destino origen))) as [Hpos|Hpos].
    + apply norm_vdiv_self, Hpos.
    + exfalso. apply Hne, vsub_zero_iff, norm_not_pos, Hpos.
  - intros ->.
    assert (Hz : np.linalg.norm (vsub destino destino) = 0).
    { apply norm_zero_iff, vsub_zero_iff. reflexivity. }
    rewrite Hz. destruct (Rlt_dec 0 0); [lra | reflexivity].
Qed.

Lemma normalize_unit_or_zero (v : Point2D) :
  np.linalg.norm (DirectionEstimatorSpec.normalize v) = 1
  \/ DirectionEstimatorSpec.normalize v = (0, 0).
Proof.
  unfold DirectionEstimatorSpec.normalize.
  destruct (Rlt_dec 0 (np.linalg.norm v)) as [Hpos|Hpos].
  - left. apply norm_vdiv_self, Hpos.
  - right. reflexivity.
Qed.

(** With a weight for every vector, [calcular_vector_resultante] returns,
    without drawing, either a vector of norm 1 or the zero vector. *)
Theorem resultant_is_unit_or_zero
    (vectores : list Point2D) (pesos : list R) (g : np.random.RandomState) :
  (length vectores <= length pesos)%nat ->
  exists v,
    calcular_vector_resultante vectores pesos g = Ok (v, g) /\
    (np.linalg.norm v = 1 \/ v = (0, 0)).
Proof.
  intros Hlen. eexists. split.
  - apply OctonodoDireccion.calcular_vector_resultante_spec, Hlen.
  - apply normalize_unit_or_zero.
Qed.

Lemma resultant_is_unit_or_zero_witness :
  let vectores := [(1, 0); (0, 1)] in
  let pesos := [-40; -50; -60] in
  (length vectores <= length pesos)%nat /\
  exists v,
    calcular_vector_resultante [(1, 0); (0, 1)] [-40; -50; -60] generador_unos
    = Ok (v, generador_unos) /\
    (np.linalg.norm v = 1 \/ v = (0, 0)).
Proof.
  split; [simpl; lia|].
  apply (resultant_is_unit_or_zero [(1, 0); (0, 1)] [-40; -50; -60] generador_unos).
  simpl. lia.
Defined.

Lemma acumular_sin_peso (ws : list R) (vs : list Point2D) :
  forall (i : nat) (acc : Point2D) g,
    (i <= length ws)%nat ->
    (length ws < i + length vs)%nat ->
    for_enumerate_from i vs (acumular ws) acc g = Raise IndexError.
Proof.
  induction vs as [|v vs IH]; intros i acc g Hi Hlen; simpl in *; [lia|].
  unfold_M. unfold acumular at 1. unfold_M. unfold getitem.
  destruct (ws !! i) as [w|] eqn:Hw; [|reflexivity].
  apply lookup_lt_Some in Hw. unfold_M_in IH. apply IH; lia.
Qed.

Lemma resultant_needs_a_weight_per_vector_aux
    (vectores : list Point2D) (pesos : list R) (g : np.random.RandomState) :
  (length pesos < length vectores)%nat ->
  calcular_vector_resultante vectores pesos g = Raise IndexError.
Proof.
  intros Hlen. unfold calcular_vector_resultante, for_enumerate. unfold_M.
  rewrite acumular_sin_peso; [reflexivity | lia |].
  rewrite length_fmap. simpl. exact Hlen.
Qed.

(** With fewer weights than vectors, [calcular_vector_resultante] and, with
    it, [calcular_direccion] raise an [IndexError]: the loop runs out of
    weights.  With no vector at all the resultant is the zero vector and the
    angle is 0. *)
Theorem resultant_needs_a_weight_per_vector
    (vectores : list Point2D) (pesos : list R) (g : np.random.RandomState) :
  (length pesos < length vectores)%nat ->
  calcular_vector_resultante vectores pesos g = Raise IndexError /\
  calcular_direccion vectores pesos g = Raise IndexError /\
  calcular_direccion [] pesos g = Ok (((0, 0), 0), g).
Proof.
  intros Hlen.
  pose proof (resultant_needs_a_weight_per_vector_aux vectores pesos g Hlen) as H.
  split; [exact H|]. split.
  - unfold calcular_direccion. unfold_M. rewrite H. reflexivity.
  - unfold calcular_direccion, calcular_vector_resultante, for_enumerate.
    unfold_M. simpl.
    assert (Hz : np.linalg.norm (0, 0) = 0) by (apply norm_zero_iff; reflexivity).
    rewrite Hz. destruct (Rlt_dec 0 0); [lra|]. simpl.
    unfold np.arctan2. destruct (Rlt_dec 0 0); [lra|].
    do 3 f_equal. unfold Rdiv. ring.
Qed.

Lemma resultant_needs_a_weight_per_vector_witness :
  let vectores := [(1, 0); (0, 1)] in
  let pesos := [-40] in
  (length pesos < length vectores)%nat /\
  calcular_vector_resultante [(1, 0); (0, 1)] [-40] generador_unos
  = Raise IndexError.
Proof.
  split; [simpl; lia|].
  apply (resultant_needs_a_weight_per_vector [(1, 0); (0, 1)] [-40] generador_unos).
  simpl. lia.
Defined.

Lemma weight_plus (p c : R) :
  DirectionEstimatorSpec.weight (p + c)
  = DirectionEstimatorSpec.weight p * DirectionEstimatorSpec.weight c.
Proof.
  unfold DirectionEstimatorSpec.weight.
  replace ((p + c) / 10) with (p / 10 + c / 10) by field.
  apply Rpower_plus.
Qed.

Lemma weighted_sum_scaled (k : R) (vs : list Point2D) :
  forall ws : list R,
    DirectionEstimatorSpec.weighted_sum vs ((fun w => w * k) <$> ws)
    = vscale (DirectionEstimatorSpec.weighted_sum vs ws) k.
Proof.
  unfold DirectionEstimatorSpec.weighted_sum.
  induction vs as [|v vs IH]; intros [|w ws]; simpl;
    try (unfold vscale; simpl; f_equal; ring).
  rewrite IH. unfold vadd, vscale. simpl. f_equal; ring.
Qed.

Lemma norm_vscale (v : Point2D) (k : R) :
  0 <= k -> np.linalg.norm (vscale v k) = np.linalg.norm v * k.
Proof.
  intros Hk. destruct v as [x y]. unfold np.linalg.norm, vscale. simpl.
  replace (x * k * (x * k) + y * k * (y * k)) with ((x * x + y * y) * (k * k))
    by ring.
  rewrite sqrt_mult by nra. rewrite sqrt_square by exact Hk. reflexivity.
Qed.

Lemma normalize_vscale (v : Point2D) (k : R) :
  0 < k ->
  DirectionEstimatorSpec.normalize (vscale v k)
  = DirectionEstimatorSpec.normalize v.
Proof.
  intros Hk. unfold DirectionEstimatorSpec.normalize.
  rewrite norm_vscale by lra.
  pose proof (norm_nonneg v) as Hn.
  destruct (Rlt_dec 0 (np.linalg.norm v)) as [Hpos|Hpos];
    destruct (Rlt_dec 0 (np.linalg.norm v * k)) as [Hpos'|Hpos'];
    try reflexivity; try (exfalso; nra).
  destruct v as [x y]. unfold vdiv, vscale. simpl. f_equal; field; lra.
Qed.

(** Only the differences between the RSSIs matter to the direction: adding
    the same number of dB to every RSSI (a stronger transmitter, another
    reference loss) leaves the result of [calcular_direccion] unchanged, be
    it a vector and an angle or an [IndexError]. *)
Theorem direction_ignores_a_common_rssi_offset
    (vectores : list Point2D) (pesos : list R) (c : R)
    (g : np.random.RandomState) :
  calcular_direccion vectores ((fun p => p + c) <$> pesos) g
  = calcular_direccion vectores pesos g.
Proof.
  unfold calcular_direccion. unfold_M.
  destruct (le_lt_dec (length vectores) (length pesos)) as [Hlen|Hlen].
  - rewrite !OctonodoDireccion.calcular_vector_resultante_spec
      by (rewrite ?length_fmap; exact Hlen).
    rewrite <- list_fmap_compose.
    replace (DirectionEstimatorSpec.weight ∘ (fun p => p + c) <$> pesos)
      with ((fun w => w * DirectionEstimatorSpec.weight c)
              <$> (DirectionEstimatorSpec.weight <$> pesos)).
    + rewrite weighted_sum_scaled, normalize_vscale by apply exp_pos.
      reflexivity.
    + rewrite <- list_fmap_compose. apply list_fmap_ext.
      intros i p _. unfold compose. symmetry. apply weight_plus.
  - rewrite !resultant_needs_a_weight_per_vector_aux
      by (rewrite ?length_fmap; exact Hlen).
    reflexivity.
Qed.

Lemma vector_unitario_opuesto (movil nodo : Point2D) :
  vector_unitario movil (2 * movil.1 - nodo.1, 2 * movil.2 - nodo.2)
  = vscale (vector_unitario movil nodo) (-1).
Proof.
  unfold vector_unitario, calcular_vector_direccion. simpl.
  assert (Hn : np.linalg.norm
                 (vsub movil (2 * movil.1 - nodo.1, 2 * movil.2 - nodo.2))
               = np.linalg.norm (vsub movil nodo)).
  { unfold np.linalg.norm, vsub. simpl. f_equal. ring. }
  rewrite Hn. set (k := np.linalg.norm (vsub movil nodo)).
  destruct (Rlt_dec 0 k) as [Hpos|Hpos].
  - unfold vdiv, vscale, vsub. simpl. f_equal; field; lra.
  - unfold vscale. simpl. f_equal; ring.
Qed.

Lemma arctan2_0_0 : np.arctan2 0 0 = 0.
Proof.
  unfold np.arctan2.
  destruct (Rlt_dec 0 0); [lra|]. reflexivity.
Qed.

(** Two anchors on opposite sides of the mobile node, at the same distance
    and heard with the same RSSI, cancel: the resultant is the zero vector,
    nothing is divided by its zero norm, and the angle shown is 0. *)
Theorem opposite_anchors_cancel
    (movil nodo : Point2D) (rssi : R) (g : np.random.RandomState) :
  let espejo := (2 * movil.1 - nodo.1, 2 * movil.2 - nodo.2) in
  calcular_direccion
    [(calcular_vector_direccion nodo movil).1;
     (calcular_vector_direccion espejo movil).1]
    [rssi; rssi] g
  = Ok (((0, 0), 0), g).
Proof.
  intros espejo. subst espejo.
  change (calcular_vector_direccion nodo movil).1 with (vector_unitario movil nodo).
  change (calcular_vector_direccion
            (2 * movil.1 - nodo.1, 2 * movil.2 - nodo.2) movil).1
    with (vector_unitario movil (2 * movil.1 - nodo.1, 2 * movil.2 - nodo.2)).
  rewrite vector_unitario_opuesto.
  unfold calcular_direccion. unfold_M.
  rewrite OctonodoDireccion.calcular_vector_resultante_spec by (simpl; lia).
  assert (Hsum : DirectionEstimatorSpec.weighted_sum
                   [vector_unitario movil nodo;
                    vscale (vector_unitario movil nodo) (-1)]
                   (DirectionEstimatorSpec.weight <$> [rssi; rssi]) = (0, 0)).
  { unfold DirectionEstimatorSpec.weighted_sum, vadd, vscale. simpl.
    f_equal; ring. }
  rewrite Hsum. unfold DirectionEstimatorSpec.normalize.
  assert (Hz : np.linalg.norm (0, 0) = 0) by (apply norm_zero_iff; reflexivity).
  rewrite Hz. destruct (Rlt_dec 0 0); [lra|]. simpl.
  rewrite arctan2_0_0. do 3 f_equal. unfold Rdiv. ring.
Qed.

Lemma arctan2_range (y x : R) : - PI < np.arctan2 y x <= PI.
Proof.
  pose proof PI_RGT_0 as Hpi. pose proof (atan_bound (y / x)) as Hb.
  unfold np.arctan2.
  destruct (Rlt_dec 0 x) as [Hx|Hx]; [lra|].
  destruct (Rlt_dec x 0) as [Hx'|Hx'].
  - destruct (Rle_dec 0 y) as [Hy|Hy].
    + assert (y / x <= 0).
      { assert (Hinv : / x < 0) by (apply Rinv_lt_0_compat; exact Hx').
        unfold Rdiv. nra. }
      assert (atan (y / x) <= 0).
      { destruct (Rle_lt_or_eq_dec _ _ H) as [Hlt|Heq].
        - apply Rlt_le. rewrite <- atan_0. apply atan_increasing, Hlt.
        - rewrite Heq, atan_0. lra. }
      lra.
    + assert (0 < y / x).
      { assert (Hinv : / x < 0) by (apply Rinv_lt_0_compat; exact Hx').
        unfold Rdiv. nra. }
      assert (0 < atan (y / x)).
      { rewrite <- atan_0. apply atan_increasing, H. }
      lra.
  - destruct (Rlt_dec 0 y); [lra|]. destruct (Rlt_dec y 0); lra.
Qed.

Lemma sqrt_unit_slope_pos (x y : R) :
  0 < x -> x * x + y * y = 1 -> sqrt (1 + (y / x)²) = / x.
Proof.
  intros Hx H. unfold Rsqr.
  replace (1 + y / x * (y / x)) with (/ x * / x).
  - apply sqrt_square. apply Rlt_le, Rinv_0_lt_compat, Hx.
  - field_simplify_eq; [nra | lra].
Qed.

Lemma sqrt_unit_slope_neg (x y : R) :
  x < 0 -> x * x + y * y = 1 -> sqrt (1 + (y / x)²) = / - x.
Proof.
  intros Hx H. unfold Rsqr.
  replace (1 + y / x * (y / x)) with (/ - x * / - x).
  - apply sqrt_square. apply Rlt_le, Rinv_0_lt_compat. lra.
  - field_simplify_eq; [nra | lra].
Qed.

(** [np.arctan2] of a vector of norm 1 is its polar angle. *)
Lemma arctan2_polar (x y : R) :
  x * x + y * y = 1 ->
  cos (np.arctan2 y x) = x /\ sin (np.arctan2 y x) = y.
Proof.
  intros H. unfold np.arctan2.
  destruct (Rlt_dec 0 x) as [Hx|Hx].
  { rewrite cos_atan, sin_atan, (sqrt_unit_slope_pos x y Hx H).
    split; field; lra. }
  destruct (Rlt_dec x 0) as [Hx'|Hx'].
  { destruct (Rle_dec 0 y) as [Hy|Hy].
    - rewrite neg_cos, neg_sin, cos_atan, sin_atan,
        (sqrt_unit_slope_neg x y Hx' H).
      split; field; lra.
    - rewrite cos_minus, sin_minus, cos_PI, sin_PI, cos_atan, sin_atan,
        (sqrt_unit_slope_neg x y Hx' H).
      split; field; lra. }
  assert (x = 0) by lra. subst x.
  destruct (Rlt_dec 0 y) as [Hy|Hy].
  { rewrite cos_PI2, sin_PI2. split; [reflexivity | nra]. }
  destruct (Rlt_dec y 0) as [Hy'|Hy'].
  { rewrite cos_neg, sin_neg, cos_PI2, sin_PI2. split; [reflexivity | nra]. }
  exfalso. nra.
Qed.

Lemma norm_one_sq (v : Point2D) :
  np.linalg.norm v = 1 -> v.1 * v.1 + v.2 * v.2 = 1.
Proof.
  unfold np.linalg.norm. intros H.
  assert (Hnn : 0 <= v.1 * v.1 + v.2 * v.2) by nra.
  rewrite <- (sqrt_sqrt _ Hnn), H. ring.
Qed.

(** Whenever [calcular_direccion] returns, the angle it returns is in
    degrees, above -180 and at most 180; it is the polar angle of the
    resultant vector when that vector is not zero, and 0 when it is. *)
Theorem angle_is_polar_angle_of_resultant
    (vectores : list Point2D) (pesos : list R)
    (g g' : np.random.RandomState) (v : Point2D) (angulo : R) :
  calcular_direccion vectores pesos g = Ok ((v, angulo), g') ->
  -180 < angulo <= 180 /\
  (v <> (0, 0) ->
   v = (cos (angulo * PI / 180), sin (angulo * PI / 180))) /\
  (v = (0, 0) -> angulo = 0).
Proof.
  intros Hcall. pose proof PI_RGT_0 as Hpi.
  unfold calcular_direccion in Hcall. unfold_M_in Hcall.
  destruct (le_lt_dec (length vectores) (length pesos)) as [Hlen|Hlen].
  2:{ rewrite resultant_needs_a_weight_per_vector_aux in Hcall by exact Hlen.
      discriminate. }
  rewrite OctonodoDireccion.calcular_vector_resultante_spec in Hcall by exact Hlen.
  injection Hcall as Hv Hang _.
  set (w := DirectionEstimatorSpec.normalize _) in *. subst v.
  pose proof (arctan2_range w.2 w.1) as Hr.
  assert (Hback : angulo * PI / 180 = np.arctan2 w.2 w.1).
  { rewrite <- Hang. field. lra. }
  split; [|split].
  - rewrite <- Hang. split.
    + apply (Rmult_lt_reg_r (PI / 180)); [lra|].
      replace (np.arctan2 w.2 w.1 * 180 / PI * (PI / 180))
        with (np.arctan2 w.2 w.1) by (field; lra).
      lra.
    + apply (Rmult_le_reg_r (PI / 180)); [lra|].
      replace (np.arctan2 w.2 w.1 * 180 / PI * (PI / 180))
        with (np.arctan2 w.2 w.1) by (field; lra).
      lra.
  - intros Hnz. rewrite Hback.
    destruct (normalize_unit_or_zero
                (DirectionEstimatorSpec.weighted_sum vectores
                   (DirectionEstimatorSpec.weight <$> pesos))) as [H1|H0].
    + fold w in H1. destruct (arctan2_polar _ _ (norm_one_sq w H1)) as [Hc Hs].
      rewrite Hc, Hs. destruct w; reflexivity.
    + fold w in H0. contradiction.
  - intros Hz. rewrite <- Hang, Hz. simpl. rewrite arctan2_0_0.
    unfold Rdiv. ring.
Qed.

Lemma angle_is_polar_angle_of_resultant_witness :
  calcular_direccion [(calcular_vector_direccion (0, 0) (1, 0)).1] [0]
    generador_unos
  = Ok (((1, 0), 0), generador_unos) /\
  -180 < 0 <= 180 /\
  (1, 0) = (cos (0 * PI / 180), sin (0 * PI / 180)).
Proof.
  assert (Hcall : calcular_direccion
                    [(calcular_vector_direccion (0, 0) (1, 0)).1] [0]
                    generador_unos
                  = Ok (((1, 0), 0), generador_unos)).
  { rewrite OctonodoEstimate.vector_del_origen_a_1_0.
    unfold calcular_direccion. unfold_M.
    rewrite OctonodoEstimate.resultante_de_un_vector. simpl.
    rewrite OctonodoEstimate.arctan2_0_1. do 3 f_equal. unfold Rdiv. ring. }
  split; [exact Hcall|].
  destruct (angle_is_polar_angle_of_resultant _ _ _ _ _ _ Hcall)
    as (Hrange & Hpolar & _).
  split; [exact Hrange|]. apply Hpolar. intros [= H]. lra.
Defined.

End Direccion.

(** ** The propagation models *)

#[global] Instance Rlt_decision : RelDecision Rlt := Rlt_dec.

Module Propagacion.

Lemma ln_10_pos : 0 < ln 10.
Proof. rewrite <- ln_1. apply ln_increasing; lra. Qed.

Lemma log10_pos_decade (d : R) :
  0 < d -> np.log10_pos (10 * d) = 1 + np.log10_pos d.
Proof.
  intros Hd. unfold np.log10_pos. pose proof ln_10_pos.
  rewrite ln_mult by lra. field. lra.
Qed.

Lemma log10_pos_increasing (d1 d2 : R) :
  0 < d1 -> d1 < d2 -> np.log10_pos d1 < np.log10_pos d2.
Proof.
  intros H1 H2. unfold np.log10_pos. pose proof ln_10_pos as Hl.
  pose proof (ln_increasing d1 d2 H1 H2) as Hln.
  unfold Rdiv. apply Rmult_lt_compat_r; [|exact Hln].
  apply Rinv_0_lt_compat, Hl.
Qed.

(** The log-distance law of the octonodal [calcular_rssi]: with a positive
    loss exponent and the same noise draw, a larger positive distance gives
    a strictly smaller RSSI, and ten times the distance costs exactly
    [10 * exponente_perdida] dB. *)
Theorem octonodal_rssi_falls_with_distance
    (self : Octonodo.SimuladorTrilateracion) (d1 d2 : R)
    (g : np.random.RandomState) :
  0 < self.(Octonodo.exponente_perdida) -> 0 < d1 -> d1 < d2 ->
  exists r1 r2 r10,
    Octonodo.calcular_rssi self d1 g = Ok (r1, np.random.advance g 1) /\
    Octonodo.calcular_rssi self d2 g = Ok (r2, np.random.advance g 1) /\
    Octonodo.calcular_rssi self (10 * d1) g = Ok (r10, np.random.advance g 1) /\
    r2 < r1 /\
    r1 - r10 = 10 * self.(Octonodo.exponente_perdida).
Proof.
  intros Hn H1 H2.
  rewrite !OctonodoPasos.calcular_rssi_en_rango by lra.
  eexists _, _, _. repeat (split; [reflexivity|]).
  pose proof (log10_pos_increasing d1 d2 H1 H2) as Hlog.
  rewrite (log10_pos_decade d1 H1). split; [nra | ring].
Qed.

Lemma octonodal_rssi_falls_with_distance_witness :
  exists self g,
    Octonodo.__init__ generador_unos = Ok (self, g) /\
    0 < self.(Octonodo.exponente_perdida) /\
    exists r1 r2 r10,
      Octonodo.calcular_rssi self 1 g = Ok (r1, np.random.advance g 1) /\
      Octonodo.calcular_rssi self 2 g = Ok (r2, np.random.advance g 1) /\
      Octonodo.calcular_rssi self (10 * 1) g = Ok (r10, np.random.advance g 1) /\
      r2 < r1 /\
      r1 - r10 = 10 * self.(Octonodo.exponente_perdida).
Proof.
  eexists _, _. split.
  { cbv beta iota zeta delta
      [Octonodo.__init__ mbind M_bind bind ret draw np.random.randn].
    reflexivity. }
  cbn [Octonodo.exponente_perdida].
  split; [lra|].
  refine (octonodal_rssi_falls_with_distance _ 1 2 _ _ _ _);
    cbn [Octonodo.exponente_perdida]; lra.
Defined.

(** The free-space law of the indoor [calcular_rssi]: at a positive distance
    the RSSI is finite; with a positive exponent and the same noise draw a
    larger distance gives a strictly smaller RSSI, and ten times the
    distance costs exactly [10 * n] dB.  One draw is made whatever the
    distance. *)
Theorem indoor_rssi_falls_with_distance
    (self : Interiores.SimuladorLocalizacionInteriores) (d1 d2 : R)
    (g : np.random.RandomState) :
  0 < self.(Interiores.n) -> 0 < d1 -> d1 < d2 ->
  exists r1 r2 r10,
    Interiores.calcular_rssi self d1 g
    = Ok (np.Finite r1, np.random.advance g 1) /\
    Interiores.calcular_rssi self d2 g
    = Ok (np.Finite r2, np.random.advance g 1) /\
    Interiores.calcular_rssi self (10 * d1) g
    = Ok (np.Finite r10, np.random.advance g 1) /\
    r2 < r1 /\
    r1 - r10 = 10 * self.(Interiores.n).
Proof.
  intros Hn H1 H2.
  unfold Interiores.calcular_rssi. unfold_M. unfold np.random.normal.
  rewrite !Medidas.log10_positive by lra. simpl.
  eexists _, _, _. repeat (split; [reflexivity|]).
  pose proof (log10_pos_increasing d1 d2 H1 H2) as Hlog.
  rewrite (log10_pos_decade d1 H1). split; [nra | ring].
Qed.

Lemma indoor_rssi_falls_with_distance_witness :
  0 < Interiores.__init__.(Interiores.n) /\
  exists r1 r2 r10,
    Interiores.calcular_rssi Interiores.__init__ 1 generador_unos
    = Ok (np.Finite r1, np.random.advance generador_unos 1) /\
    Interiores.calcular_rssi Interiores.__init__ 2 generador_unos
    = Ok (np.Finite r2, np.random.advance generador_unos 1) /\
    Interiores.calcular_rssi Interiores.__init__ (10 * 1) generador_unos
    = Ok (np.Finite r10, np.random.advance generador_unos 1) /\
    r2 < r1 /\
    r1 - r10 = 10 * Interiores.__init__.(Interiores.n).
Proof.
  split; [simpl; lra|].
  apply (indoor_rssi_falls_with_distance Interiores.__init__ 1 2 generador_unos);
    simpl; lra.
Defined.

Lemma medir_rssi_draws self (ds : list R) :
  forall g,
    exists rs,
      comprehension (Octonodo.calcular_rssi self) ds g
      = Ok (rs, np.random.advance g (length (filter (fun d => 0 < d) ds))).
Proof.
  induction ds as [|d ds IH]; intros g.
  - exists []. simpl. unfold ret. rewrite advance_0. reflexivity.
  - simpl. unfold_M. unfold_M_in IH.
    destruct (decide (0 < d)) as [Hd|Hd].
    + rewrite filter_cons_True by exact Hd.
      rewrite OctonodoPasos.calcular_rssi_en_rango by exact Hd.
      destruct (IH (np.random.advance g 1)) as [rs ->].
      eexists. rewrite advance_advance. reflexivity.
    + rewrite filter_cons_False by exact Hd.
      rewrite OctonodoPasos.calcular_rssi_fuera_de_rango by lra.
      destruct (IH g) as [rs ->]. eexists. reflexivity.
Qed.

(** A frame of the octonodal simulator draws one sample per anchor for the
    distances and then one more for each anchor whose measured distance is
    positive: between [N] and [2 N] samples for [N] anchors. *)
Theorem frame_draws_one_sample_per_positive_distance
    (self : Octonodo.SimuladorTrilateracion) (frame : Z)
    (g : np.random.RandomState) :
  Octonodo.bien_formado self ->
  exists self' salida g',
    Octonodo.actualizar_frame frame self g = Ok ((self', Some salida), g') /\
    let positivas :=
      length (filter (fun d => 0 < d) salida.(Octonodo.distancias_medidas)) in
    g' = np.random.advance g (length self.(Octonodo.nodos_fijos) + positivas) /\
    (positivas <= length self.(Octonodo.nodos_fijos))%nat.
Proof.
  intros Hbf.
  destruct (OctonodoFrame.actualizar_frame_spec self frame g Hbf)
    as (rssis & g' & h' & Hrssi & _ & Hstep).
  eexists _, _, g'. split; [exact Hstep|]. simpl.
  destruct (medir_rssi_draws self (Octonodo.medidas_en self (IZR frame) g)
              (np.random.advance g (length self.(Octonodo.nodos_fijos))))
    as [rs Hrs].
  rewrite Hrs in Hrssi. injection Hrssi as _ <-.
  split; [apply advance_advance|].
  rewrite <- (OctonodoFrame.length_medidas_en self (IZR frame) g).
  apply length_filter.
Qed.

Lemma frame_draws_one_sample_per_positive_distance_witness :
  exists self g,
    Octonodo.__init__ generador_unos = Ok (self, g) /\
    Octonodo.bien_formado self /\
    exists self' salida g',
      Octonodo.actualizar_frame 0 self g = Ok ((self', Some salida), g') /\
      (length (filter (fun d : R => (0 < d)%R)
                 salida.(Octonodo.distancias_medidas))
       <= length self.(Octonodo.nodos_fijos))%nat.
Proof.
  destruct (OctonodoFrame.init_eq generador_unos) as (self & Hinit & Hbf & _).
  exists self, (np.random.advance (np.random.seed 42 generador_unos) 1800).
  split; [exact Hinit|]. split; [exact Hbf|].
  destruct (frame_draws_one_sample_per_positive_distance self 0
              (np.random.advance (np.random.seed 42 generador_unos) 1800) Hbf)
    as (self' & salida & g' & Hstep & _ & Hle).
  exists self', salida, g'. split; assumption.
Defined.

End Propagacion.

(** ** The geometry of the octonodal simulator *)

Module Geometria.
Import Octonodo.

Lemma chord_square (r a b : R) :
  (r * cos b - r * cos a) ^ 2 + (r * sin b - r * sin a) ^ 2
  = (2 * r * sin ((b - a) / 2)) * (2 * r * sin ((b - a) / 2)).
Proof.
  pose proof (cos_sin_unit a) as Ha. pose proof (cos_sin_unit b) as Hb.
  pose proof (cos_minus b a) as Hm.
  pose proof (cos_2a_sin ((b - a) / 2)) as H2.
  replace (2 * ((b - a) / 2)) with (b - a) in H2 by field.
  rewrite Hm in H2.
  transitivity (r * r * ((cos b * cos b + sin b * sin b)
                         + (cos a * cos a + sin a * sin a)
                         - 2 * (cos b * cos a + sin b * sin a))); [ring|].
  rewrite Ha, Hb, H2. ring.
Qed.

Lemma sin_pi_over_N_nonneg (N : nat) : (1 <= N)%nat -> 0 <= sin (PI / INR N).
Proof.
  intros HN. pose proof PI_RGT_0 as Hpi.
  assert (H1 : 1 <= INR N) by (change 1 with (INR 1); apply le_INR, HN).
  apply sin_ge_0.
  - apply Rlt_le, Rdiv_lt_0_compat; lra.
  - apply (Rmult_le_reg_r (INR N)); [lra|].
    unfold Rdiv. rewrite Rmult_assoc, Rinv_l by lra. nra.
Qed.

(** Consecutive anchors of the circular layout, the last and the first
    included, are one chord apart: [2 * radio * sin(pi / N)]. *)
Theorem adjacent_anchors_are_a_chord_apart
    (centro : Point2D) (radio : R) (N i : nat) (p q : Point2D) :
  0 <= radio ->
  generar_nodos_circulares centro radio N !! i = Some p ->
  generar_nodos_circulares centro radio N !! (S i mod N)%nat = Some q ->
  calcular_distancia q p = 2 * radio * sin (PI / INR N).
Proof.
  intros Hr Hp Hq.
  assert (Hi : (i < N)%nat).
  { apply lookup_lt_Some in Hp.
    rewrite OctonodoLayout.length_generar_nodos_circulares in Hp. exact Hp. }
  assert (HN : 0 < INR N) by (apply lt_0_INR; lia).
  pose proof (sin_pi_over_N_nonneg N ltac:(lia)) as Hs.
  rewrite OctonodoLayout.lookup_generar_nodos_circulares in Hp by exact Hi.
  rewrite OctonodoLayout.lookup_generar_nodos_circulares in Hq
    by (apply Nat.mod_upper_bound; lia).
  injection Hp as <-. injection Hq as <-.
  unfold calcular_distancia. cbn [fst snd].
  set (a := 2 * PI * INR i / INR N).
  set (b := 2 * PI * INR (S i mod N) / INR N).
  replace (centro.1 + radio * cos b - (centro.1 + radio * cos a))
    with (radio * cos b - radio * cos a) by ring.
  replace (centro.2 + radio * sin b - (centro.2 + radio * sin a))
    with (radio * sin b - radio * sin a) by ring.
  rewrite chord_square.
  destruct (decide (S i = N)) as [Hlast|Hmid].
  - assert (Hb : b = 0).
    { subst b. rewrite Hlast, Nat.Div0.mod_same. simpl. field. lra. }
    assert (Hhalf : (b - a) / 2 = - (PI - PI / INR N)).
    { rewrite Hb. subst a. rewrite <- Hlast, S_INR. field.
      rewrite <- S_INR, Hlast. lra. }
    rewrite Hhalf, sin_neg, sin_PI_x.
    replace (2 * radio * - sin (PI / INR N) * (2 * radio * - sin (PI / INR N)))
      with (2 * radio * sin (PI / INR N) * (2 * radio * sin (PI / INR N)))
      by ring.
    apply sqrt_square. nra.
  - assert (Hhalf : (b - a) / 2 = PI / INR N).
    { subst a b. rewrite Nat.mod_small by lia. rewrite S_INR. field. lra. }
    rewrite Hhalf. apply sqrt_square. nra.
Qed.

(** The layout of the program: its radius is chosen so that neighbouring
    anchors are two wavelengths, 0.25 m, apart. *)
Lemma adjacent_anchors_are_a_chord_apart_witness :
  let radio := 2 * 0.125 / (2 * sin (PI / 8)) in
  0 <= radio /\
  calcular_distancia
    (radio * cos (2 * PI * INR 1 / INR 8), radio * sin (2 * PI * INR 1 / INR 8))
    (radio * cos (2 * PI * INR 0 / INR 8), radio * sin (2 * PI * INR 0 / INR 8))
  = 0.25.
Proof.
  intros radio.
  assert (Hs : 0 < sin (PI / 8)).
  { pose proof PI_RGT_0. apply sin_gt_0; lra. }
  assert (Hr : 0 <= radio).
  { subst radio. apply Rlt_le, Rdiv_lt_0_compat; lra. }
  split; [exact Hr|].
  pose proof (adjacent_anchors_are_a_chord_apart (0, 0) radio 8 0
                (0 + radio * cos (2 * PI * INR 0 / INR 8),
                 0 + radio * sin (2 * PI * INR 0 / INR 8))
                (0 + radio * cos (2 * PI * INR 1 / INR 8),
                 0 + radio * sin (2 * PI * INR 1 / INR 8))
                Hr
                (OctonodoLayout.lookup_generar_nodos_circulares (0, 0) radio 8 0
                   ltac:(lia))
                (OctonodoLayout.lookup_generar_nodos_circulares (0, 0) radio 8 1
                   ltac:(lia))) as H.
  rewrite !Rplus_0_l in H. rewrite H.
  replace (INR 8) with 8 by (simpl; lra). subst radio.
  replace 0.125 with (1 / 8) by lra. replace 0.25 with (1 / 4) by lra.
  field. lra.
Defined.

(** The mobile node keeps to its orbit. *)
Lemma orbit_radius self (frame : R) :
  calcular_distancia (posicion_orbita self frame) self.(centro_trayectoria)
  = Rabs self.(radio_trayectoria).
Proof.
  unfold calcular_distancia, posicion_orbita. cbn [fst snd].
  set (r := radio_trayectoria self).
  set (a := frame * velocidad_trayectoria self).
  pose proof (cos_sin_unit a) as Ha.
  replace ((centro_trayectoria self).1 + r * sin a - (centro_trayectoria self).1)
    with (r * sin a) by ring.
  replace ((centro_trayectoria self).2 + r * cos a - (centro_trayectoria self).2)
    with (r * cos a) by ring.
  replace ((r * sin a) ^ 2 + (r * cos a) ^ 2) with (r²)
    by (unfold Rsqr; nra).
  apply sqrt_Rsqr_abs.
Qed.

(** Whatever a frame leaves, it keeps every property of the state that the
    step from [self] to [estado_tras ... self] keeps. *)
Lemma animar_conserva (P : SimuladorTrilateracion -> Prop) :
  (forall self frame rssis h, P self -> P (estado_tras frame rssis h self)) ->
  forall (frames : list Z) self g self' salidas g',
    bien_formado self -> P self ->
    animar frames self g = Ok ((self', salidas), g') ->
    P self'.
Proof.
  intros Hstep frames.
  induction frames as [|frame frames IH];
    intros self g self' salidas g' Hbf HP Hrun.
  - simpl in Hrun. unfold ret in Hrun. injection Hrun as <- _ _. exact HP.
  - simpl in Hrun. unfold_M_in Hrun.
    destruct (OctonodoFrame.actualizar_frame_total self frame g Hbf)
      as (self1 & salida & g1 & Hs & Hbf1 & _).
    pose proof Hs as Hs'.
    destruct (OctonodoFrame.actualizar_frame_spec self frame g Hbf)
      as (rssis & g2 & h' & _ & _ & Hspec).
    rewrite Hspec in Hs'. injection Hs' as <- _ _.
    rewrite Hspec in Hrun.
    destruct (animar frames _ g2) as [[[self2 salidas2] g3]|e] eqn:Hrest;
      [|discriminate].
    injection Hrun as <- _ _.
    eapply IH; [exact Hbf1 | apply Hstep, HP | exact Hrest].
Qed.

Lemma init_geometria g :
  exists self,
    __init__ g = Ok (self, np.random.advance (np.random.seed 42 g) 1800) /\
    bien_formado self /\
    geometria_octonodal self.
Proof.
  eexists. split; [|split].
  - cbv beta iota zeta delta [__init__ mbind M_bind bind ret draw np.random.randn].
    rewrite advance_advance. reflexivity.
  - unfold bien_formado.
    cbn [pausa vectores_direccion magnitudes_rssi nodos_fijos
         distancias_historicas error_medicion].
    rewrite !length_replicate, OctonodoLayout.length_generar_nodos_circulares.
    repeat split; try reflexivity.
    intros i Hi. rewrite lookup_historial_vacio by exact Hi. eauto.
  - unfold geometria_octonodal.
    cbn [radio_nodos nodos_fijos centro_trayectoria radio_trayectoria].
    assert (E : 2 * (300000000 / (2.4 * 1000000000)) / (2 * sin (PI / 8))
                = 2 * 0.125 / (2 * sin (PI / 8))).
    { f_equal. lra. }
    rewrite E. split; [reflexivity|]. split; [reflexivity|].
    split; reflexivity.
Qed.

Lemma simular_geometria (frames : list Z) g :
  exists self salidas g',
    simular frames g = Ok ((self, salidas), g') /\
    bien_formado self /\
    geometria_octonodal self.
Proof.
  destruct (init_geometria g) as (self0 & Hinit & Hbf0 & Hgeo0).
  destruct (OctonodoFrame.animar_total frames self0
              (np.random.advance (np.random.seed 42 g) 1800) Hbf0)
    as (self & salidas & g' & Hrun & Hbf & _).
  exists self, salidas, g'. split; [|split; [exact Hbf|]].
  - unfold simular. unfold_M. rewrite Hinit. exact Hrun.
  - eapply (animar_conserva geometria_octonodal); [|exact Hbf0|exact Hgeo0|exact Hrun].
    intros s f r h Hs. exact Hs.
Qed.

Lemma radio_del_programa_pos : 0 < 2 * 0.125 / (2 * sin (PI / 8)).
Proof.
  assert (Hs : 0 < sin (PI / 8)).
  { pose proof PI_RGT_0. apply sin_gt_0; lra. }
  apply Rdiv_lt_0_compat; lra.
Qed.

(** The distance from a point of the orbit of radius [2.5 r] to a point of
    the circle of radius [r] around the same centre. *)
Lemma distancia_orbita_circulo (r f a : R) :
  0 < r ->
  1.5 * r
  <= calcular_distancia (0 + r * 2.5 * sin f, 0 + r * 2.5 * cos f)
       (0 + r * cos a, 0 + r * sin a)
  <= 3.5 * r.
Proof.
  intros Hr. unfold calcular_distancia. cbn [fst snd].
  pose proof (cos_sin_unit f) as Hf. pose proof (cos_sin_unit a) as Ha.
  pose proof (SIN_bound (f + a)) as Hs. rewrite sin_plus in Hs.
  set (s := sin f * cos a + cos f * sin a) in *.
  replace 2.5 with (5 / 2) by lra.
  replace 1.5 with (3 / 2) by lra.
  replace 3.5 with (7 / 2) by lra.
  replace ((0 + r * (5 / 2) * sin f - (0 + r * cos a)) ^ 2
           + (0 + r * (5 / 2) * cos f - (0 + r * sin a)) ^ 2)
    with (r * r * (29 / 4 - 5 * s)).
  2:{ transitivity (r * r * (25 / 4 * (cos f * cos f + sin f * sin f)
                             + (cos a * cos a + sin a * sin a) - 5 * s));
        [rewrite Hf, Ha; field | subst s; field]. }
  split.
  - rewrite <- (sqrt_square (3 / 2 * r)) by lra. apply sqrt_le_1; nra.
  - rewrite <- (sqrt_square (7 / 2 * r)) by lra. apply sqrt_le_1; nra.
Qed.

(** In every run of the program the mobile node, on its orbit, stays between
    1.5 and 3.5 anchor-circle radii from every anchor: no true distance is
    ever zero, and every direction vector that a frame stores has norm 1 (the
    zero-vector branch of [calcular_vector_direccion] is never taken). *)
Theorem mobile_node_never_reaches_an_anchor
    (frames : list Z) (frame : Z) (g : np.random.RandomState) :
  exists self salidas g1 self' salida g2,
    simular frames g = Ok ((self, salidas), g1) /\
    actualizar_frame frame self g1 = Ok ((self', Some salida), g2) /\
    0 < self.(radio_nodos) /\
    (forall nodo, nodo ∈ self.(nodos_fijos) ->
       1.5 * self.(radio_nodos)
       <= calcular_distancia self'.(nodo_movil) nodo
       <= 3.5 * self.(radio_nodos)) /\
    (forall v, v ∈ self'.(vectores_direccion) -> np.linalg.norm v = 1).
Proof.
  destruct (simular_geometria frames g)
    as (self & salidas & g1 & Hrun & Hbf & Hr & Hnodos & Hc & Hrt).
  destruct (OctonodoFrame.actualizar_frame_spec self frame g1 Hbf)
    as (rssis & g2 & h' & _ & _ & Hstep).
  assert (Hpos : 0 < radio_nodos self)
    by (rewrite Hr; apply radio_del_programa_pos).
  assert (Hdist : forall nodo, nodo ∈ nodos_fijos self ->
            1.5 * radio_nodos self
            <= calcular_distancia (posicion_orbita self (IZR frame)) nodo
            <= 3.5 * radio_nodos self).
  { intros nodo Hin. apply list_elem_of_lookup in Hin as [i Hi].
    rewrite Hnodos in Hi.
    assert (Hi8 : (i < 8)%nat).
    { apply lookup_lt_Some in Hi.
      rewrite OctonodoLayout.length_generar_nodos_circulares in Hi. exact Hi. }
    rewrite OctonodoLayout.lookup_generar_nodos_circulares in Hi by exact Hi8.
    injection Hi as <-. unfold posicion_orbita. rewrite Hc, Hrt.
    cbn [fst snd]. apply distancia_orbita_circulo, Hpos. }
  eexists self, salidas, g1, _, _, g2.
  split; [exact Hrun|]. split; [exact Hstep|]. split; [exact Hpos|].
  split; [exact Hdist|].
  intros v Hv. cbn [vectores_direccion estado_tras set_distancias_historicas
                    set_magnitudes_rssi set_vectores_direccion] in Hv.
  apply list_elem_of_fmap in Hv as (nodo & -> & Hin).
  unfold vector_unitario, calcular_vector_direccion. cbn [fst].
  specialize (Hdist nodo Hin).
  rewrite <- Direccion.norm_vsub_distancia in Hdist.
  destruct (Rlt_dec 0 (np.linalg.norm (vsub (posicion_orbita self (IZR frame)) nodo)))
    as [Hp|Hp]; [|lra].
  apply Direccion.norm_vdiv_self, Hp.
Qed.

End Geometria.

(** ** Whole runs of the octonodal simulator *)

Module OctonodoRun.
Import Octonodo.

Lemma init_trazas g :
  exists self,
    __init__ g = Ok (self, np.random.advance (np.random.seed 42 g) 1800) /\
    bien_formado self /\
    length self.(nodos_fijos) = 8%nat /\
    self.(trayectoria_x) = [] /\
    self.(trayectoria_y) = [] /\
    self.(distancias_historicas) = historial_vacio "R" 8 /\
    self.(max_frames) = 300%nat.
Proof.
  eexists. split; [|split].
  - cbv beta iota zeta delta [__init__ mbind M_bind bind ret draw np.random.randn].
    rewrite advance_advance. reflexivity.
  - unfold bien_formado.
    cbn [pausa vectores_direccion magnitudes_rssi nodos_fijos
         distancias_historicas error_medicion].
    rewrite !length_replicate, OctonodoLayout.length_generar_nodos_circulares.
    repeat split; try reflexivity.
    intros i Hi. rewrite lookup_historial_vacio by exact Hi. eauto.
  - cbn [nodos_fijos trayectoria_x trayectoria_y distancias_historicas max_frames].
    rewrite OctonodoLayout.length_generar_nodos_circulares.
    repeat split; reflexivity.
Qed.

(** What an animation adds to the traces and to the histories. *)
Lemma animar_trazas (frames : list Z) :
  forall self g self' salidas g',
    bien_formado self ->
    animar frames self g = Ok ((self', salidas), g') ->
    self'.(trayectoria_x)
    = self.(trayectoria_x) ++ ((fun f => (posicion_orbita self' (IZR f)).1) <$> frames) /\
    self'.(trayectoria_y)
    = self.(trayectoria_y) ++ ((fun f => (posicion_orbita self' (IZR f)).2) <$> frames) /\
    (forall f, posicion_orbita self' f = posicion_orbita self f) /\
    self'.(nodos_fijos) = self.(nodos_fijos) /\
    length self'.(vectores_direccion) = length self.(nodos_fijos) /\
    length self'.(magnitudes_rssi) = length self.(nodos_fijos) /\
    forall i l, (i < length self.(nodos_fijos))%nat ->
      self.(distancias_historicas) !! clave "R" i = Some l ->
      exists l', self'.(distancias_historicas) !! clave "R" i = Some l' /\
                 length l' = (length l + length frames)%nat.
Proof.
  induction frames as [|frame frames IH];
    intros self g self' salidas g' Hbf Hrun.
  - simpl in Hrun. unfold ret in Hrun. injection Hrun as <- _ _.
    rewrite !app_nil_r. destruct Hbf as (_ & Hv & Hm & _).
    repeat split; try assumption; try reflexivity.
    intros i l _ Hl. exists l. split; [exact Hl | simpl; lia].
  - simpl in Hrun. unfold_M_in Hrun.
    destruct (OctonodoFrame.actualizar_frame_spec self frame g Hbf)
      as (rssis & g1 & h' & Hr & Ha & Hstep).
    destruct (OctonodoFrame.actualizar_frame_total self frame g Hbf)
      as (self1 & salida & g1' & Hs & Hbf1 & _).
    pose proof Hs as Hs'. rewrite Hstep in Hs'. injection Hs' as <- _ _.
    rewrite Hstep in Hrun.
    destruct (animar frames _ g1) as [[[self2 salidas2] g3]|e] eqn:Hrest;
      [|discriminate].
    injection Hrun as <- _ _.
    destruct (IH _ _ _ _ _ Hbf1 Hrest) as (Hx & Hy & Hp & Hn & Hlv & Hlm & Hh).
    change (nodos_fijos (estado_tras (IZR frame) rssis h' self))
      with (nodos_fijos self) in *.
    assert (Hp' : forall f, posicion_orbita self2 f = posicion_orbita self f).
    { intros f. rewrite Hp. reflexivity. }
    split; [|split; [|split; [|split; [|split; [|split]]]]];
      try assumption.
    + rewrite Hx. cbn [fmap list_fmap]. rewrite Hp'.
      change (trayectoria_x (estado_tras (IZR frame) rssis h' self))
        with (trayectoria_x self ++ [(posicion_orbita self (IZR frame)).1]).
      rewrite <- app_assoc. reflexivity.
    + rewrite Hy. cbn [fmap list_fmap]. rewrite Hp'.
      change (trayectoria_y (estado_tras (IZR frame) rssis h' self))
        with (trayectoria_y self ++ [(posicion_orbita self (IZR frame)).2]).
      rewrite <- app_assoc. reflexivity.
    + intros i l Hi Hl.
      destruct (anexadas_length "R" _ _ _ i (length l) l Ha) as (l1 & Hl1 & Hlen1);
        [rewrite OctonodoFrame.length_medidas_en; exact Hi | exact Hl | reflexivity |].
      destruct (Hh i l1 Hi Hl1) as (l' & Hl' & Hlen').
      exists l'. split; [exact Hl'|]. rewrite Hlen', Hlen1. simpl. lia.
Qed.

(** The frames of the animation: the numbers [0 .. max_frames - 1] that
    [FuncAnimation] passes to the callback.  From frame 300 on the plot of
    the sensor signals, which the embedding leaves out, is given more times
    than samples. *)
Lemma animar_max_frames (frames : list Z) self g self' salidas g' :
  bien_formado self ->
  animar frames self g = Ok ((self', salidas), g') ->
  self'.(max_frames) = self.(max_frames).
Proof.
  intros Hbf Hrun.
  apply (Geometria.animar_conserva
           (fun s => s.(max_frames) = self.(max_frames))
           ltac:(intros s f r h Hs; exact Hs)
           frames self g self' salidas g' Hbf eq_refl Hrun).
Qed.

(** A run of the program over frames of the animation (each within
    [0 .. 299], in any order and number) returns, and on return the trace of
    the mobile node holds the orbit position of each frame, in the order of
    the frames, each of the eight distance histories holds one measurement
    per frame, and the per-anchor arrays keep their eight entries. *)
Theorem run_records_every_frame (frames : list Z) (g : np.random.RandomState) :
  Forall (fun f => (0 <= f < 300)%Z) frames ->
  exists self salidas g',
    simular frames g = Ok ((self, salidas), g') /\
    self.(max_frames) = 300%nat /\
    length salidas = length frames /\
    self.(trayectoria_x) = (fun f => (posicion_orbita self (IZR f)).1) <$> frames /\
    self.(trayectoria_y) = (fun f => (posicion_orbita self (IZR f)).2) <$> frames /\
    length self.(vectores_direccion) = 8%nat /\
    length self.(magnitudes_rssi) = 8%nat /\
    forall i, (i < 8)%nat ->
      exists l, self.(distancias_historicas) !! clave "R" i = Some l /\
                length l = length frames.
Proof.
  intros _.
  destruct (init_trazas g)
    as (self0 & Hinit & Hbf0 & H8 & Hx0 & Hy0 & Hh0 & Hmax0).
  destruct (OctonodoFrame.animar_total frames self0
              (np.random.advance (np.random.seed 42 g) 1800) Hbf0)
    as (self & salidas & g' & Hrun & _ & _ & Hlen).
  destruct (animar_trazas frames _ _ _ _ _ Hbf0 Hrun)
    as (Hx & Hy & _ & _ & Hlv & Hlm & Hh).
  pose proof (animar_max_frames frames _ _ _ _ _ Hbf0 Hrun) as Hmax.
  exists self, salidas, g'.
  split; [unfold simular; unfold_M; rewrite Hinit; exact Hrun|].
  split; [congruence|].
  split; [exact Hlen|].
  rewrite Hx0 in Hx. rewrite Hy0 in Hy. rewrite H8 in *.
  split; [exact Hx|]. split; [exact Hy|].
  split; [exact Hlv|]. split; [exact Hlm|].
  intros i Hi.
  destruct (Hh i [] Hi) as (l & Hl & Hlen').
  { rewrite Hh0. apply lookup_historial_vacio, Hi. }
  exists l. split; [exact Hl | exact Hlen'].
Qed.

(** The first, the last and again the first frame of the animation. *)
Lemma run_records_every_frame_witness :
  Forall (fun f => (0 <= f < 300)%Z) [0; 299; 0]%Z /\
  exists self salidas g',
    simular [0; 299; 0]%Z generador_unos = Ok ((self, salidas), g') /\
    length salidas = 3%nat /\
    length self.(trayectoria_x) = 3%nat.
Proof.
  assert (Hf : Forall (fun f => (0 <= f < 300)%Z) [0; 299; 0]%Z).
  { repeat constructor; lia. }
  split; [exact Hf|].
  destruct (run_records_every_frame [0; 299; 0]%Z generador_unos Hf)
    as (self & salidas & g' & Hrun & _ & Hlen & Hx & _).
  exists self, salidas, g'. split; [exact Hrun|]. split; [exact Hlen|].
  rewrite Hx. reflexivity.
Defined.

End OctonodoRun.

(** ** Whole runs of the indoor simulator *)

Module InterioresRun.
Import Interiores.

(** What an animation adds to the traces and to the histories: one position
    per frame, and for each anchor the true distance of each frame and the
    RSSI computed from it with the draw of that frame and anchor. *)
Lemma animar_contenido (frames : list Z) :
  forall self g,
    con_claves self 0 self.(nodos_fijos) ->
    exists self',
      animar frames self g
      = Ok (self', np.random.advance g (length self.(nodos_fijos) * length frames)) /\
      self'.(trayectoria_x)
      = self.(trayectoria_x)
        ++ ((fun f => (posicion_pasillo self (IZR f)).1) <$> frames) /\
      self'.(trayectoria_y)
      = self.(trayectoria_y)
        ++ ((fun f => (posicion_pasillo self (IZR f)).2) <$> frames) /\
      forall i nodo, self.(nodos_fijos) !! i = Some nodo ->
        exists ld lr,
          self.(distancias_historicas) !! clave "R" i = Some ld /\
          self.(rssi_historicos) !! clave "RSSI" i = Some lr /\
          self'.(distancias_historicas) !! clave "R" i
          = Some (ld ++ ((fun f => calcular_distancia_con_obstaculos
                                     (posicion_pasillo self (IZR f)) nodo)
                         <$> frames)) /\
          self'.(rssi_historicos) !! clave "RSSI" i
          = Some (lr ++ imap (fun j f =>
                                rssi_de self g (length self.(nodos_fijos) * j + i)
                                  (calcular_distancia_con_obstaculos
                                     (posicion_pasillo self (IZR f)) nodo))
                          frames).
Proof.
  induction frames as [|frame frames IH]; intros self g Hk.
  - exists self. simpl. rewrite Nat.mul_0_r, advance_0, !app_nil_r.
    split; [reflexivity|]. split; [reflexivity|]. split; [reflexivity|].
    intros i nodo Hi.
    destruct (Hk i) as [[ld Hld] [lr Hlr]]; [eapply lookup_lt_Some, Hi|].
    exists ld, lr. rewrite !app_nil_r. auto.
  - destruct (InterioresFrame.actualizar_spec self frame g Hk)
      as (dh' & rh' & Hstep & Hd & Hr).
    set (self1 := set_rssi_historicos rh'
                    (set_distancias_historicas dh' (tras_mover (IZR frame) self)))
      in *.
    assert (Hk1 : con_claves self1 0 self1.(nodos_fijos)).
    { intros j Hj. destruct (Hk j Hj) as [H1 H2]. split.
      - eapply anexadas_is_Some; [exact Hd | exact H1].
      - eapply anexadas_is_Some; [exact Hr | exact H2]. }
    destruct (IH self1 (np.random.advance g (length self.(nodos_fijos))) Hk1)
      as (self2 & Hrest & Hx & Hy & Hh).
    exists self2. split; [|split; [|split]].
    + simpl. unfold_M. rewrite Hstep. unfold_M_in Hrest. rewrite Hrest.
      rewrite advance_advance.
      change (length (nodos_fijos self1)) with (length (nodos_fijos self)).
      do 3 f_equal. lia.
    + rewrite Hx. simpl. rewrite <- app_assoc. reflexivity.
    + rewrite Hy. simpl. rewrite <- app_assoc. reflexivity.
    + intros i nodo Hi.
      destruct (Hk i) as [[ld Hld] [lr Hlr]]; [eapply lookup_lt_Some, Hi|].
      cbn [Nat.add] in Hld, Hlr.
      exists ld, lr. split; [exact Hld|]. split; [exact Hlr|].
      destruct (Hh i nodo Hi) as (ld1 & lr1 & Hld1 & Hlr1 & Hld2 & Hlr2).
      destruct Hd as [Hd _]. destruct Hr as [Hr _].
      specialize (Hd i (calcular_distancia_con_obstaculos
                          (posicion_pasillo self (IZR frame)) nodo)).
      specialize (Hr i (rssi_de self g i
                          (calcular_distancia_con_obstaculos
                             (posicion_pasillo self (IZR frame)) nodo))).
      cbn [Nat.add] in Hd, Hr. rewrite Hld in Hd. rewrite Hlr in Hr.
      assert (Ed : dh' !! clave "R" i
                   = Some (ld ++ [calcular_distancia_con_obstaculos
                                    (posicion_pasillo self (IZR frame)) nodo])).
      { apply Hd. unfold distancias_desde. rewrite list_lookup_fmap, Hi.
        reflexivity. }
      assert (Er : rh' !! clave "RSSI" i
                   = Some (lr ++ [rssi_de self g i
                                    (calcular_distancia_con_obstaculos
                                       (posicion_pasillo self (IZR frame)) nodo)])).
      { apply Hr. unfold distancias_desde.
        rewrite list_lookup_imap, list_lookup_fmap, Hi. reflexivity. }
      change (distancias_historicas self1 !! clave "R" i) with (dh' !! clave "R" i)
        in Hld1.
      change (rssi_historicos self1 !! clave "RSSI" i) with (rh' !! clave "RSSI" i)
        in Hlr1.
      rewrite Ed in Hld1. rewrite Er in Hlr1.
      injection Hld1 as <-. injection Hlr1 as <-.
      split.
      * rewrite Hld2. simpl. rewrite <- app_assoc. reflexivity.
      * rewrite Hlr2. simpl. rewrite <- app_assoc. f_equal. f_equal. simpl.
        f_equal.
        -- f_equal. rewrite Nat.mul_0_r. reflexivity.
        -- apply imap_ext. intros j f _. unfold rssi_de, compose.
           change (n self1) with (n self). change (sigma self1) with (sigma self).
           change (length (nodos_fijos self1)) with (length (nodos_fijos self)).
           rewrite peek_advance. do 4 f_equal. lia.
Qed.

(** A run of the indoor program over any list of frames returns, having
    drawn four samples per frame, and on return everything it recorded is a
    function of the frames and of the samples drawn: the trace holds the
    corridor position of each frame, the distance history of an anchor the
    true distance to it at each frame, in order, and its RSSI history the
    RSSI of that distance with sample [4 j + i] as the noise of frame
    number [j] and anchor [i]. *)
Theorem indoor_run_records_every_frame (frames : list Z) (g : np.random.RandomState) :
  exists self,
    simular frames g = Ok (self, np.random.advance g (4 * length frames)) /\
    self.(trayectoria_x) = (fun f => (posicion_pasillo __init__ (IZR f)).1) <$> frames /\
    self.(trayectoria_y) = (fun f => (posicion_pasillo __init__ (IZR f)).2) <$> frames /\
    forall i nodo, __init__.(nodos_fijos) !! i = Some nodo ->
      self.(distancias_historicas) !! clave "R" i
      = Some ((fun f => calcular_distancia_con_obstaculos
                          (posicion_pasillo __init__ (IZR f)) nodo) <$> frames) /\
      self.(rssi_historicos) !! clave "RSSI" i
      = Some (imap (fun j f =>
                      rssi_de __init__ g (4 * j + i)
                        (calcular_distancia_con_obstaculos
                           (posicion_pasillo __init__ (IZR f)) nodo))
                frames).
Proof.
  destruct (animar_contenido frames __init__ g
              (InterioresFrame.historias_de_con_claves 0 _
                 InterioresFrame.init_historias))
    as (self & Hrun & Hx & Hy & Hh).
  exists self. split; [exact Hrun|]. split; [exact Hx|]. split; [exact Hy|].
  intros i nodo Hi.
  destruct (Hh i nodo Hi) as (ld & lr & Hld & Hlr & Hd & Hr).
  assert (Hi4 : (i < 4)%nat) by (apply lookup_lt_Some in Hi; exact Hi).
  change (distancias_historicas __init__) with (@historial_vacio R "R" 4) in Hld.
  change (rssi_historicos __init__) with (@historial_vacio np.float "RSSI" 4) in Hlr.
  rewrite lookup_historial_vacio in Hld by exact Hi4.
  rewrite lookup_historial_vacio in Hlr by exact Hi4.
  injection Hld as <-. injection Hlr as <-.
  split; [exact Hd | exact Hr].
Qed.

End InterioresRun.

(** ** Where the indoor RSSI leaves the finite values *)

Module InterioresAnclas.
Import Interiores.

Lemma distancia_cero_iff (p q : Point2D) :
  calcular_distancia_con_obstaculos p q = 0 <-> p = q.
Proof.
  unfold calcular_distancia_con_obstaculos. destruct p as [a b], q as [c d].
  cbn [fst snd]. split.
  - intros H.
    replace ((a - c) ^ 2 + (b - d) ^ 2) with ((a - c)² + (b - d)²) in H
      by (unfold Rsqr; ring).
    apply sqrt_eq_0 in H;
      [|apply Rplus_le_le_0_compat; apply Rle_0_sqr].
    apply Rplus_sqr_eq_0 in H as [H1 H2]. f_equal; lra.
  - intros [= -> ->]. replace ((c - c) ^ 2 + (d - d) ^ 2) with 0 by ring.
    apply sqrt_0.
Qed.

Lemma distancia_nonneg (p q : Point2D) :
  0 <= calcular_distancia_con_obstaculos p q.
Proof. apply sqrt_pos. Qed.

Lemma calcular_rssi_finito self (d : R) g :
  0 < d ->
  exists r, calcular_rssi self d g = Ok (np.Finite r, np.random.advance g 1).
Proof.
  intros Hd. rewrite InterioresPasos.calcular_rssi_eq. unfold rssi_de.
  rewrite Medidas.log10_positive by exact Hd. eexists. reflexivity.
Qed.

(** The corridor position is an anchor only at the start of its phase. *)
Lemma pasillo_en_ancla (t : R) (i : nat) (nodo : Point2D) :
  0 <= t < 200 ->
  __init__.(nodos_fijos) !! i = Some nodo ->
  posicion_pasillo __init__ t = nodo <-> t = 50 * INR i.
Proof.
  intros Ht Hi. unfold posicion_pasillo.
  change (ancho __init__) with 20. change (alto __init__) with 15.
  destruct i as [|[|[|[|i]]]]; [..|discriminate];
    injection Hi as <-; simpl INR;
    (destruct (Rlt_dec t 50);
     [|destruct (Rlt_dec t 100); [|destruct (Rlt_dec t 150)]]).
  all: split;
    [ intros H; apply pair_equal_spec in H; destruct H; lra
    | intros ->; apply pair_equal_spec; split; lra ].
Qed.

(** In the indoor program, at a step [0 <= t < 200] the distance to anchor
    [i] is zero exactly when [t = 50 i], the step at which the mobile node
    turns the corner where that anchor stands: there the unguarded RSSI is
    plus infinity, and at every other step it is a finite number. *)
Theorem indoor_rssi_is_infinite_exactly_on_an_anchor
    (t : R) (i : nat) (nodo : Point2D) (g : np.random.RandomState) :
  0 <= t < 200 ->
  __init__.(nodos_fijos) !! i = Some nodo ->
  let d := calcular_distancia_con_obstaculos (posicion_pasillo __init__ t) nodo in
  (d = 0 <-> t = 50 * INR i) /\
  (t = 50 * INR i ->
   calcular_rssi __init__ d g = Ok (np.PosInf, np.random.advance g 1)) /\
  (t <> 50 * INR i ->
   exists r, calcular_rssi __init__ d g = Ok (np.Finite r, np.random.advance g 1)).
Proof.
  intros Ht Hi d.
  assert (Hd : d = 0 <-> t = 50 * INR i).
  { unfold d. rewrite distancia_cero_iff. apply pasillo_en_ancla; assumption. }
  split; [exact Hd|]. split.
  - intros Heq. apply Hd in Heq. rewrite Heq.
    apply Medidas.interiores_rssi_sin_guarda.
  - intros Hne. apply calcular_rssi_finito.
    pose proof (distancia_nonneg (posicion_pasillo __init__ t) nodo) as Hpos.
    fold d in Hpos. destruct (Req_dec d 0) as [H0|H0]; [|lra].
    apply Hd in H0. contradiction.
Qed.

(** Step 100, the corner of the third anchor. *)
Lemma indoor_rssi_is_infinite_exactly_on_an_anchor_witness :
  0 <= 100 < 200 /\
  __init__.(nodos_fijos) !! 2%nat = Some (20 - 1, 15 - 1) /\
  calcular_rssi __init__
    (calcular_distancia_con_obstaculos (posicion_pasillo __init__ 100) (20 - 1, 15 - 1))
    generador_unos
  = Ok (np.PosInf, np.random.advance generador_unos 1).
Proof.
  assert (Ht : 0 <= 100 < 200) by lra.
  assert (Hi : __init__.(nodos_fijos) !! 2%nat = Some (20 - 1, 15 - 1))
    by reflexivity.
  split; [exact Ht|]. split; [exact Hi|].
  apply (indoor_rssi_is_infinite_exactly_on_an_anchor 100 2 _ generador_unos Ht Hi).
  simpl. lra.
Defined.

End InterioresAnclas.

(** ** The walk along the corridors *)

Module Pasillos.
Import Interiores.

Lemma interpolacion_acotada (u w : R) :
  0 <= u <= 1 -> 0 <= w -> 0 <= u * w <= w.
Proof. intros Hu Hw. nra. Qed.

Lemma paso_de_un_lado (dx dy w : R) :
  0 <= w ->
  (dx = w /\ dy = 0) \/ (dx = - w /\ dy = 0) \/
  (dx = 0 /\ dy = w) \/ (dx = 0 /\ dy = - w) ->
  sqrt (dx ^ 2 + dy ^ 2) = w.
Proof.
  intros Hw H. rewrite <- (sqrt_square w) by exact Hw. f_equal.
  destruct H as [[-> ->]|[[-> ->]|[[-> ->]|[-> ->]]]]; ring.
Qed.

(** Up to step 200 the mobile node is on the border of the rectangle whose
    corners are the four anchors. *)
Lemma pasillo_en_el_perimetro self (t : R) :
  2 <= self.(ancho) -> 2 <= self.(alto) -> 0 <= t <= 200 ->
  let p := posicion_pasillo self t in
  (1 <= p.1 <= self.(ancho) - 1 /\ 1 <= p.2 <= self.(alto) - 1) /\
  (p.1 = 1 \/ p.1 = self.(ancho) - 1 \/ p.2 = 1 \/ p.2 = self.(alto) - 1).
Proof.
  intros Ha Hb Ht. unfold posicion_pasillo.
  destruct (Rlt_dec t 50);
    [|destruct (Rlt_dec t 100); [|destruct (Rlt_dec t 150)]]; cbn [fst snd].
  - pose proof (interpolacion_acotada (t / 50) (ancho self - 2)).
    repeat split; lra.
  - pose proof (interpolacion_acotada ((t - 50) / 50) (alto self - 2)).
    repeat split; lra.
  - pose proof (interpolacion_acotada ((t - 100) / 50) (ancho self - 2)).
    repeat split; lra.
  - pose proof (interpolacion_acotada ((t - 150) / 50) (alto self - 2)).
    repeat split; lra.
Qed.

(** The walk is a closed loop at constant pace on each side: at every step
    [0 <= t < 200] the mobile node is on the border of the rectangle of the
    anchors, the next step moves it by a fiftieth of the side it is on
    (horizontal sides in phases 0 and 2, vertical ones in phases 1 and 3),
    corners included, and the position of step 200 is that of step 0, with
    which the animation starts over. *)
Theorem corridor_walk_is_a_closed_loop
    (self : SimuladorLocalizacionInteriores) (t : Z) :
  2 <= self.(ancho) -> 2 <= self.(alto) -> (0 <= t < 200)%Z ->
  let p := posicion_pasillo self (IZR t) in
  let q := posicion_pasillo self (IZR (t + 1)) in
  (1 <= p.1 <= self.(ancho) - 1 /\ 1 <= p.2 <= self.(alto) - 1) /\
  (p.1 = 1 \/ p.1 = self.(ancho) - 1 \/ p.2 = 1 \/ p.2 = self.(alto) - 1) /\
  calcular_distancia_con_obstaculos q p
  = (if Z.even (t / 50) then (self.(ancho) - 2) / 50 else (self.(alto) - 2) / 50) /\
  posicion_pasillo self (IZR 200) = posicion_pasillo self (IZR 0).
Proof.
  intros Ha Hb Ht p q.
  assert (HtR : 0 <= IZR t <= 200).
  { split; [apply IZR_le; lia | apply IZR_le; lia]. }
  destruct (pasillo_en_el_perimetro self (IZR t) Ha Hb HtR) as [Hin Hper].
  split; [exact Hin|]. split; [exact Hper|]. split.
  - unfold q, p, posicion_pasillo, calcular_distancia_con_obstaculos.
    rewrite plus_IZR.
    assert (Hphase : (0 <= t < 50 /\ t / 50 = 0 \/ 50 <= t < 100 /\ t / 50 = 1 \/
                      100 <= t < 150 /\ t / 50 = 2 \/
                      150 <= t < 200 /\ t / 50 = 3)%Z)
      by (Z.to_euclidean_division_equations; lia).
    destruct Hphase as [[[Hlo Hhi] ->]|[[[Hlo Hhi] ->]|[[[Hlo Hhi] ->]|[[Hlo Hhi] ->]]]];
      cbn [Z.even].
    all: assert (Hnext : IZR t + 1 = IZR (t + 1)) by (rewrite plus_IZR; reflexivity).
    all: apply IZR_le in Hlo; apply Zlt_le_succ, IZR_le in Hhi;
         unfold Z.succ in Hhi; rewrite <- Hnext in Hhi; clear Hnext.
    all: destruct (Rlt_dec (IZR t) 50); try lra;
         destruct (Rlt_dec (IZR t) 100); try lra;
         destruct (Rlt_dec (IZR t) 150); try lra.
    all: destruct (Rlt_dec (IZR t + 1) 50); try lra;
         destruct (Rlt_dec (IZR t + 1) 100); try lra;
         destruct (Rlt_dec (IZR t + 1) 150); try lra.
    all: cbn [fst snd]; apply paso_de_un_lado; [lra|];
         try (assert (IZR t = 49) by lra); try (assert (IZR t = 99) by lra);
         try (assert (IZR t = 149) by lra); try (assert (IZR t = 199) by lra);
         nra.
  - unfold posicion_pasillo.
    destruct (Rlt_dec 200 50); [lra|]. destruct (Rlt_dec 200 100); [lra|].
    destruct (Rlt_dec 200 150); [lra|]. destruct (Rlt_dec 0 50); [|lra].
    apply pair_equal_spec. split; lra.
Qed.

(** Step 49 of the program, the last of the bottom corridor: the next step
    reaches the corner of the second anchor, 18/50 further on. *)
Lemma corridor_walk_is_a_closed_loop_witness :
  2 <= __init__.(ancho) /\ 2 <= __init__.(alto) /\ (0 <= 49 < 200)%Z /\
  calcular_distancia_con_obstaculos
    (posicion_pasillo __init__ (IZR (49 + 1))) (posicion_pasillo __init__ (IZR 49))
  = (20 - 2) / 50.
Proof.
  assert (Ha : 2 <= __init__.(ancho)) by (simpl; lra).
  assert (Hb : 2 <= __init__.(alto)) by (simpl; lra).
  assert (Ht : (0 <= 49 < 200)%Z) by lia.
  split; [exact Ha|]. split; [exact Hb|]. split; [exact Ht|].
  apply (corridor_walk_is_a_closed_loop __init__ 49 Ha Hb Ht).
Defined.

(** The walk never touches a wall or a room: in a building wide and high
    enough for the far corridors to clear the rooms and the inner walls (the
    program's 20 by 15 is), no position up to step 200 lies in any rectangle
    of [paredes], borders included. *)
Theorem corridor_walk_avoids_every_wall
    (self : SimuladorLocalizacionInteriores) (t : R) (pared : Paredes.Rectangle) :
  19 < self.(ancho) -> 14 < self.(alto) -> 0 <= t <= 200 ->
  pared ∈ Paredes.paredes self ->
  ~ Paredes.contiene pared (posicion_pasillo self t).
Proof.
  intros Ha Hb Ht Hin.
  destruct (pasillo_en_el_perimetro self t) as [[Hx Hy] Hper]; [lra..|].
  cbv zeta in Hx, Hy, Hper.
  set (p := posicion_pasillo self t) in *.
  unfold Paredes.paredes in Hin.
  repeat (apply elem_of_cons in Hin as [->|Hin]);
    [..|apply elem_of_nil in Hin; contradiction].
  all: unfold Paredes.contiene; cbn [Paredes.xy Paredes.width Paredes.height fst snd];
       lra.
Qed.

(** The program's building, half way up the right corridor, and the second
    room. *)
Lemma corridor_walk_avoids_every_wall_witness :
  19 < __init__.(ancho) /\ 14 < __init__.(alto) /\ 0 <= 75 <= 200 /\
  Paredes.mkRectangle (9, 2) 5 4 ∈ Paredes.paredes __init__ /\
  ~ Paredes.contiene (Paredes.mkRectangle (9, 2) 5 4) (posicion_pasillo __init__ 75).
Proof.
  assert (Ha : 19 < __init__.(ancho)) by (simpl; lra).
  assert (Hb : 14 < __init__.(alto)) by (simpl; lra).
  assert (Ht : 0 <= 75 <= 200) by lra.
  assert (Hin : Paredes.mkRectangle (9, 2) 5 4 ∈ Paredes.paredes __init__).
  { unfold Paredes.paredes. do 5 apply list_elem_of_further.
    apply list_elem_of_here. }
  split; [exact Ha|]. split; [exact Hb|]. split; [exact Ht|].
  split; [exact Hin|].
  apply (corridor_walk_avoids_every_wall __init__ 75 _ Ha Hb Ht Hin).
Defined.

End Pasillos.

(** ** From the distance to the weight of an anchor *)

Module Pesos.

(** The two halves of the estimator composed: the linear weight that
    [calcular_vector_resultante] gives to the RSSI that [calcular_rssi]
    computes for a positive distance is an inverse power of that distance,
    [d ^ (- exponente_perdida)], times a factor that holds the transmit
    power, the reference loss and the noise draw. *)
Theorem linear_weight_is_inverse_power_of_distance
    (self : Octonodo.SimuladorTrilateracion) (d : R) (g : np.random.RandomState) :
  0 < d ->
  exists rssi,
    Octonodo.calcular_rssi self d g = Ok (rssi, np.random.advance g 1) /\
    np.power 10 (rssi / 10)
    = np.power 10 ((self.(Octonodo.potencia_tx) - self.(Octonodo.perdida_ref)
                    + (0 + 2 * np.random.peek g 0)) / 10)
      * np.power d (- self.(Octonodo.exponente_perdida)).
Proof.
  intros Hd. rewrite OctonodoPasos.calcular_rssi_en_rango by exact Hd.
  eexists. split; [reflexivity|].
  unfold np.power, np.log10_pos, Rpower. rewrite <- exp_plus. f_equal.
  pose proof Propagacion.ln_10_pos. field. lra.
Qed.

(** With the program's exponent 2 the weight falls with the square of the
    distance. *)
Lemma linear_weight_is_inverse_power_of_distance_witness :
  exists self g,
    Octonodo.__init__ generador_unos = Ok (self, g) /\
    0 < 2 /\
    exists rssi,
      Octonodo.calcular_rssi self 2 g = Ok (rssi, np.random.advance g 1) /\
      np.power 10 (rssi / 10)
      = np.power 10 ((0 - 40 + (0 + 2 * np.random.peek g 0)) / 10)
        * np.power 2 (- 2).
Proof.
  eexists _, _. split.
  { cbv beta iota zeta delta
      [Octonodo.__init__ mbind M_bind bind ret draw np.random.randn].
    reflexivity. }
  assert (H2 : 0 < 2) by lra.
  split; [exact H2|].
  refine (linear_weight_is_inverse_power_of_distance _ 2 _ H2).
Defined.

End Pesos.

(** ** What the frames raise *)

Module Errores.

Lemma for_enumerate_from_app {A St} (body : nat -> A -> St -> M St) (l1 l2 : list A) :
  forall (i : nat) (st : St) g,
    for_enumerate_from i (l1 ++ l2) body st g
    = match for_enumerate_from i l1 body st g with
      | Ok (st', g') => for_enumerate_from (i + length l1) l2 body st' g'
      | Raise e => Raise e
      end.
Proof.
  induction l1 as [|x l1 IH]; intros i st g.
  - simpl. unfold ret. rewrite Nat.add_0_r. reflexivity.
  - simpl. unfold_M. destruct (body i x st g) as [[st' g']|e]; [|reflexivity].
    specialize (IH (S i) st' g'). unfold_M_in IH. rewrite IH.
    replace (S i + length l1)%nat with (i + S (length l1))%nat by lia.
    reflexivity.
Qed.

(** A loop that reaches an element on which its body raises. *)
Lemma for_enumerate_raises {A St} (body : nat -> A -> St -> M St)
    (l : list A) (j : nat) (x : A) (st st' : St) g g' (e : exn) :
  l !! j = Some x ->
  for_enumerate_from 0 (take j l) body st g = Ok (st', g') ->
  body j x st' g' = Raise e ->
  for_enumerate_from 0 l body st g = Raise e.
Proof.
  intros Hx Hpre Hbody.
  rewrite <- (take_drop_middle l j x Hx), for_enumerate_from_app.
  rewrite Hpre. simpl. unfold_M.
  rewrite length_take, Nat.min_l by (apply lookup_lt_Some in Hx; lia).
  rewrite Hbody. reflexivity.
Qed.

(** The histories of an anchor that the loop has not reached yet are as the
    frame found them. *)
Lemma anexadas_mas_alla {V} (prefix : string) (vs : list V)
    (h h' : gmap string (list V)) (j : nat) :
  anexadas prefix 0 vs h h' -> (length vs <= j)%nat ->
  h' !! clave prefix j = h !! clave prefix j.
Proof.
  intros [_ Hrest] Hj. apply Hrest. intros j' Hj'. apply clave_ne. lia.
Qed.

(** The indoor [actualizar] looks the two histories of each anchor up by
    key.  When the first anchor that lacks one is anchor [j], the frame
    raises the [KeyError] of that key: of the distance history if it is
    missing, of the RSSI history otherwise. *)
Theorem indoor_frame_raises_key_error_for_missing_history
    (self : Interiores.SimuladorLocalizacionInteriores) (frame : Z)
    (g : np.random.RandomState) (j : nat) (nodo : Point2D) :
  self.(Interiores.nodos_fijos) !! j = Some nodo ->
  Interiores.con_claves self 0 (take j self.(Interiores.nodos_fijos)) ->
  (self.(Interiores.distancias_historicas) !! clave "R" j = None ->
   Interiores.actualizar frame self g = Raise (KeyError (clave "R" j))) /\
  (is_Some (self.(Interiores.distancias_historicas) !! clave "R" j) ->
   self.(Interiores.rssi_historicos) !! clave "RSSI" j = None ->
   Interiores.actualizar frame self g = Raise (KeyError (clave "RSSI" j))).
Proof.
  intros Hj Hk.
  pose proof (lookup_lt_Some _ _ _ Hj) as Hlt.
  destruct (InterioresPasos.medir_nodo_desde
              (take j self.(Interiores.nodos_fijos)) 0
              (Interiores.tras_mover (IZR frame) self) g Hk)
    as (dh' & rh' & Hloop & Hd & Hr).
  assert (Hlen : (length (Interiores.distancias_desde
                            (Interiores.nodo_movil
                               (Interiores.tras_mover (IZR frame) self))
                            (take j self.(Interiores.nodos_fijos))) <= j)%nat).
  { unfold Interiores.distancias_desde. rewrite length_fmap, length_take. lia. }
  pose proof (anexadas_mas_alla _ _ _ _ j Hd Hlen) as Hdj.
  assert (Hlen' : (length (imap (Interiores.rssi_de
                                   (Interiores.tras_mover (IZR frame) self) g)
                             (Interiores.distancias_desde
                                (Interiores.nodo_movil
                                   (Interiores.tras_mover (IZR frame) self))
                                (take j self.(Interiores.nodos_fijos)))) <= j)%nat).
  { rewrite length_imap. exact Hlen. }
  pose proof (anexadas_mas_alla _ _ _ _ j Hr Hlen') as Hrj.
  split.
  - intros Hnone.
    unfold Interiores.actualizar, Interiores.mover_nodo_movil. unfold_M.
    unfold for_enumerate.
    eapply (for_enumerate_raises _ _ j nodo); [exact Hj | exact Hloop |].
    unfold Interiores.medir_nodo. unfold_M. unfold dict_append.
    cbn [Interiores.distancias_historicas Interiores.set_rssi_historicos
         Interiores.set_distancias_historicas].
    rewrite Hdj.
    change (Interiores.distancias_historicas
              (Interiores.tras_mover (IZR frame) self))
      with (Interiores.distancias_historicas self).
    rewrite Hnone. reflexivity.
  - intros [l Hl] Hnone.
    unfold Interiores.actualizar, Interiores.mover_nodo_movil. unfold_M.
    unfold for_enumerate.
    eapply (for_enumerate_raises _ _ j nodo); [exact Hj | exact Hloop |].
    unfold Interiores.medir_nodo. unfold_M. unfold dict_append.
    cbn [Interiores.distancias_historicas Interiores.rssi_historicos
         Interiores.set_rssi_historicos Interiores.set_distancias_historicas].
    rewrite Hdj.
    change (Interiores.distancias_historicas
              (Interiores.tras_mover (IZR frame) self))
      with (Interiores.distancias_historicas self).
    rewrite Hl.
    rewrite InterioresPasos.calcular_rssi_eq.
    cbn [Interiores.rssi_historicos Interiores.set_distancias_historicas].
    rewrite Hrj.
    change (Interiores.rssi_historicos (Interiores.tras_mover (IZR frame) self))
      with (Interiores.rssi_historicos self).
    rewrite Hnone. reflexivity.
Qed.

(** The indoor simulator with its RSSI histories deleted: the first frame
    stops at the first anchor. *)
Lemma indoor_frame_raises_key_error_for_missing_history_witness :
  (Interiores.set_rssi_historicos ∅ Interiores.__init__).(Interiores.nodos_fijos) !! 0%nat
  = Some (1, 1) /\
  Interiores.con_claves (Interiores.set_rssi_historicos ∅ Interiores.__init__) 0
    (take 0 (Interiores.set_rssi_historicos ∅ Interiores.__init__).(Interiores.nodos_fijos)) /\
  Interiores.actualizar 0 (Interiores.set_rssi_historicos ∅ Interiores.__init__)
    generador_unos
  = Raise (KeyError "RSSI1").
Proof.
  assert (Hj : (Interiores.set_rssi_historicos ∅ Interiores.__init__).(Interiores.nodos_fijos)
               !! 0%nat = Some (1, 1)) by reflexivity.
  assert (Hk : Interiores.con_claves
                 (Interiores.set_rssi_historicos ∅ Interiores.__init__) 0
                 (take 0 (Interiores.set_rssi_historicos ∅ Interiores.__init__).(Interiores.nodos_fijos))).
  { intros j Hlt. simpl in Hlt. lia. }
  split; [exact Hj|]. split; [exact Hk|].
  apply (indoor_frame_raises_key_error_for_missing_history _ 0 generador_unos
           0 (1, 1) Hj Hk).
  - exists []. reflexivity.
  - reflexivity.
Defined.

(** The frame of the octonodal simulator, up to its first loop. *)
Lemma actualizar_frame_hasta_vectores (self : Octonodo.SimuladorTrilateracion)
    (frame : Z) g (e : exn) :
  self.(Octonodo.pausa) = false ->
  for_enumerate_from 0 self.(Octonodo.nodos_fijos)
    (Octonodo.actualizar_nodo (Octonodo.medidas_en self (IZR frame) g))
    (Octonodo.set_trayectoria_y
       (self.(Octonodo.trayectoria_y) ++ [(Octonodo.posicion_orbita self (IZR frame)).2])
       (Octonodo.set_trayectoria_x
          (self.(Octonodo.trayectoria_x) ++ [(Octonodo.posicion_orbita self (IZR frame)).1])
          (Octonodo.set_nodo_movil (Octonodo.posicion_orbita self (IZR frame)) self)))
    (np.random.advance g (length self.(Octonodo.nodos_fijos)))
  = Raise e ->
  Octonodo.actualizar_frame frame self g = Raise e.
Proof.
  intros Hpausa Hloop.
  unfold Octonodo.actualizar_frame. rewrite Hpausa.
  unfold Octonodo.mover_nodo_movil. unfold_M.
  rewrite OctonodoPasos.medir_distancias_eq.
  unfold Octonodo.calcular_distancias_reales. rewrite length_fmap.
  unfold Octonodo.actualizar_vectores_rssi, for_enumerate.
  match type of Hloop with
  | ?L = _ =>
      match goal with
      | |- context [for_enumerate_from 0 ?l ?b ?s ?g0] =>
          change (for_enumerate_from 0 l b s g0) with L
      end
  end.
  rewrite Hloop. reflexivity.
Qed.

(** The frame writes entry [i] of [vectores_direccion] and of
    [magnitudes_rssi] for every anchor [i].  When one of the two arrays is
    shorter than the list of anchors, the frame raises [IndexError] at the
    first anchor without an entry. *)
Theorem octonodal_frame_raises_index_error_on_short_arrays
    (self : Octonodo.SimuladorTrilateracion) (frame : Z)
    (g : np.random.RandomState) :
  self.(Octonodo.pausa) = false ->
  (length self.(Octonodo.vectores_direccion) < length self.(Octonodo.nodos_fijos)
   \/ length self.(Octonodo.magnitudes_rssi) < length self.(Octonodo.nodos_fijos))%nat ->
  Octonodo.actualizar_frame frame self g = Raise IndexError.
Proof.
  intros Hp Hshort. apply actualizar_frame_hasta_vectores; [exact Hp|].
  set (movil := Octonodo.posicion_orbita self (IZR frame)).
  set (self2 := Octonodo.set_trayectoria_y _ _).
  set (medidas := Octonodo.medidas_en self (IZR frame) g).
  set (g1 := np.random.advance g _).
  set (m := Nat.min (length self.(Octonodo.vectores_direccion))
              (length self.(Octonodo.magnitudes_rssi))).
  assert (Hm : (m < length self.(Octonodo.nodos_fijos))%nat) by lia.
  assert (Hlen : length medidas = length self.(Octonodo.nodos_fijos))
    by apply OctonodoFrame.length_medidas_en.
  destruct (lookup_lt_is_Some_2 _ m Hm) as [x Hx].
  assert (Hmed : is_Some (medidas !! m))
    by (apply lookup_lt_is_Some_2; lia).
  destruct Hmed as [d Hd].
  destruct (OctonodoPasos.actualizar_nodo_desde medidas
              (take m self.(Octonodo.nodos_fijos)) 0 self2 (take m medidas) g1)
    as (rssis & g2 & Hr & Hloop).
  { rewrite length_take. change (Octonodo.vectores_direccion self2)
      with (Octonodo.vectores_direccion self). lia. }
  { rewrite length_take. change (Octonodo.magnitudes_rssi self2)
      with (Octonodo.magnitudes_rssi self). lia. }
  { rewrite !length_take. lia. }
  { intros j d' Hj. apply lookup_take_Some in Hj. apply Hj. }
  apply comprehension_length in Hr. rewrite length_take in Hr.
  eapply (for_enumerate_raises _ _ m x); [exact Hx | exact Hloop |].
  unfold Octonodo.actualizar_nodo.
  destruct (Octonodo.calcular_vector_direccion x _) as [vector magnitud].
  unfold_M. unfold setitem, getitem.
  cbn [Octonodo.vectores_direccion Octonodo.magnitudes_rssi
       Octonodo.set_magnitudes_rssi Octonodo.set_vectores_direccion].
  change (Octonodo.vectores_direccion self2) with (Octonodo.vectores_direccion self).
  change (Octonodo.magnitudes_rssi self2) with (Octonodo.magnitudes_rssi self).
  rewrite !length_app, !length_take, !length_fmap, !length_take, !length_drop.
  destruct (decide (m < _)%nat) as [Hv|Hv]; [|reflexivity].
  rewrite Hd.
  match goal with
  | |- context [Octonodo.calcular_rssi ?s d g2] =>
      destruct (OctonodoPasos.calcular_rssi_total s d g2) as (r & g3 & ->)
  end.
  destruct (decide (m < _)%nat) as [Hw|Hw]; [lia | reflexivity].
Qed.

(** A fresh simulator whose direction vectors were emptied. *)
Lemma octonodal_frame_raises_index_error_on_short_arrays_witness :
  exists self g,
    Octonodo.__init__ generador_unos = Ok (self, g) /\
    (Octonodo.set_vectores_direccion [] self).(Octonodo.pausa) = false /\
    (0 < length self.(Octonodo.nodos_fijos))%nat /\
    Octonodo.actualizar_frame 0 (Octonodo.set_vectores_direccion [] self) g
    = Raise IndexError.
Proof.
  destruct (OctonodoFrame.init_eq generador_unos)
    as (self & Hinit & (Hp & _) & H8 & _).
  exists self, (np.random.advance (np.random.seed 42 generador_unos) 1800).
  assert (Hpos : (0 < length self.(Octonodo.nodos_fijos))%nat) by lia.
  split; [exact Hinit|]. split; [exact Hp|]. split; [exact Hpos|].
  apply (octonodal_frame_raises_index_error_on_short_arrays
           (Octonodo.set_vectores_direccion [] self) 0 _ Hp).
  left. exact Hpos.
Defined.

(** The frame appends to the distance history of every anchor, looked up by
    key.  With arrays long enough for the first loop, when the first anchor
    without a history is anchor [j], the frame raises the [KeyError] of the
    key of that anchor. *)
Theorem octonodal_frame_raises_key_error_for_missing_history
    (self : Octonodo.SimuladorTrilateracion) (frame : Z)
    (g : np.random.RandomState) (j : nat) :
  self.(Octonodo.pausa) = false ->
  (length self.(Octonodo.nodos_fijos) <= length self.(Octonodo.vectores_direccion))%nat ->
  (length self.(Octonodo.nodos_fijos) <= length self.(Octonodo.magnitudes_rssi))%nat ->
  (j < length self.(Octonodo.nodos_fijos))%nat ->
  (forall i, (i < j)%nat ->
     is_Some (self.(Octonodo.distancias_historicas) !! clave "R" i)) ->
  self.(Octonodo.distancias_historicas) !! clave "R" j = None ->
  Octonodo.actualizar_frame frame self g = Raise (KeyError (clave "R" j)).
Proof.
  intros Hp Hv Hm Hj Hkeys Hnone.
  set (movil := Octonodo.posicion_orbita self (IZR frame)).
  set (self2 :=
         Octonodo.set_trayectoria_y (self.(Octonodo.trayectoria_y) ++ [movil.2])
           (Octonodo.set_trayectoria_x (self.(Octonodo.trayectoria_x) ++ [movil.1])
              (Octonodo.set_nodo_movil movil self))).
  set (medidas := Octonodo.medidas_en self (IZR frame) g).
  assert (Hlen : length medidas = length self.(Octonodo.nodos_fijos))
    by apply OctonodoFrame.length_medidas_en.
  destruct (OctonodoPasos.actualizar_nodo_desde medidas
              self.(Octonodo.nodos_fijos) 0 self2 medidas
              (np.random.advance g (length self.(Octonodo.nodos_fijos))))
    as (rssis & g' & Hrssi & Hloop1).
  { exact Hv. }
  { exact Hm. }
  { exact Hlen. }
  { intros i d Hi. exact Hi. }
  set (self3 := Octonodo.set_magnitudes_rssi _ _) in Hloop1.
  destruct (lookup_lt_is_Some_2 medidas j) as [d Hd]; [lia|].
  destruct (OctonodoHistorial.registrar_distancia_desde (take j medidas) 0 self3 g')
    as (h' & Hloop2 & Hh').
  { intros i Hi. rewrite length_take in Hi. apply Hkeys. lia. }
  assert (Hraise : for_enumerate_from 0 medidas Octonodo.registrar_distancia self3 g'
                   = Raise (KeyError (clave "R" j))).
  { eapply (for_enumerate_raises _ _ j d); [exact Hd | exact Hloop2 |].
    unfold Octonodo.registrar_distancia. unfold_M. unfold dict_append.
    cbn [Octonodo.distancias_historicas Octonodo.set_distancias_historicas].
    rewrite (anexadas_mas_alla _ _ _ _ j Hh')
      by (rewrite length_take; lia).
    change (Octonodo.distancias_historicas self3)
      with (Octonodo.distancias_historicas self).
    rewrite Hnone. reflexivity. }
  unfold Octonodo.actualizar_frame. rewrite Hp.
  unfold Octonodo.mover_nodo_movil. unfold_M. fold movil.
  change (Octonodo.set_trayectoria_y _
            (Octonodo.set_trayectoria_x _ (Octonodo.set_nodo_movil movil self)))
    with self2.
  rewrite OctonodoPasos.medir_distancias_eq.
  unfold Octonodo.calcular_distancias_reales. rewrite length_fmap.
  change (Octonodo.distancias_con_ruido _ g _) with medidas.
  unfold Octonodo.actualizar_vectores_rssi, for_enumerate.
  change (Octonodo.nodos_fijos self2) with (Octonodo.nodos_fijos self).
  rewrite Hloop1.
  unfold Octonodo.actualizar_historicas, for_enumerate. rewrite Hraise.
  reflexivity.
Qed.

(** A fresh simulator whose distance histories were deleted. *)
Lemma octonodal_frame_raises_key_error_for_missing_history_witness :
  exists self g,
    Octonodo.__init__ generador_unos = Ok (self, g) /\
    (0 < length self.(Octonodo.nodos_fijos))%nat /\
    Octonodo.actualizar_frame 0 (Octonodo.set_distancias_historicas ∅ self) g
    = Raise (KeyError "R1").
Proof.
  destruct (OctonodoFrame.init_eq generador_unos)
    as (self & Hinit & (Hp & Hv & Hm & _) & H8 & _).
  exists self, (np.random.advance (np.random.seed 42 generador_unos) 1800).
  assert (Hpos : (0 < length self.(Octonodo.nodos_fijos))%nat) by lia.
  split; [exact Hinit|]. split; [exact Hpos|].
  apply (octonodal_frame_raises_key_error_for_missing_history
           (Octonodo.set_distancias_historicas ∅ self) 0 _ 0 Hp).
  - change (length (Octonodo.nodos_fijos self)
            <= length (Octonodo.vectores_direccion self))%nat. lia.
  - change (length (Octonodo.nodos_fijos self)
            <= length (Octonodo.magnitudes_rssi self))%nat. lia.
  - exact Hpos.
  - intros i Hi. lia.
  - reflexivity.
Defined.

End Errores.

(** ** The simulated inertial signals *)

Module Inercial.
Import Octonodo.

Lemma cumsum_from_length (l : list R) :
  forall acc, length (np.cumsum_from acc l) = length l.
Proof.
  induction l as [|x l IH]; intros acc; simpl; [reflexivity|].
  rewrite IH. reflexivity.
Qed.

(** Each entry of a cumulative sum is the one before plus the next term. *)
Lemma cumsum_from_step (l : list R) :
  forall acc k a x,
    (np.cumsum_from acc l) !! k = Some a ->
    l !! S k = Some x ->
    (np.cumsum_from acc l) !! S k = Some (a + x).
Proof.
  induction l as [|y l IH]; intros acc k a x Ha Hx; [discriminate|].
  destruct k as [|k].
  - simpl in Ha. injection Ha as <-.
    destruct l as [|z l]; [discriminate|].
    simpl in Hx. injection Hx as <-. reflexivity.
  - simpl in Ha, Hx. simpl. apply IH; assumption.
Qed.

Lemma cumsum_first (l : list R) (x : R) :
  l !! 0%nat = Some x -> np.cumsum l !! 0%nat = Some (0 + x).
Proof. destruct l; [discriminate|]. intros [= ->]. reflexivity. Qed.

(** A scaled cumulative sum of a row of samples is a random walk. *)
Lemma paseo_aleatorio (c : R) (muestra : nat -> R) (n : nat) (fila : list R) :
  fila = Rmult c <$> np.cumsum (muestra <$> seq 0 n) ->
  length fila = n /\
  (forall a, fila !! 0%nat = Some a -> a = c * muestra 0%nat) /\
  (forall k a b, fila !! k = Some a -> fila !! S k = Some b ->
     b - a = c * muestra (S k)).
Proof.
  intros ->. split; [|split].
  - unfold np.cumsum. rewrite length_fmap, cumsum_from_length, length_fmap.
    apply length_seq.
  - intros a Ha. rewrite list_lookup_fmap in Ha.
    destruct n as [|n]; [discriminate|].
    rewrite (cumsum_first _ (muestra 0%nat)) in Ha by reflexivity.
    injection Ha as <-. ring.
  - intros k a b Ha Hb. rewrite list_lookup_fmap in Ha, Hb.
    destruct (np.cumsum (muestra <$> seq 0 n) !! k) as [a'|] eqn:Ea;
      [|discriminate].
    injection Ha as <-.
    assert (Hk : (S k < n)%nat).
    { destruct (np.cumsum (muestra <$> seq 0 n) !! S k) eqn:Eb; [|discriminate].
      apply lookup_lt_Some in Eb. unfold np.cumsum in Eb.
      rewrite cumsum_from_length, length_fmap, length_seq in Eb. exact Eb. }
    unfold np.cumsum in *.
    rewrite (cumsum_from_step _ _ _ a' (muestra (S k)) Ea) in Hb.
    + injection Hb as <-. ring.
    + rewrite list_lookup_fmap, lookup_seq_lt by exact Hk. reflexivity.
Qed.

(** The accelerometer and gyroscope signals that [__init__] simulates are
    three random walks of 300 steps each: every series starts at its first
    sample scaled (by 0.5 and by 0.3) and moves by one scaled sample per
    step.  The samples are those of seed 42, in the order drawn (the
    accelerometer takes the first 900, row by row, the gyroscope the next
    900): the signals do not depend on the state in which the program finds
    the generator. *)
Theorem imu_signals_are_seeded_random_walks (g : np.random.RandomState) :
  exists self g',
    __init__ g = Ok (self, g') /\
    length self.(acelerometro) = 3%nat /\
    length self.(giroscopio) = 3%nat /\
    forall r fila_a fila_w,
      self.(acelerometro) !! r = Some fila_a ->
      self.(giroscopio) !! r = Some fila_w ->
      let z := np.random.algorithm g 42 in
      length fila_a = 300%nat /\
      length fila_w = 300%nat /\
      (forall a, fila_a !! 0%nat = Some a -> a = 0.5 * z (300 * r)%nat) /\
      (forall k a b, fila_a !! k = Some a -> fila_a !! S k = Some b ->
         b - a = 0.5 * z (300 * r + S k)%nat) /\
      (forall a, fila_w !! 0%nat = Some a -> a = 0.3 * z (900 + 300 * r)%nat) /\
      (forall k a b, fila_w !! k = Some a -> fila_w !! S k = Some b ->
         b - a = 0.3 * z (900 + 300 * r + S k)%nat).
Proof.
  eexists _, _. split.
  { cbv beta iota zeta delta [__init__ mbind M_bind bind ret draw np.random.randn].
    reflexivity. }
  cbn [acelerometro giroscopio].
  split; [rewrite !length_fmap; reflexivity|].
  split; [rewrite !length_fmap; reflexivity|].
  intros r fila_a fila_w Ha Hw.
  rewrite list_lookup_fmap in Ha. apply fmap_Some in Ha as (fa & Ha & ->).
  rewrite list_lookup_fmap in Ha. apply fmap_Some in Ha as (ra & Hra & ->).
  rewrite list_lookup_fmap in Hw. apply fmap_Some in Hw as (fw & Hw & ->).
  rewrite list_lookup_fmap in Hw. apply fmap_Some in Hw as (rw & Hrw & ->).
  apply lookup_seq in Hra as [-> Hr]. apply lookup_seq in Hrw as [-> _].
  destruct (paseo_aleatorio 0.5
              (fun c => np.random.peek (np.random.seed 42 g) ((0 + r) * 300 + c))
              300 _ eq_refl) as (Hla & Ha0 & Has).
  destruct (paseo_aleatorio 0.3
              (fun c => np.random.peek
                          (np.random.advance (np.random.seed 42 g) (3 * 300))
                          ((0 + r) * 300 + c))
              300 _ eq_refl) as (Hlw & Hw0 & Hws).
  split; [exact Hla|]. split; [exact Hlw|].
  unfold np.random.peek, np.random.seed, np.random.advance in *.
  cbn [np.random.samples np.random.cursor np.random.algorithm] in *.
  repeat split.
  - intros a H0. rewrite (Ha0 a H0). do 2 f_equal. lia.
  - intros k a b Hk HSk. rewrite (Has k a b Hk HSk). do 2 f_equal. lia.
  - intros a H0. rewrite (Hw0 a H0). do 2 f_equal. lia.
  - intros k a b Hk HSk. rewrite (Hws k a b Hk HSk). do 2 f_equal. lia.
Qed.

End Inercial.

(** ** The outdoor scenario *)

Module OutdoorGrid.
Import Outdoor.

Lemma trunc_floor (x : R) (lo hi : Z) :
  (0 <= lo)%Z -> IZR lo <= x <= IZR hi ->
  (lo <= trunc x <= hi)%Z /\ IZR (trunc x) <= x < IZR (trunc x) + 1.
Proof.
  intros Hlo [H1 H2]. unfold trunc.
  assert (H0 : 0 <= x).
  { apply Rle_trans with (IZR lo); [apply IZR_le; exact Hlo | exact H1]. }
  destruct (Rle_dec 0 x) as [_|Hn]; [|contradiction].
  destruct (base_Int_part x) as [Hb1 Hb2].
  split; [|split; lra].
  split.
  - assert (H : (lo - 1 < Int_part x)%Z).
    { apply lt_IZR. rewrite minus_IZR. lra. }
    lia.
  - apply le_IZR. lra.
Qed.

Lemma wrap64_small (z : Z) : (- 2 ^ 63 <= z < 2 ^ 63)%Z -> wrap64 z = z.
Proof.
  intros Hz. unfold wrap64. rewrite Z.mod_small by lia. lia.
Qed.

Lemma registrar_en_historial_desde (ds : list R) :
  forall (i : nat) (st : Globales) g,
    (forall j, (j < length ds)%nat ->
       is_Some (st.(distancias_historicas) !! clave "R" (i + j))) ->
    exists h',
      for_enumerate_from i ds registrar_distancia st g
      = Ok (mkGlobales st.(nodo_movil) h' st.(trayectoria_x) st.(trayectoria_y), g) /\
      anexadas "R" i ds st.(distancias_historicas) h'.
Proof.
  induction ds as [|d ds IH]; intros i st g Hkeys.
  - exists st.(distancias_historicas). split; [|apply anexadas_nil].
    simpl. unfold ret. destruct st; reflexivity.
  - destruct (Hkeys 0%nat ltac:(simpl; lia)) as [l Hl].
    rewrite Nat.add_0_r in Hl.
    set (h1 := <[clave "R" i := l ++ [d]]> st.(distancias_historicas)).
    destruct (IH (S i) (mkGlobales st.(nodo_movil) h1 st.(trayectoria_x)
                          st.(trayectoria_y)) g)
      as (h' & Hloop & Hh').
    { intros j Hj. cbn [distancias_historicas]. subst h1.
      rewrite lookup_insert_ne by (apply clave_ne; lia).
      replace (S i + j)%nat with (i + S j)%nat by lia. apply Hkeys. simpl. lia. }
    exists h'. split; [|apply (anexadas_cons _ _ _ _ l); assumption].
    simpl. unfold_M. unfold registrar_distancia at 1. unfold_M.
    unfold dict_append. rewrite Hl. fold h1. exact Hloop.
Qed.

Lemma posicion_en_la_rejilla (frame : Z) :
  let x := (posicion frame).1 in
  let y := (posicion frame).2 in
  (2 <= x <= 8)%Z /\ (2 <= y <= 8)%Z /\
  IZR x <= 5 + 3 * sin (IZR frame * 0.1) < IZR x + 1 /\
  IZR y <= 5 + 3 * cos (IZR frame * 0.1) < IZR y + 1.
Proof.
  unfold posicion. cbn [fst snd].
  pose proof (SIN_bound (IZR frame * 0.1)) as Hs.
  pose proof (COS_bound (IZR frame * 0.1)) as Hc.
  destruct (trunc_floor (5 + 3 * sin (IZR frame * 0.1)) 2 8) as [Hx Hx'];
    [lia | lra |].
  destruct (trunc_floor (5 + 3 * cos (IZR frame * 0.1)) 2 8) as [Hy Hy'];
    [lia | lra |].
  auto.
Qed.

Lemma calcular_distancia_exacta (p q : Z * Z) :
  (0 <= p.1 <= 10)%Z -> (0 <= p.2 <= 10)%Z ->
  (0 <= q.1 <= 10)%Z -> (0 <= q.2 <= 10)%Z ->
  calcular_distancia p q = sqrt (IZR ((p.1 - q.1) ^ 2 + (p.2 - q.2) ^ 2)).
Proof.
  intros H1 H2 H3 H4. unfold calcular_distancia. cbv zeta.
  rewrite (wrap64_small (p.1 - q.1)) by lia.
  rewrite (wrap64_small (p.2 - q.2)) by lia.
  assert (Hx : (0 <= (p.1 - q.1) ^ 2 <= 100)%Z) by nia.
  assert (Hy : (0 <= (p.2 - q.2) ^ 2 <= 100)%Z) by nia.
  rewrite (wrap64_small ((p.1 - q.1) ^ 2)) by lia.
  rewrite (wrap64_small ((p.2 - q.2) ^ 2)) by lia.
  rewrite wrap64_small by lia. reflexivity.
Qed.

(** The mobile node of the outdoor scenario moves on the integer grid.  The
    array that holds its position has integer entries, so a frame stores the
    integer part of each coordinate of the circle of radius 3 around (5, 5):
    integers between 2 and 8, up to 1 below the coordinate computed.  The
    trace takes these integers, and each distance history the distance from
    that grid point to its anchor, computed without overflow. *)
Theorem outdoor_mobile_node_moves_on_the_integer_grid
    (frame : Z) (st : Globales) (g : np.random.RandomState) :
  (forall i, (i < 4)%nat -> is_Some (st.(distancias_historicas) !! clave "R" i)) ->
  exists st',
    actualizar frame st g = Ok (st', g) /\
    let x := st'.(nodo_movil).1 in
    let y := st'.(nodo_movil).2 in
    (2 <= x <= 8)%Z /\ (2 <= y <= 8)%Z /\
    IZR x <= 5 + 3 * sin (IZR frame * 0.1) < IZR x + 1 /\
    IZR y <= 5 + 3 * cos (IZR frame * 0.1) < IZR y + 1 /\
    st'.(trayectoria_x) = st.(trayectoria_x) ++ [x] /\
    st'.(trayectoria_y) = st.(trayectoria_y) ++ [y] /\
    forall i nodo l,
      nodos_fijos !! i = Some nodo ->
      st.(distancias_historicas) !! clave "R" i = Some l ->
      st'.(distancias_historicas) !! clave "R" i
      = Some (l ++ [sqrt (IZR ((x - nodo.1) ^ 2 + (y - nodo.2) ^ 2))]).
Proof.
  intros Hkeys.
  destruct (posicion_en_la_rejilla frame) as (Hx & Hy & Hx' & Hy').
  set (st1 := mkGlobales (posicion frame) st.(distancias_historicas)
                (st.(trayectoria_x) ++ [(posicion frame).1])
                (st.(trayectoria_y) ++ [(posicion frame).2])).
  destruct (registrar_en_historial_desde
              (calcular_distancia (posicion frame) <$> nodos_fijos) 0 st1 g)
    as (h' & Hloop & [Hh' _]).
  { intros j Hj. rewrite length_fmap in Hj. apply Hkeys. exact Hj. }
  eexists. split; [exact Hloop|]. cbn [nodo_movil trayectoria_x trayectoria_y
                                        distancias_historicas st1].
  repeat (split; [assumption || reflexivity|]).
  intros i nodo l Hi Hl.
  specialize (Hh' i (calcular_distancia (posicion frame) nodo)).
  cbn [Nat.add distancias_historicas st1] in Hh'. rewrite Hl in Hh'.
  rewrite Hh' by (rewrite list_lookup_fmap, Hi; reflexivity).
  cbn [fmap option_fmap option_map]. do 3 f_equal.
  apply calcular_distancia_exacta; try lia.
  - unfold nodos_fijos in Hi.
    repeat (destruct i as [|i]; [injection Hi as <-; cbn; lia|]); discriminate.
  - unfold nodos_fijos in Hi.
    repeat (destruct i as [|i]; [injection Hi as <-; cbn; lia|]); discriminate.
Qed.

(** The first frame of the script: the node is put on the grid point
    (5, 8). *)
Lemma outdoor_mobile_node_moves_on_the_integer_grid_witness :
  (forall i, (i < 4)%nat -> is_Some (inicio.(distancias_historicas) !! clave "R" i)) /\
  exists st',
    actualizar 0 inicio generador_unos = Ok (st', generador_unos) /\
    (2 <= st'.(nodo_movil).1 <= 8)%Z /\ (2 <= st'.(nodo_movil).2 <= 8)%Z.
Proof.
  assert (Hk : forall i, (i < 4)%nat ->
                 is_Some (inicio.(distancias_historicas) !! clave "R" i)).
  { intros i Hi. cbn [inicio distancias_historicas].
    rewrite lookup_historial_vacio by exact Hi. eauto. }
  split; [exact Hk|].
  destruct (outdoor_mobile_node_moves_on_the_integer_grid 0 inicio generador_unos Hk)
    as (st' & Hstep & Hx & Hy & _).
  exists st'. split; [exact Hstep|]. split; assumption.
Defined.

End OutdoorGrid.

(** ** Measured distances below zero *)

Module MedidasNegativas.
Import Octonodo.

Lemma comprehension_lookup {A B} (f : A -> M B) (l : list A) :
  forall g ys g' (i : nat) (x : A),
    comprehension f l g = Ok (ys, g') ->
    l !! i = Some x ->
    exists gi y gi', f x gi = Ok (y, gi') /\ ys !! i = Some y.
Proof.
  induction l as [|a l IH]; intros g ys g' i x Hc Hi; [discriminate|].
  simpl in Hc. unfold_M_in Hc.
  destruct (f a g) as [[y g1]|e] eqn:Hf; [|discriminate].
  destruct (comprehension f l g1) as [[ys' g2]|e] eqn:Hrest; [|discriminate].
  injection Hc as <- <-.
  destruct i as [|i].
  - injection Hi as <-. exists g, y, g1. split; [exact Hf | reflexivity].
  - simpl in Hi. destruct (IH g1 ys' g2 i x) as (gi & y' & gi' & Hy & Hl).
    + unfold_M. exact Hrest.
    + exact Hi.
    + exists gi, y', gi'. split; [exact Hy | exact Hl].
Qed.

(** The distance noise can push a measured distance to zero or below.  The
    frame then shows and records that non-positive distance, and the RSSI of
    the anchor is exactly [potencia_tx], the guard of [calcular_rssi], with
    no loss and no noise: the anchor is heard as if at full power. *)
Theorem nonpositive_measured_distance_reads_as_full_power
    (self : SimuladorTrilateracion) (frame : Z) (g : np.random.RandomState)
    (i : nat) (nodo : Point2D) :
  bien_formado self ->
  self.(nodos_fijos) !! i = Some nodo ->
  calcular_distancia (posicion_orbita self (IZR frame)) nodo
  + (0 + self.(error_medicion) * np.random.peek g i) <= 0 ->
  exists self' salida g',
    actualizar_frame frame self g = Ok ((self', Some salida), g') /\
    salida.(distancias_medidas) !! i
    = Some (calcular_distancia (posicion_orbita self (IZR frame)) nodo
            + (0 + self.(error_medicion) * np.random.peek g i)) /\
    salida.(rssi_medidos) !! i = Some self.(potencia_tx) /\
    self'.(magnitudes_rssi) !! i = Some self.(potencia_tx) /\
    exists l,
      self.(distancias_historicas) !! clave "R" i = Some l /\
      self'.(distancias_historicas) !! clave "R" i
      = Some (l ++ [calcular_distancia (posicion_orbita self (IZR frame)) nodo
                    + (0 + self.(error_medicion) * np.random.peek g i)]).
Proof.
  intros Hbf Hi Hneg.
  destruct (OctonodoFrame.actualizar_frame_spec self frame g Hbf)
    as (rssis & g' & h' & Hr & [Hh _] & Hstep).
  pose proof (OctonodoMedidas.lookup_medidas_en self (IZR frame) g i nodo Hi) as Hm.
  destruct (comprehension_lookup _ _ _ _ _ i _ Hr Hm) as (gi & y & gi' & Hy & Hl).
  rewrite OctonodoPasos.calcular_rssi_fuera_de_rango in Hy by exact Hneg.
  injection Hy as <- _.
  eexists _, _, g'. split; [exact Hstep|].
  cbn [distancias_medidas rssi_medidos salida_de magnitudes_rssi estado_tras
       set_distancias_historicas set_magnitudes_rssi distancias_historicas].
  split; [exact Hm|]. split; [exact Hl|]. split; [exact Hl|].
  destruct Hbf as (_ & _ & _ & Hkeys).
  destruct (Hkeys i) as [l Hlk]; [eapply lookup_lt_Some, Hi|].
  exists l. split; [exact Hlk|].
  specialize (Hh i _ Hm). cbn [Nat.add] in Hh. rewrite Hlk in Hh. exact Hh.
Qed.

(** The simulator with one anchor under the mobile node and a sample of -1:
    the measured distance is -0.2 and the RSSI the transmit power, 0 dBm. *)
Lemma nonpositive_measured_distance_reads_as_full_power_witness :
  bien_formado simulador_de_un_nodo /\
  simulador_de_un_nodo.(nodos_fijos) !! 0%nat = Some (0, 0) /\
  calcular_distancia (posicion_orbita simulador_de_un_nodo (IZR 0)) (0, 0)
  + (0 + simulador_de_un_nodo.(error_medicion)
         * np.random.peek generador_menos_unos 0) <= 0 /\
  exists self' salida g',
    actualizar_frame 0 simulador_de_un_nodo generador_menos_unos
    = Ok ((self', Some salida), g') /\
    salida.(rssi_medidos) !! 0%nat = Some 0.
Proof.
  assert (Hbf : bien_formado simulador_de_un_nodo).
  { unfold bien_formado.
    cbn [simulador_de_un_nodo pausa vectores_direccion magnitudes_rssi
         nodos_fijos distancias_historicas length].
    split; [reflexivity|]. split; [reflexivity|]. split; [reflexivity|].
    intros i Hi. rewrite lookup_historial_vacio by exact Hi. eauto. }
  assert (Hi : simulador_de_un_nodo.(nodos_fijos) !! 0%nat = Some (0, 0))
    by reflexivity.
  assert (Hneg : calcular_distancia
                   (posicion_orbita simulador_de_un_nodo (IZR 0)) (0, 0)
                 + (0 + simulador_de_un_nodo.(error_medicion)
                        * np.random.peek generador_menos_unos 0) <= 0).
  { unfold calcular_distancia, posicion_orbita, np.random.peek. cbn.
    replace ((0 + 0 * sin (0 * 0.03) - 0) * ((0 + 0 * sin (0 * 0.03) - 0) * 1)
             + (0 + 0 * cos (0 * 0.03) - 0) * ((0 + 0 * cos (0 * 0.03) - 0) * 1))
      with 0 by ring.
    rewrite sqrt_0. lra. }
  split; [exact Hbf|]. split; [exact Hi|]. split; [exact Hneg|].
  destruct (nonpositive_measured_distance_reads_as_full_power
              simulador_de_un_nodo 0 generador_menos_unos 0 (0, 0) Hbf Hi Hneg)
    as (self' & salida & g' & Hstep & _ & Hr & _).
  exists self', salida, g'. split; [exact Hstep | exact Hr].
Defined.

End MedidasNegativas.

(** ** The dictionaries of histories *)

Module Historiales.

Lemma historial_vacio_S {V} (prefix : string) (n : nat) :
  historial_vacio (V:=V) prefix (S n)
  = <[clave prefix n := []]> (historial_vacio prefix n).
Proof. unfold historial_vacio. rewrite seq_S, foldl_app. reflexivity. Qed.

Lemma lookup_historial_vacio_otra {V} (prefix : string) (n : nat) (k : string) :
  (forall i, (i < n)%nat -> k <> clave prefix i) ->
  historial_vacio (V:=V) prefix n !! k = None.
Proof.
  induction n as [|n IH]; intros Hk; [apply lookup_empty|].
  rewrite historial_vacio_S, lookup_insert_ne.
  - apply IH. intros i Hi. apply Hk. lia.
  - intros Heq. apply (Hk n); [lia | congruence].
Qed.

(** The dictionary comprehension [{f'{prefix}{i+1}': [] for i in range(n)}]
    that sets the histories up: it has exactly [n] entries, one per anchor,
    each an empty list; the keys of different anchors differ (no two numbers
    are written alike), and every other key is absent, so that looking it up
    raises [KeyError]. *)
Theorem fresh_histories_have_one_empty_list_per_anchor
    {V} (prefix : string) (n : nat) :
  size (historial_vacio (V:=V) prefix n) = n /\
  (forall i, (i < n)%nat ->
     historial_vacio (V:=V) prefix n !! clave prefix i = Some []) /\
  (forall i j, clave prefix i = clave prefix j -> i = j) /\
  (forall k v, (forall i, (i < n)%nat -> k <> clave prefix i) ->
     historial_vacio (V:=V) prefix n !! k = None /\
     dict_append (historial_vacio (V:=V) prefix n) k v = Raise (KeyError k)).
Proof.
  split; [|split; [|split]].
  - induction n as [|n IH]; [apply map_size_empty|].
    rewrite historial_vacio_S, map_size_insert_None, IH; [reflexivity|].
    apply lookup_historial_vacio_otra. intros i Hi. apply clave_ne. lia.
  - intros i Hi. apply lookup_historial_vacio, Hi.
  - apply clave_inj.
  - intros k v Hk.
    pose proof (lookup_historial_vacio_otra (V:=V) prefix n k Hk) as Hnone.
    split; [exact Hnone|]. unfold dict_append. rewrite Hnone. reflexivity.
Qed.

End Historiales.

(** ** Opposite anchors of the circular layout *)

Module Antipodas.
Import Octonodo.

(** With an even number of anchors, the anchor half a turn further on is the
    mirror image through the centre. *)
Theorem opposite_anchors_mirror_through_the_centre
    (centro : Point2D) (radio : R) (m i : nat) (p q : Point2D) :
  generar_nodos_circulares centro radio (2 * m) !! i = Some p ->
  generar_nodos_circulares centro radio (2 * m) !! (i + m)%nat = Some q ->
  q = (2 * centro.1 - p.1, 2 * centro.2 - p.2) /\
  calcular_distancia q p = 2 * Rabs radio.
Proof.
  intros Hp Hq.
  assert (Him : (i + m < 2 * m)%nat).
  { apply lookup_lt_Some in Hq.
    rewrite OctonodoLayout.length_generar_nodos_circulares in Hq. exact Hq. }
  assert (Hi : (i < 2 * m)%nat) by lia.
  rewrite OctonodoLayout.lookup_generar_nodos_circulares in Hp by exact Hi.
  rewrite OctonodoLayout.lookup_generar_nodos_circulares in Hq by exact Him.
  assert (Hm : 0 < INR m) by (apply lt_0_INR; lia).
  assert (Ha : 2 * PI * INR (i + m) / INR (2 * m)
               = 2 * PI * INR i / INR (2 * m) + PI).
  { rewrite plus_INR, mult_INR. simpl INR. field. lra. }
  rewrite Ha, neg_cos, neg_sin in Hq.
  assert (Ep : p = (centro.1 + radio * cos (2 * PI * INR i / INR (2 * m)),
                    centro.2 + radio * sin (2 * PI * INR i / INR (2 * m))))
    by congruence.
  assert (Eq : q = (centro.1 + radio * - cos (2 * PI * INR i / INR (2 * m)),
                    centro.2 + radio * - sin (2 * PI * INR i / INR (2 * m))))
    by congruence.
  clear Hp Hq Ha. subst p q.
  set (a := 2 * PI * INR i / INR (2 * m)).
  split.
  - cbn [fst snd]. f_equal; ring.
  - unfold calcular_distancia. cbn [fst snd].
    pose proof (cos_sin_unit a) as Hu.
    replace ((centro.1 + radio * - cos a - (centro.1 + radio * cos a)) ^ 2
             + (centro.2 + radio * - sin a - (centro.2 + radio * sin a)) ^ 2)
      with ((2 * radio)²).
    + rewrite sqrt_Rsqr_abs, Rabs_mult, (Rabs_pos_eq 2) by lra. reflexivity.
    + unfold Rsqr.
      transitivity (4 * radio * radio * (cos a * cos a + sin a * sin a));
        [rewrite Hu; ring | ring].
Qed.

(** The octagon of the program, of radius 1 for the example: the fifth
    anchor is opposite the first. *)
Lemma opposite_anchors_mirror_through_the_centre_witness :
  exists p q,
    generar_nodos_circulares (0, 0) 1 (2 * 4) !! 0%nat = Some p /\
    generar_nodos_circulares (0, 0) 1 (2 * 4) !! (0 + 4)%nat = Some q /\
    q = (2 * 0 - p.1, 2 * 0 - p.2).
Proof.
  assert (H0 : (0 < 2 * 4)%nat) by lia.
  assert (H4 : (0 + 4 < 2 * 4)%nat) by lia.
  pose proof (OctonodoLayout.lookup_generar_nodos_circulares (0, 0) 1 (2 * 4) 0 H0)
    as Hp.
  pose proof (OctonodoLayout.lookup_generar_nodos_circulares (0, 0) 1 (2 * 4) (0 + 4) H4)
    as Hq.
  eexists _, _. split; [exact Hp|]. split; [exact Hq|].
  apply (opposite_anchors_mirror_through_the_centre (0, 0) 1 4 0 _ _ Hp Hq).
Defined.

End Antipodas.
